(** * atools, fs/sc/datareaderthread.cpp: the SimConnect data reader thread

    A shallow embedding of [DataReaderThread] (connection loop, main
    acquisition loop, weather request mailbox, replay recording and
    playback) and the properties of its natural-language specification.

    The thread object is a record; every method is a function from the
    object to the object.  Qt signals, calls into the [SimConnectHandler]
    and replay file accesses are appended to a trace kept in the object, so
    that statements can speak about what a run emitted.  Everything the
    thread only observes (answers of the handler, the clock, requests and
    cancellation coming from other threads) is given by a script: one
    [Tick] for every second spent in [connectToSimulator], one [Cycle] for
    every iteration of the main loop of [run].  A script is finite; where
    it ends, the thread is asked to stop, so that both loops are total
    functions and every run ends with the teardown of [run].

    Not modelled: the [qDebug] output behind [verbose], the mutexes, and
    the length of the timed wait between two iterations (a quotient of
    floats).  Packet ids and the id counter are unbounded integers: the
    width of the counter is declared in datareaderthread.h, which is not
    part of the sources. *)

From Stdlib Require Import String.
From Stdlib Require Import ZArith List Bool Lia Arith Sorted.
From Stdlib Require Import Strings.Byte.
Import ListNotations.

Local Open Scope Z_scope.
Local Open Scope list_scope.

(** ** Bytes and the big-endian 32-bit fields of [QDataStream] *)

Definition Z_of_byte (b : byte) : Z := Z.of_N (Byte.to_N b).

Definition byte_of_Z (z : Z) : byte :=
  match Byte.of_N (Z.to_N (z mod 256)) with
  | Some b => b
  | None => x00
  end.

(** [QDataStream::operator<<(quint32)]: four bytes, most significant
    first (the default byte order of a [QDataStream]). *)
Definition put_u32 (v : Z) : list byte :=
  [byte_of_Z (v / 16777216); byte_of_Z (v / 65536); byte_of_Z (v / 256);
   byte_of_Z v].

(** [QDataStream::operator>>(quint32&)]: the value and the bytes left; a
    read past the end of the device yields 0. *)
Definition get_u32 (bs : list byte) : Z * list byte :=
  match bs with
  | a :: b :: c :: d :: rest =>
      (Z_of_byte a * 16777216 + Z_of_byte b * 65536 + Z_of_byte c * 256
       + Z_of_byte d, rest)
  | _ => (0, [])
  end.

(** ** Data model *)

(** Modelled from the spec: [WeatherRequest] is declared in a header that
    is not part of the sources; the spec describes it as a validity flag
    plus a query descriptor.  A default-constructed request is not valid. *)
Record WeatherRequest := mkWeatherRequest {
  isValid : bool;
  descriptor : string
}.

Definition WeatherRequest_default : WeatherRequest :=
  mkWeatherRequest false EmptyString.

Inductive SimConnectStatus := OK | ERROR.

Definition Metars := list (string * string).
Definition Payload := list byte.

(** Modelled from the spec: [SimConnectData] (simconnectdata.h is not part
    of the sources) with the fields of the spec's SimPacket. *)
Record SimConnectData := mkSimConnectData {
  packetId : Z;
  packetTs : Z;
  status : SimConnectStatus;
  statusText : string;
  metars : Metars;
  payload : Payload
}.

(** Modelled from the spec: the default-constructed packet is the empty
    reply: id 0, status OK, no metars. *)
Definition SimConnectData_default : SimConnectData :=
  mkSimConnectData 0 0 OK EmptyString [] [].

Definition setPacketId (id : Z) (d : SimConnectData) : SimConnectData :=
  mkSimConnectData id (packetTs d) (status d) (statusText d) (metars d)
                   (payload d).

Definition setPacketTimestamp (ts : Z) (d : SimConnectData) : SimConnectData :=
  mkSimConnectData (packetId d) ts (status d) (statusText d) (metars d)
                   (payload d).

(** What a fetch of the handler stores into the packet it is given: the
    handler owns the decoding of the telemetry blob and of the weather
    reports and leaves the other fields alone. *)
Record Fill := mkFill {
  fillMetars : Metars;
  fillPayload : Payload
}.

Definition applyFill (f : Fill) (d : SimConnectData) : SimConnectData :=
  mkSimConnectData (packetId d) (packetTs d) (status d) (statusText d)
                   (fillMetars f) (fillPayload f).

(** State reported by [SimConnectHandler::getState]. *)
Inductive HandlerState := STATEOK | STATE_ERROR (code : nat).

Definition isSTATEOK (s : HandlerState) : bool :=
  match s with STATEOK => true | STATE_ERROR _ => false end.

(** The part of the handler the thread relies on: the single weather
    request slot behind [addWeatherRequest] / [getWeatherRequest]. *)
Record SimConnectHandler := mkHandler {
  weatherRequest : WeatherRequest
}.

(** A [QFile] object: the name it was built with, the read position and
    whether it is open.  The bytes live in the file system. *)
Record QFile := mkQFile {
  fileName : string;
  pos : nat;
  isOpen : bool
}.

Record FileSystem := mkFileSystem {
  contents : string -> list byte;      (* no bytes for a missing file *)
  canRead : string -> bool;            (* open(ReadOnly) succeeds *)
  canWrite : string -> bool            (* open(WriteOnly) succeeds *)
}.

Definition overwrite (fs : FileSystem) (path : string) (bs : list byte)
  : FileSystem :=
  mkFileSystem
    (fun p => if String.eqb p path then bs else contents fs p)
    (canRead fs) (canWrite fs).

(** ** Trace *)

Inductive LogMessage :=
| MsgNotConnected                       (* Not connected to the simulator. Waiting ... *)
| MsgConnected                          (* Connected to simulator. *)
| MsgErrorReading (path text : string)  (* Error reading "%1": %2. *)
| MsgCannotOpen (path : string)         (* Cannot open "%1". *)
| MsgWrongMagic (path : string)         (* ... Is not a replay file - wrong magic number. *)
| MsgWrongVersion (path : string)       (* ... Wrong version. *)
| MsgTooSmall (path : string)           (* ... File is too small. *)
| MsgReplaying (path : string)          (* Replaying from "%1". *)
| MsgSaving (path : string).            (* Saving replay to "%1". *)

Inductive Warning :=
| WarnFetchError                        (* Error fetching data from simulator. *)
| WarnNoWeather.                        (* Weather requested but noting found *)

Inductive Event :=
(* signals *)
| postLogMessage (m : LogMessage) (isError : bool)
| connectedToSimulator
| disconnectedFromSimulator
| postSimConnectData (d : SimConnectData)
(* log *)
| qWarning (w : Warning)
(* calls into the handler *)
| handler_connect (ok : bool)
| handler_fetchData (ok : bool)
| handler_fetchWeatherData (req : WeatherRequest)
| handler_addWeatherRequest (req : WeatherRequest)
(* replay file *)
| replay_read (d : SimConnectData)
| replay_write (d : SimConnectData)
(* QThread::sleep(1) *)
| sleep_1s.

(** ** The thread object *)

Record DataReaderThread := mkThread {
  terminate : bool;
  connected : bool;
  reconnecting : bool;
  nextPacketId : Z;
  updateRate : Z;
  reconnectRateSec : Z;
  replayUpdateRateMs : Z;
  loadReplayFilepath : string;
  saveReplayFilepath : string;
  loadReplayFile : option QFile;
  saveReplayFile : option QFile;
  handler : SimConnectHandler;
  disk : FileSystem;
  trace : list Event
}.

Definition set_terminate (b : bool) (t : DataReaderThread) :=
  mkThread b (connected t) (reconnecting t) (nextPacketId t) (updateRate t)
    (reconnectRateSec t) (replayUpdateRateMs t) (loadReplayFilepath t)
    (saveReplayFilepath t) (loadReplayFile t) (saveReplayFile t) (handler t)
    (disk t) (trace t).

Definition set_connected (b : bool) (t : DataReaderThread) :=
  mkThread (terminate t) b (reconnecting t) (nextPacketId t) (updateRate t)
    (reconnectRateSec t) (replayUpdateRateMs t) (loadReplayFilepath t)
    (saveReplayFilepath t) (loadReplayFile t) (saveReplayFile t) (handler t)
    (disk t) (trace t).

Definition set_reconnecting (b : bool) (t : DataReaderThread) :=
  mkThread (terminate t) (connected t) b (nextPacketId t) (updateRate t)
    (reconnectRateSec t) (replayUpdateRateMs t) (loadReplayFilepath t)
    (saveReplayFilepath t) (loadReplayFile t) (saveReplayFile t) (handler t)
    (disk t) (trace t).

Definition set_nextPacketId (n : Z) (t : DataReaderThread) :=
  mkThread (terminate t) (connected t) (reconnecting t) n (updateRate t)
    (reconnectRateSec t) (replayUpdateRateMs t) (loadReplayFilepath t)
    (saveReplayFilepath t) (loadReplayFile t) (saveReplayFile t) (handler t)
    (disk t) (trace t).

Definition set_replayUpdateRateMs (n : Z) (t : DataReaderThread) :=
  mkThread (terminate t) (connected t) (reconnecting t) (nextPacketId t)
    (updateRate t) (reconnectRateSec t) n (loadReplayFilepath t)
    (saveReplayFilepath t) (loadReplayFile t) (saveReplayFile t) (handler t)
    (disk t) (trace t).

Definition set_loadReplayFile (f : option QFile) (t : DataReaderThread) :=
  mkThread (terminate t) (connected t) (reconnecting t) (nextPacketId t)
    (updateRate t) (reconnectRateSec t) (replayUpdateRateMs t)
    (loadReplayFilepath t) (saveReplayFilepath t) f (saveReplayFile t)
    (handler t) (disk t) (trace t).

Definition set_saveReplayFile (f : option QFile) (t : DataReaderThread) :=
  mkThread (terminate t) (connected t) (reconnecting t) (nextPacketId t)
    (updateRate t) (reconnectRateSec t) (replayUpdateRateMs t)
    (loadReplayFilepath t) (saveReplayFilepath t) (loadReplayFile t) f
    (handler t) (disk t) (trace t).

Definition set_handler (h : SimConnectHandler) (t : DataReaderThread) :=
  mkThread (terminate t) (connected t) (reconnecting t) (nextPacketId t)
    (updateRate t) (reconnectRateSec t) (replayUpdateRateMs t)
    (loadReplayFilepath t) (saveReplayFilepath t) (loadReplayFile t)
    (saveReplayFile t) h (disk t) (trace t).

Definition set_disk (fs : FileSystem) (t : DataReaderThread) :=
  mkThread (terminate t) (connected t) (reconnecting t) (nextPacketId t)
    (updateRate t) (reconnectRateSec t) (replayUpdateRateMs t)
    (loadReplayFilepath t) (saveReplayFilepath t) (loadReplayFile t)
    (saveReplayFile t) (handler t) fs (trace t).

(** [emit] of a signal, and likewise the record of a call or file access. *)
Definition emit (e : Event) (t : DataReaderThread) :=
  mkThread (terminate t) (connected t) (reconnecting t) (nextPacketId t)
    (updateRate t) (reconnectRateSec t) (replayUpdateRateMs t)
    (loadReplayFilepath t) (saveReplayFilepath t) (loadReplayFile t)
    (saveReplayFile t) (handler t) (disk t) (trace t ++ [e]).

(** [setReconnectRateSec], lines 221-224. *)
Definition setReconnectRateSec (reconnectSec : Z) (t : DataReaderThread) :=
  mkThread (terminate t) (connected t) (reconnecting t) (nextPacketId t)
    (updateRate t) reconnectSec (replayUpdateRateMs t)
    (loadReplayFilepath t) (saveReplayFilepath t) (loadReplayFile t)
    (saveReplayFile t) (handler t) (disk t) (trace t).

(** ** What the thread observes *)

(** One iteration of the loop of [connectToSimulator]: the answer
    [handler->connect()] gives if it is asked in this iteration, and what
    other threads do during the [QThread::sleep(1)] that ends it. *)
Record Tick := mkTick {
  connectOk : bool;
  tickSubmits : list WeatherRequest;   (* calls of setWeatherRequest *)
  cancelInSleep : bool                 (* terminate is set *)
}.

(** One iteration of the main loop of [run]. *)
Record Cycle := mkCycle {
  fetchOk : bool;                      (* handler->fetchData returns *)
  fetchFill : Fill;                    (* ... and stores *)
  weatherFill : Fill;                  (* handler->fetchWeatherData stores *)
  handlerState : HandlerState;         (* handler->getState() *)
  simRunning : bool;                   (* handler->isSimRunning() *)
  reconnectTicks : list Tick;          (* a reconnect inside this iteration *)
  now : Z;                             (* currentDateTime().toTime_t() *)
  waitSubmits : list WeatherRequest;   (* setWeatherRequest during the wait *)
  cancelInWait : bool                  (* terminate is set during the wait *)
}.

(** ** Constants and record format *)

(** The constants of datareaderthread.h and the record format of
    [SimConnectData::read] / [SimConnectData::write] (simconnectdata.cpp);
    neither file is part of the sources, so they are parameters of the
    development.  [SimConnectData_read] gets the bytes from the read
    position to the end of the file and returns the packet (with its
    status) and the number of bytes it consumed. *)
Class ReplayFormat := mkReplayFormat {
  REPLAY_FILE_MAGIC_NUMBER : Z;
  REPLAY_FILE_VERSION : Z;
  SimConnectData_read : list byte -> SimConnectData * nat;
  SimConnectData_write : SimConnectData -> list byte
}.

(** Modelled from the spec: the data section starts at byte 12, right
    after the three 32-bit header fields (the constant itself is declared
    in datareaderthread.h). *)
Definition REPLAY_FILE_DATA_START_OFFSET : nat := 12.

(** Modelled from the spec: the record format is understood by both the
    writer and the reader: reading what [write] produced gives the packet
    back and consumes exactly its bytes; the header constants are
    [quint32] values. *)
Class ReplayFormatOk (fmt : ReplayFormat) : Prop := mkReplayFormatOk {
  magic_range : 0 <= REPLAY_FILE_MAGIC_NUMBER < 4294967296;
  version_range : 0 <= REPLAY_FILE_VERSION < 4294967296;
  read_write : forall d rest,
      SimConnectData_read (SimConnectData_write d ++ rest)
      = (d, length (SimConnectData_write d))
}.

Notation "t |> f" := (f t) (at level 50, left associativity, only parsing).

(** ** The methods of [DataReaderThread] *)

Section Methods.

Context {fmt : ReplayFormat}.

(** [closeReplay], lines 293-308. *)
Definition closeReplay (t : DataReaderThread) : DataReaderThread :=
  let t := match saveReplayFile t with
           | Some _ => set_saveReplayFile None t
           | None => t
           end in
  match loadReplayFile t with
  | Some _ => set_loadReplayFile None t
  | None => t
  end.

(** [setWeatherRequest], lines 321-339.  The wake-up of the wait condition
    has no effect on the state. *)
Definition setWeatherRequest (request : WeatherRequest) (t : DataReaderThread)
  : DataReaderThread :=
  match saveReplayFile t with
  | Some _ =>
      (* Post a dummy weather reply if replaying, do not pass to handler *)
      emit (postSimConnectData SimConnectData_default) t
  | None =>
      t |> emit (handler_addWeatherRequest request)
        |> set_handler (mkHandler request)
  end.

(** What other threads do while this one sleeps or waits. *)
Definition meanwhile (submits : list WeatherRequest) (cancel : bool)
           (t : DataReaderThread) : DataReaderThread :=
  let t := fold_left (fun s r => setWeatherRequest r s) submits t in
  if cancel then set_terminate true t else t.

Definition QThread_sleep (k : Tick) (t : DataReaderThread) : DataReaderThread :=
  t |> emit sleep_1s |> meanwhile (tickSubmits k) (cancelInSleep k).

(** The loop of [connectToSimulator], lines 53-69.  [terminate] is read at
    the top of every iteration; a script that ends stands for a request to
    stop.  [counter % reconnectRateSec] is [Z.rem]; the C++ operation is
    undefined for a rate of 0, where [Z.rem] returns the counter, so the
    loop below is that of the source for every rate other than 0. *)
Fixpoint connectLoop (ticks : list Tick) (counter : Z) (t : DataReaderThread)
  : DataReaderThread :=
  if terminate t then t
  else
    match ticks with
    | [] => set_terminate true t
    | k :: ticks' =>
        if Z.rem counter (reconnectRateSec t) =? 0 then
          let t := emit (handler_connect (connectOk k)) t in
          if connectOk k then
            t |> set_connected true
              |> emit connectedToSimulator
              |> emit (postLogMessage MsgConnected false)
          else connectLoop ticks' (0 + 1) (QThread_sleep k t)
        else connectLoop ticks' (counter + 1) (QThread_sleep k t)
    end.

(** [connectToSimulator], lines 46-71. *)
Definition connectToSimulator (ticks : list Tick) (t : DataReaderThread)
  : DataReaderThread :=
  t |> emit (postLogMessage MsgNotConnected false)
    |> set_reconnecting true
    |> connectLoop ticks 0
    |> set_reconnecting false.

(** [out << magic << version << rate], line 288. *)
Definition replayHeader (rate : Z) : list byte :=
  put_u32 REPLAY_FILE_MAGIC_NUMBER ++ put_u32 REPLAY_FILE_VERSION
  ++ put_u32 (rate mod 4294967296).

(** [QIODevice::write] on the file opened for writing: the bytes are
    appended. *)
Definition appendBytes (path : string) (bs : list byte) (t : DataReaderThread)
  : DataReaderThread :=
  set_disk (overwrite (disk t) path (contents (disk t) path ++ bs)) t.

(** [setupReplay], lines 226-291. *)
Definition setupReplay (t : DataReaderThread) : DataReaderThread :=
  if negb (String.eqb (loadReplayFilepath t) EmptyString) then
    let path := loadReplayFilepath t in
    let t := set_loadReplayFile (Some (mkQFile path 0 false)) t in
    if (REPLAY_FILE_DATA_START_OFFSET <? length (contents (disk t) path))%nat
    then
      if negb (canRead (disk t) path) then
        t |> emit (postLogMessage (MsgCannotOpen path) true)
          |> set_loadReplayFile None
      else
        let '(magicNumber, r1) := get_u32 (contents (disk t) path) in
        let '(version, r2) := get_u32 r1 in
        let '(rate, _) := get_u32 r2 in
        let t := t |> set_replayUpdateRateMs rate
                   |> set_loadReplayFile (Some (mkQFile path 12 true)) in
        if negb (magicNumber =? REPLAY_FILE_MAGIC_NUMBER) then
          t |> emit (postLogMessage (MsgWrongMagic path) true) |> closeReplay
        else if negb (version =? REPLAY_FILE_VERSION) then
          t |> emit (postLogMessage (MsgWrongVersion path) true) |> closeReplay
        else
          t |> emit (postLogMessage (MsgReplaying path) false)
            |> emit connectedToSimulator
    else
      t |> emit (postLogMessage (MsgTooSmall path) true) |> closeReplay
  else if negb (String.eqb (saveReplayFilepath t) EmptyString) then
    let path := saveReplayFilepath t in
    if negb (canWrite (disk t) path) then
      t |> emit (postLogMessage (MsgCannotOpen path) true)
        |> set_saveReplayFile None
    else
      t |> set_saveReplayFile (Some (mkQFile path 0 true))
        |> set_disk (overwrite (disk t) path [])
        |> emit (postLogMessage (MsgSaving path) false)
        |> appendBytes path (replayHeader (updateRate t))
  else t.

(** [fetchData], lines 171-219: the result, the packet and the object. *)
Definition fetchData (c : Cycle) (data : SimConnectData) (t : DataReaderThread)
  : bool * SimConnectData * DataReaderThread :=
  let request := weatherRequest (handler t) in
  let weatherRequested := isValid request in
  let '(retval, data, t) :=
    if weatherRequested then
      let t := emit (handler_fetchWeatherData request) t in
      (* Weather requests and reply always have packet it 0 *)
      (true, setPacketId 0 (applyFill (weatherFill c) data), t)
    else
      let t := emit (handler_fetchData (fetchOk c)) t in
      (fetchOk c,
       setPacketId (nextPacketId t) (applyFill (fetchFill c) data),
       set_nextPacketId (nextPacketId t + 1) t) in
  let data := setPacketTimestamp (now c) data in
  let t := if weatherRequested && (length (metars data) =? 0)%nat
           then emit (qWarning WarnNoWeather) t else t in
  let t := t |> emit (handler_addWeatherRequest WeatherRequest_default)
             |> set_handler (mkHandler WeatherRequest_default) in
  (retval, data, t).

(** [data.write(saveReplayFile)], line 126. *)
Definition writeRecord (f : QFile) (data : SimConnectData)
           (t : DataReaderThread) : DataReaderThread :=
  t |> emit (replay_write data)
    |> appendBytes (fileName f) (SimConnectData_write data).

(** The replay branch of the main loop, lines 99-114. *)
Definition replayBody (f : QFile) (t : DataReaderThread) : DataReaderThread :=
  let bytes := contents (disk t) (fileName f) in
  let '(data, n) := SimConnectData_read (skipn (pos f) bytes) in
  let f := mkQFile (fileName f) (pos f + n) (isOpen f) in
  let t := t |> set_loadReplayFile (Some f) |> emit (replay_read data) in
  match status data with
  | OK =>
      let t := if (length bytes <=? pos f)%nat     (* atEnd() *)
               then set_loadReplayFile
                      (Some (mkQFile (fileName f)
                                     REPLAY_FILE_DATA_START_OFFSET (isOpen f)))
                      t
               else t in
      emit (postSimConnectData data) t
  | ERROR =>
      t |> emit (postLogMessage
                   (MsgErrorReading (loadReplayFilepath t) (statusText data))
                   true)
        |> closeReplay
  end.

(** The live branch of the main loop, lines 116-144. *)
Definition liveBody (c : Cycle) (t : DataReaderThread) : DataReaderThread :=
  let '(fetched, data, t) := fetchData c SimConnectData_default t in
  if fetched then
    let t := emit (postSimConnectData data) t in
    match saveReplayFile t with
    | Some f =>
        if isOpen f && (0 <? packetId data)
        then writeRecord f data t     (* Save only simulator packets *)
        else t
    | None => t
    end
  else if negb (isSTATEOK (handlerState c)) then
    let t := t |> set_connected false
               |> emit disconnectedFromSimulator
               |> emit (qWarning WarnFetchError) in
    if negb (simRunning c)
    then connectToSimulator (reconnectTicks c) t
    else t
  else t.

(** One iteration of the main loop, lines 95-144. *)
Definition loopBody (c : Cycle) (t : DataReaderThread) : DataReaderThread :=
  match loadReplayFile t with
  | Some f => replayBody f t
  | None => liveBody c t
  end.

(** The main loop, lines 93-156.  The duration of the timed wait is not
    part of the model; what happens during the wait is. *)
Fixpoint mainLoop (cycles : list Cycle) (t : DataReaderThread)
  : DataReaderThread :=
  if terminate t then t
  else
    match cycles with
    | [] => set_terminate true t
    | c :: cycles' =>
        mainLoop cycles'
          (t |> loopBody c |> meanwhile (waitSubmits c) (cancelInWait c))
    end.

(** [run], lines 73-169. *)
Definition run (ticks : list Tick) (cycles : list Cycle) (t : DataReaderThread)
  : DataReaderThread :=
  let t := setupReplay t in
  let t := match loadReplayFile t with
           | None => connectToSimulator ticks t
           | Some _ => set_connected true t   (* Using replay is always connected *)
           end in
  t |> mainLoop cycles
    |> closeReplay
    |> set_terminate false
    |> set_connected false
    |> set_reconnecting false
    |> emit disconnectedFromSimulator.

End Methods.

(** ** A reference record format

    One format that has the properties the spec asks of the record format:
    the fields of a packet in the order status, error text, timestamp,
    packet id, metars, payload; numbers as their binary digits, strings
    and lists prefixed by their length.  It instantiates the parameters of
    the development on concrete files. *)
Module RefFormat.

Fixpoint put_pos (p : positive) : list byte :=
  match p with
  | xH => [x00]
  | xO q => x01 :: put_pos q
  | xI q => x02 :: put_pos q
  end.

Fixpoint get_pos (bs : list byte) : option (positive * list byte) :=
  match bs with
  | [] => None
  | b :: rest =>
      if Byte.eqb b x00 then Some (xH, rest)
      else if Byte.eqb b x01 then
        match get_pos rest with
        | Some (q, r) => Some (xO q, r)
        | None => None
        end
      else if Byte.eqb b x02 then
        match get_pos rest with
        | Some (q, r) => Some (xI q, r)
        | None => None
        end
      else None
  end.

Definition put_Z (z : Z) : list byte :=
  match z with
  | Z0 => [x00]
  | Zpos p => x01 :: put_pos p
  | Zneg p => x02 :: put_pos p
  end.

Definition get_Z (bs : list byte) : option (Z * list byte) :=
  match bs with
  | [] => None
  | b :: rest =>
      if Byte.eqb b x00 then Some (Z0, rest)
      else if Byte.eqb b x01 then
        match get_pos rest with
        | Some (p, r) => Some (Zpos p, r)
        | None => None
        end
      else if Byte.eqb b x02 then
        match get_pos rest with
        | Some (p, r) => Some (Zneg p, r)
        | None => None
        end
      else None
  end.

Definition put_bytes (l : list byte) : list byte :=
  put_Z (Z.of_nat (length l)) ++ l.

Definition get_bytes (bs : list byte) : option (list byte * list byte) :=
  match get_Z bs with
  | Some (n, r) =>
      if (0 <=? n) && (Z.to_nat n <=? length r)%nat
      then Some (firstn (Z.to_nat n) r, skipn (Z.to_nat n) r)
      else None
  | None => None
  end.

Definition put_string (s : string) : list byte :=
  put_bytes (list_byte_of_string s).

Definition get_string (bs : list byte) : option (string * list byte) :=
  match get_bytes bs with
  | Some (l, r) => Some (string_of_list_byte l, r)
  | None => None
  end.

Definition put_entry (kv : string * string) : list byte :=
  put_string (fst kv) ++ put_string (snd kv).

Definition put_metars (m : Metars) : list byte :=
  put_Z (Z.of_nat (length m)) ++ flat_map put_entry m.

Fixpoint get_entries (n : nat) (bs : list byte) : option (Metars * list byte) :=
  match n with
  | O => Some ([], bs)
  | S n' =>
      match get_string bs with
      | Some (k, r1) =>
          match get_string r1 with
          | Some (v, r2) =>
              match get_entries n' r2 with
              | Some (m, r3) => Some ((k, v) :: m, r3)
              | None => None
              end
          | None => None
          end
      | None => None
      end
  end.

Definition get_metars (bs : list byte) : option (Metars * list byte) :=
  match get_Z bs with
  | Some (n, r) => if n <? 0 then None else get_entries (Z.to_nat n) r
  | None => None
  end.

Definition put_status (s : SimConnectStatus) : list byte :=
  match s with OK => [x00] | ERROR => [x01] end.

Definition get_status (bs : list byte) : option (SimConnectStatus * list byte) :=
  match bs with
  | [] => None
  | b :: rest =>
      if Byte.eqb b x00 then Some (OK, rest)
      else if Byte.eqb b x01 then Some (ERROR, rest)
      else None
  end.

Definition write (d : SimConnectData) : list byte :=
  put_status (status d) ++ put_string (statusText d) ++ put_Z (packetTs d)
  ++ put_Z (packetId d) ++ put_metars (metars d) ++ put_bytes (payload d).

Definition parse (bs : list byte) : option (SimConnectData * list byte) :=
  match get_status bs with
  | Some (st, r1) =>
      match get_string r1 with
      | Some (txt, r2) =>
          match get_Z r2 with
          | Some (ts, r3) =>
              match get_Z r3 with
              | Some (id, r4) =>
                  match get_metars r4 with
                  | Some (m, r5) =>
                      match get_bytes r5 with
                      | Some (pl, r6) =>
                          Some (mkSimConnectData id ts st txt m pl, r6)
                      | None => None
                      end
                  | None => None
                  end
              | None => None
              end
          | None => None
          end
      | None => None
      end
  | None => None
  end.

Definition malformed : SimConnectData :=
  mkSimConnectData 0 0 ERROR "malformed record" [] [].

Definition read (bs : list byte) : SimConnectData * nat :=
  match parse bs with
  | Some (d, rest) => (d, (length bs - length rest)%nat)
  | None => (malformed, O)
  end.

Definition format : ReplayFormat := mkReplayFormat 2774181210 1 read write.

End RefFormat.

(** ** Reading a trace *)

(** The events a step added: the trace of [t'] beyond that of [t]. *)
Definition since (t t' : DataReaderThread) : list Event :=
  skipn (length (trace t)) (trace t').

(** [t'] is [t] after some more steps: its trace continues that of [t]. *)
Definition extends (t t' : DataReaderThread) : Prop :=
  trace t' = trace t ++ since t t'.

(** The packets handed to the host with [postSimConnectData]. *)
Fixpoint delivered (evs : list Event) : list SimConnectData :=
  match evs with
  | [] => []
  | postSimConnectData d :: evs' => d :: delivered evs'
  | _ :: evs' => delivered evs'
  end.

(** The packets appended to the record file. *)
Fixpoint written (evs : list Event) : list SimConnectData :=
  match evs with
  | [] => []
  | replay_write d :: evs' => d :: written evs'
  | _ :: evs' => written evs'
  end.

(** The records read from the playback file. *)
Fixpoint replayReads (evs : list Event) : list SimConnectData :=
  match evs with
  | [] => []
  | replay_read d :: evs' => d :: replayReads evs'
  | _ :: evs' => replayReads evs'
  end.

Definition isHandlerCall (e : Event) : bool :=
  match e with
  | handler_connect _ | handler_fetchData _ | handler_fetchWeatherData _
  | handler_addWeatherRequest _ => true
  | _ => false
  end.

(** The calls into the protocol adapter. *)
Definition handlerCalls (evs : list Event) : list Event :=
  filter isHandlerCall evs.

Definition isSignal (e : Event) : bool :=
  match e with
  | postLogMessage _ _ | connectedToSimulator | disconnectedFromSimulator
  | postSimConnectData _ => true
  | _ => false
  end.

(** The notifications sent to the host. *)
Definition signals (evs : list Event) : list Event := filter isSignal evs.

Definition isSleep (e : Event) : bool :=
  match e with sleep_1s => true | _ => false end.

(** Seconds slept in [connectToSimulator]. *)
Definition sleeps (evs : list Event) : nat := length (filter isSleep evs).

(** Telemetry packets are the ones with a positive id. *)
Definition telemetry (ds : list SimConnectData) : list SimConnectData :=
  filter (fun d => 0 <? packetId d) ds.

Definition positiveIds (ds : list SimConnectData) : Prop :=
  Forall (fun d => 0 < packetId d) ds.

(** A step that leaves the session alone: the packet id counter, the
    replay files and the configuration stay, nothing is read from or
    written to a replay file, and a packet handed to the host, if any, is
    the empty reply. *)
Record passive (t t' : DataReaderThread) : Prop := mkPassive {
  passive_next : nextPacketId t' = nextPacketId t;
  passive_load : loadReplayFile t' = loadReplayFile t;
  passive_save : saveReplayFile t' = saveReplayFile t;
  passive_disk : disk t' = disk t;
  passive_loadPath : loadReplayFilepath t' = loadReplayFilepath t;
  passive_savePath : saveReplayFilepath t' = saveReplayFilepath t;
  passive_rate : reconnectRateSec t' = reconnectRateSec t;
  passive_extends : extends t t';
  passive_written : written (since t t') = [];
  passive_reads : replayReads (since t t') = [];
  passive_delivered :
    Forall (fun d => d = SimConnectData_default) (delivered (since t t'))
}.

(** A passive step in which, moreover, nobody submits a weather request:
    the request slot of the handler stays and no packet is handed over. *)
Record silent (t t' : DataReaderThread) : Prop := mkSilent {
  silent_passive : passive t t';
  silent_handler : handler t' = handler t;
  silent_delivered : delivered (since t t') = []
}.

(** A step that hands over no packet and does not use the replay files
    (the setup before the main loop, the teardown after it). *)
Record steady (t t' : DataReaderThread) : Prop := mkSteady {
  steady_extends : extends t t';
  steady_delivered : delivered (since t t') = [];
  steady_written : written (since t t') = [];
  steady_reads : replayReads (since t t') = []
}.

Definition isConnect (e : Event) : bool :=
  match e with handler_connect _ => true | _ => false end.

(** The calls of [handler->connect()], with their results. *)
Definition connects (evs : list Event) : list Event := filter isConnect evs.

Definition isFetch (e : Event) : bool :=
  match e with
  | handler_fetchData _ | handler_fetchWeatherData _ => true
  | _ => false
  end.

(** The telemetry and weather fetches of the handler. *)
Definition fetches (evs : list Event) : list Event := filter isFetch evs.

(** The ticks of the reconnect wait at which [connect] is due: every
    [rate]-th one, starting with the first. *)
Definition pollsAt (rate : Z) (i : nat) : bool := Z.of_nat i mod rate =? 0.

(** Where the counter of [connectToSimulator] stands after [i] ticks. *)
Definition counterAt (rate : Z) (counter : Z) (i : nat) : Prop :=
  0 <= counter <= rate /\ counter mod rate = Z.of_nat i mod rate.

(** The configuration of the object, which only its setters change. *)
Definition config (t : DataReaderThread) : Z * Z * string * string :=
  (updateRate t, reconnectRateSec t, loadReplayFilepath t,
   saveReplayFilepath t).

(** A script without weather interleaving: nobody calls
    [setWeatherRequest]. *)
Definition quietTick (k : Tick) : bool :=
  match tickSubmits k with [] => true | _ => false end.

Definition quietCycle (c : Cycle) : bool :=
  match waitSubmits c with [] => true | _ => false end
  && forallb quietTick (reconnectTicks c).

(** A tick of the reconnect wait in which the simulator cannot be reached
    and nobody asks the thread to stop. *)
Definition waitingTick (k : Tick) : bool :=
  negb (connectOk k) && negb (cancelInSleep k).

(** An object on which no run is in progress: the state after
    construction and after [run] has returned. *)
Definition idle (t : DataReaderThread) : bool :=
  negb (terminate t)
  && match loadReplayFile t with None => true | Some _ => false end
  && match saveReplayFile t with None => true | Some _ => false end.

(** The header fields of a playback file, as [setupReplay] reads them. *)
Definition headerMagic (bytes : list byte) : Z := fst (get_u32 bytes).
Definition headerVersion (bytes : list byte) : Z :=
  fst (get_u32 (skipn 4 bytes)).

(** The [i]-th packet of a looped playback of [ps]. *)
Definition looped (ps : list SimConnectData) (i : nat) : SimConnectData :=
  nth (i mod length ps) ps SimConnectData_default.

(** A record file is open for writing. *)
Definition recording (t : DataReaderThread) : bool :=
  match saveReplayFile t with
  | Some f => isOpen f
  | None => false
  end.

(** [p] is the name of the record file. *)
Definition recordsTo (t : DataReaderThread) (p : string) : bool :=
  match saveReplayFile t with
  | Some f => String.eqb p (fileName f)
  | None => false
  end.

(** The ids [n], [n+1], ... of [k] consecutive telemetry packets. *)
Definition idsFrom (n : Z) (k : nat) : list Z :=
  map (fun i => n + Z.of_nat i) (seq 0 k).

Section LiveLoop.

Context {fmt : ReplayFormat}.

(** What steps of a session without playback file do to the object: from
    [t] to [t'] no playback file appears, the record file stays the same
    object, every packet handed over is a reply with id 0 or a telemetry
    packet with an id the counter passed, the telemetry ids increase, and
    the telemetry packets are exactly what is appended to an open record
    file. *)
Record liveSteps (t t' : DataReaderThread) : Prop := mkLiveSteps {
  live_load : loadReplayFile t' = None;
  live_save : saveReplayFile t' = saveReplayFile t;
  live_extends : extends t t';
  live_reads : replayReads (since t t') = [];
  live_next : nextPacketId t <= nextPacketId t';
  live_ids :
    Forall (fun d => packetId d = 0
                     \/ nextPacketId t <= packetId d < nextPacketId t')
           (delivered (since t t'));
  live_sorted :
    StronglySorted Z.lt (map packetId (telemetry (delivered (since t t'))));
  live_status : Forall (fun d => status d = OK) (delivered (since t t'));
  live_written :
    written (since t t')
    = if recording t then telemetry (delivered (since t t')) else [];
  live_disk : forall p,
    contents (disk t') p
    = contents (disk t) p
      ++ (if recordsTo t p
          then flat_map SimConnectData_write (written (since t t'))
          else [])
}.

(** The main loop of a session without playback file: [mainLoop] with the
    live branch taken in every iteration. *)
Fixpoint liveLoop (cycles : list Cycle) (t : DataReaderThread)
  : DataReaderThread :=
  if terminate t then t
  else
    match cycles with
    | [] => set_terminate true t
    | c :: cycles' =>
        liveLoop cycles'
          (t |> liveBody c |> meanwhile (waitSubmits c) (cancelInWait c))
    end.

(** The part of [run] after the main loop, lines 158-167. *)
Definition teardown (t : DataReaderThread) : DataReaderThread :=
  t |> closeReplay
    |> set_terminate false
    |> set_connected false
    |> set_reconnecting false
    |> emit disconnectedFromSimulator.

End LiveLoop.

(** ** Concrete objects, scripts and files *)
Module Samples.

Definition emptyDisk : FileSystem :=
  mkFileSystem (fun _ => []) (fun _ => true) (fun _ => true).

(** A thread object after construction: ids start at 1. *)
Definition fresh : DataReaderThread :=
  mkThread false false false 1 500 10 500 EmptyString EmptyString None None
           (mkHandler WeatherRequest_default) emptyDisk [].

Definition recorder (path : string) : DataReaderThread :=
  mkThread false false false 1 500 10 500 EmptyString path None None
           (mkHandler WeatherRequest_default) emptyDisk [].

Definition player (path : string) (fs : FileSystem) : DataReaderThread :=
  mkThread false false false 1 500 10 500 path EmptyString None None
           (mkHandler WeatherRequest_default) fs [].

Definition tickUp : Tick := mkTick true [] false.
Definition tickDown : Tick := mkTick false [] false.
Definition tickCancel : Tick := mkTick false [] true.

Definition telemetryOk (pl : Payload) : Cycle :=
  mkCycle true (mkFill [] pl) (mkFill [] []) STATEOK true [] 100 [] false.

(** The fetch fails, the handler is in state OK. *)
Definition telemetryMiss : Cycle :=
  mkCycle false (mkFill [] []) (mkFill [] []) STATEOK true [] 100 [] false.

(** The fetch fails, the handler reports an error, the simulator process
    is still running. *)
Definition telemetryError : Cycle :=
  mkCycle false (mkFill [] []) (mkFill [] []) (STATE_ERROR 1) true [] 100 []
          false.

Definition q1 : WeatherRequest := mkWeatherRequest true "EDDF".
Definition q2 : WeatherRequest := mkWeatherRequest true "KSEA".

Definition replayFile : string := "flight.replay".

(** The file a recording of two telemetry packets leaves behind. *)
Definition recorded : FileSystem :=
  disk (@run RefFormat.format [tickUp]
             [telemetryOk [x0a]; telemetryOk [x0b]] (recorder replayFile)).


(** A file with a valid header and one record, and the same file with the
    first byte of the magic number flipped, with another version, and cut
    down to the header. *)
Definition goodBytes : list byte :=
  @replayHeader RefFormat.format 500
  ++ RefFormat.write (mkSimConnectData 1 100 OK EmptyString [] [x0a]).

Definition flippedMagic : list byte :=
  match goodBytes with
  | b :: rest => byte_of_Z (Z.lxor (Z_of_byte b) 255) :: rest
  | [] => []
  end.

Definition otherVersion : list byte :=
  put_u32 2774181210 ++ put_u32 2 ++ skipn 8 goodBytes.

Definition headerOnly : list byte := firstn 12 goodBytes.

(** The good file on a disk that refuses to open it for reading. *)
Definition lockedFile : FileSystem :=
  mkFileSystem (fun p => if String.eqb p replayFile then goodBytes else [])
               (fun _ => false) (fun _ => true).

(** A playback session, a live session and a recording session inside
    [run], after the setup and before the main loop. *)
Definition playing : DataReaderThread :=
  @setupReplay RefFormat.format (player replayFile recorded)
  |> set_connected true.

Definition online : DataReaderThread :=
  @setupReplay RefFormat.format fresh |> connectToSimulator [tickUp].

Definition recordingNow : DataReaderThread :=
  @setupReplay RefFormat.format (recorder replayFile)
  |> connectToSimulator [tickUp].

(** The telemetry packets in [recorded]. *)
Definition recordedPackets : list SimConnectData :=
  [mkSimConnectData 1 100 OK EmptyString [] [x0a];
   mkSimConnectData 2 100 OK EmptyString [] [x0b]].

(** The simulator is gone: the fetch fails, the handler reports an error,
    and the reconnect succeeds at the first due tick. *)
Definition connectionLost : Cycle :=
  mkCycle false (mkFill [] []) (mkFill [] []) (STATE_ERROR 1) false
          [tickUp] 100 [] false.

End Samples.

(** * Properties *)

(** ** 32-bit fields *)

Lemma Z_of_byte_of_Z (z : Z) : Z_of_byte (byte_of_Z z) = z mod 256.
Proof.
  unfold Z_of_byte, byte_of_Z.
  assert (Hr : 0 <= z mod 256 < 256) by (apply Z.mod_pos_bound; lia).
  destruct (Byte.of_N (Z.to_N (z mod 256))) as [b|] eqn:E.
  - apply Byte.to_of_N in E. rewrite E. apply Z2N.id. lia.
  - apply Byte.of_N_None_iff in E. lia.
Qed.

Lemma get_put_u32 (v : Z) (rest : list byte) :
  0 <= v < 4294967296 -> get_u32 (put_u32 v ++ rest) = (v, rest).
Proof.
  intros Hv. unfold put_u32, get_u32. cbn [app].
  rewrite !Z_of_byte_of_Z. f_equal.
  Z.div_mod_to_equations. lia.
Qed.

(** ** The reference format is a record format *)

Lemma firstn_length_app {A} (l r : list A) : firstn (length l) (l ++ r) = l.
Proof. induction l as [|a l IH]; cbn; [destruct r|rewrite IH]; reflexivity. Qed.

Lemma skipn_length_app {A} (l r : list A) : skipn (length l) (l ++ r) = r.
Proof. induction l as [|a l IH]; cbn; [|rewrite IH]; reflexivity. Qed.

Module RefFormatFacts.
Import RefFormat.

Lemma get_put_pos (p : positive) (r : list byte) :
  get_pos (put_pos p ++ r) = Some (p, r).
Proof.
  induction p as [q IH|q IH|]; cbn; try rewrite IH; reflexivity.
Qed.

Lemma get_put_Z (z : Z) (r : list byte) : get_Z (put_Z z ++ r) = Some (z, r).
Proof.
  destruct z as [|p|p]; cbn; try rewrite get_put_pos; reflexivity.
Qed.

Lemma get_put_bytes (l r : list byte) :
  get_bytes (put_bytes l ++ r) = Some (l, r).
Proof.
  unfold get_bytes, put_bytes. rewrite <- app_assoc, get_put_Z.
  rewrite Nat2Z.id.
  replace (0 <=? Z.of_nat (length l)) with true
    by (symmetry; apply Z.leb_le; lia).
  replace (length l <=? length (l ++ r))%nat with true
    by (symmetry; apply Nat.leb_le; rewrite length_app; lia).
  cbn. now rewrite firstn_length_app, skipn_length_app.
Qed.

Lemma get_put_string (s : string) (r : list byte) :
  get_string (put_string s ++ r) = Some (s, r).
Proof.
  unfold get_string, put_string. rewrite get_put_bytes.
  now rewrite string_of_list_byte_of_string.
Qed.

Lemma get_put_entries (m : Metars) (r : list byte) :
  get_entries (length m) (flat_map put_entry m ++ r) = Some (m, r).
Proof.
  induction m as [|[k v] m IH]; cbn; [reflexivity|].
  unfold put_entry at 1; cbn [fst snd].
  rewrite <- !app_assoc, get_put_string, get_put_string, IH. reflexivity.
Qed.

Lemma get_put_metars (m : Metars) (r : list byte) :
  get_metars (put_metars m ++ r) = Some (m, r).
Proof.
  unfold get_metars, put_metars. rewrite <- app_assoc, get_put_Z.
  replace (Z.of_nat (length m) <? 0) with false
    by (symmetry; apply Z.ltb_ge; lia).
  rewrite Nat2Z.id. apply get_put_entries.
Qed.

Lemma get_put_status (s : SimConnectStatus) (r : list byte) :
  get_status (put_status s ++ r) = Some (s, r).
Proof. destruct s; reflexivity. Qed.

Lemma parse_write (d : SimConnectData) (r : list byte) :
  parse (write d ++ r) = Some (d, r).
Proof.
  unfold parse, write. rewrite <- !app_assoc.
  rewrite get_put_status, get_put_string, get_put_Z, get_put_Z,
    get_put_metars, get_put_bytes.
  destruct d; reflexivity.
Qed.

Lemma read_write_ref (d : SimConnectData) (r : list byte) :
  read (write d ++ r) = (d, length (write d)).
Proof.
  unfold read. rewrite parse_write, length_app. f_equal. lia.
Qed.

Lemma format_ok : ReplayFormatOk format.
Proof.
  constructor; cbn; [lia | lia | apply read_write_ref].
Qed.

End RefFormatFacts.

(** ** Traces *)

Lemma since_app (t t' : DataReaderThread) (evs : list Event) :
  trace t' = trace t ++ evs -> since t t' = evs.
Proof. intros H. unfold since. rewrite H. apply skipn_length_app. Qed.

Lemma extends_app (t t' : DataReaderThread) (evs : list Event) :
  trace t' = trace t ++ evs -> extends t t'.
Proof. intros H. unfold extends. now rewrite (since_app _ _ _ H). Qed.

Lemma since_same (t t' : DataReaderThread) :
  trace t' = trace t -> since t t' = [].
Proof. intros H. apply since_app. now rewrite app_nil_r. Qed.

Lemma extends_same (t t' : DataReaderThread) :
  trace t' = trace t -> extends t t'.
Proof. intros H. apply (extends_app _ _ []). now rewrite app_nil_r. Qed.

Lemma since_trans (a b c : DataReaderThread) :
  extends a b -> extends b c -> since a c = since a b ++ since b c.
Proof.
  unfold extends. intros H1 H2. apply since_app.
  rewrite H2, H1 at 1. now rewrite app_assoc.
Qed.

Lemma extends_trans (a b c : DataReaderThread) :
  extends a b -> extends b c -> extends a c.
Proof.
  unfold extends. intros H1 H2.
  apply (extends_app _ _ (since a b ++ since b c)).
  rewrite H2, H1 at 1. now rewrite app_assoc.
Qed.

Lemma delivered_app (l r : list Event) :
  delivered (l ++ r) = delivered l ++ delivered r.
Proof.
  induction l as [|e l IH]; [reflexivity|].
  destruct e; cbn; rewrite ?IH; reflexivity.
Qed.

Lemma written_app (l r : list Event) :
  written (l ++ r) = written l ++ written r.
Proof.
  induction l as [|e l IH]; [reflexivity|].
  destruct e; cbn; rewrite ?IH; reflexivity.
Qed.

Lemma replayReads_app (l r : list Event) :
  replayReads (l ++ r) = replayReads l ++ replayReads r.
Proof.
  induction l as [|e l IH]; [reflexivity|].
  destruct e; cbn; rewrite ?IH; reflexivity.
Qed.

Lemma handlerCalls_app (l r : list Event) :
  handlerCalls (l ++ r) = handlerCalls l ++ handlerCalls r.
Proof. apply filter_app. Qed.

Lemma sleeps_app (l r : list Event) : sleeps (l ++ r) = (sleeps l + sleeps r)%nat.
Proof. unfold sleeps. now rewrite filter_app, length_app. Qed.

Lemma telemetry_app (l r : list SimConnectData) :
  telemetry (l ++ r) = telemetry l ++ telemetry r.
Proof. apply filter_app. Qed.

Lemma telemetry_id0 (ds : list SimConnectData) :
  Forall (fun d => packetId d = 0) ds -> telemetry ds = [].
Proof.
  induction 1 as [|d ds Hd _ IH]; [reflexivity|].
  cbn. rewrite Hd. exact IH.
Qed.

(** ** Passive steps *)

Lemma passive_refl (t t' : DataReaderThread) :
  nextPacketId t' = nextPacketId t ->
  loadReplayFile t' = loadReplayFile t ->
  saveReplayFile t' = saveReplayFile t ->
  disk t' = disk t ->
  loadReplayFilepath t' = loadReplayFilepath t ->
  saveReplayFilepath t' = saveReplayFilepath t ->
  reconnectRateSec t' = reconnectRateSec t ->
  trace t' = trace t ->
  passive t t'.
Proof.
  intros. constructor; try assumption.
  - now apply extends_same.
  - now rewrite since_same.
  - now rewrite since_same.
  - rewrite since_same by assumption. constructor.
Qed.

Lemma passive_trans (a b c : DataReaderThread) :
  passive a b -> passive b c -> passive a c.
Proof.
  intros [] []. constructor; try congruence.
  - eapply extends_trans; eassumption.
  - rewrite (since_trans a b c), written_app by assumption.
    now rewrite passive_written0, passive_written1.
  - rewrite (since_trans a b c), replayReads_app by assumption.
    now rewrite passive_reads0, passive_reads1.
  - rewrite (since_trans a b c), delivered_app by assumption.
    apply Forall_app; split; assumption.
Qed.

Lemma passive_emit (e : Event) (t : DataReaderThread) :
  written [e] = [] -> replayReads [e] = [] ->
  Forall (fun d => d = SimConnectData_default) (delivered [e]) ->
  passive t (emit e t).
Proof.
  intros Hw Hr Hd.
  assert (Hs : since t (emit e t) = [e]) by (now apply since_app).
  constructor; try reflexivity; rewrite ?Hs; try assumption.
  now apply (extends_app _ _ [e]).
Qed.

Lemma silent_refl (t t' : DataReaderThread) :
  passive t t' -> handler t' = handler t -> trace t' = trace t -> silent t t'.
Proof.
  intros Hp Hh Ht. constructor; try assumption.
  now rewrite since_same.
Qed.

Lemma silent_trans (a b c : DataReaderThread) :
  silent a b -> silent b c -> silent a c.
Proof.
  intros [Hp1 Hh1 Hd1] [Hp2 Hh2 Hd2]. constructor.
  - eapply passive_trans; eassumption.
  - congruence.
  - rewrite (since_trans a b c), delivered_app, Hd1, Hd2;
      [reflexivity | apply Hp1 | apply Hp2].
Qed.

Lemma silent_emit (e : Event) (t : DataReaderThread) :
  written [e] = [] -> replayReads [e] = [] -> delivered [e] = [] ->
  silent t (emit e t).
Proof.
  intros Hw Hr Hd. constructor.
  - apply passive_emit; try assumption. rewrite Hd. constructor.
  - reflexivity.
  - now rewrite (since_app t (emit e t) [e]).
Qed.

(** Peels the last update off the target of a [passive] goal. *)
Ltac passive_peel :=
  lazymatch goal with
  | |- passive ?a ?a => apply passive_refl; reflexivity
  | |- passive ?a (emit ?e ?b) =>
      apply (passive_trans a b);
      [| apply passive_emit; try reflexivity; repeat constructor]
  | |- passive ?a (set_connected ?v ?b) =>
      apply (passive_trans a b); [| apply passive_refl; reflexivity]
  | |- passive ?a (set_reconnecting ?v ?b) =>
      apply (passive_trans a b); [| apply passive_refl; reflexivity]
  | |- passive ?a (set_terminate ?v ?b) =>
      apply (passive_trans a b); [| apply passive_refl; reflexivity]
  | |- passive ?a (set_handler ?v ?b) =>
      apply (passive_trans a b); [| apply passive_refl; reflexivity]
  end.

Lemma setWeatherRequest_passive (q : WeatherRequest) (t : DataReaderThread) :
  passive t (setWeatherRequest q t).
Proof.
  unfold setWeatherRequest. destruct (saveReplayFile t) eqn:E;
    repeat passive_peel.
Qed.

Lemma submits_passive (qs : list WeatherRequest) (t : DataReaderThread) :
  passive t (fold_left (fun s r => setWeatherRequest r s) qs t).
Proof.
  revert t. induction qs as [|q qs IH]; intros t; cbn.
  - passive_peel.
  - eapply passive_trans; [apply setWeatherRequest_passive | apply IH].
Qed.

Lemma meanwhile_passive (qs : list WeatherRequest) (cancel : bool)
      (t : DataReaderThread) :
  passive t (meanwhile qs cancel t).
Proof.
  unfold meanwhile. destruct cancel; [passive_peel|]; apply submits_passive.
Qed.

Lemma meanwhile_silent (cancel : bool) (t : DataReaderThread) :
  silent t (meanwhile [] cancel t).
Proof.
  apply silent_refl; [apply meanwhile_passive | |];
    unfold meanwhile; destruct cancel; reflexivity.
Qed.

Lemma QThread_sleep_passive (k : Tick) (t : DataReaderThread) :
  passive t (QThread_sleep k t).
Proof.
  unfold QThread_sleep. eapply passive_trans; [|apply meanwhile_passive].
  repeat passive_peel.
Qed.

Lemma QThread_sleep_silent (k : Tick) (t : DataReaderThread) :
  quietTick k = true -> silent t (QThread_sleep k t).
Proof.
  unfold quietTick, QThread_sleep. destruct (tickSubmits k); [|discriminate].
  intros _. eapply silent_trans; [|apply meanwhile_silent].
  apply silent_emit; reflexivity.
Qed.

Lemma connectLoop_passive (ticks : list Tick) (counter : Z)
      (t : DataReaderThread) :
  passive t (connectLoop ticks counter t).
Proof.
  revert counter t.
  induction ticks as [|k ticks IH]; intros counter t; cbn;
    destruct (terminate t); try solve [repeat passive_peel].
  destruct (Z.rem counter (reconnectRateSec t) =? 0).
  - destruct (connectOk k); [solve [repeat passive_peel]|].
    eapply passive_trans; [|apply IH].
    eapply passive_trans; [|apply QThread_sleep_passive].
    repeat passive_peel.
  - eapply passive_trans; [apply QThread_sleep_passive | apply IH].
Qed.

Lemma connectToSimulator_passive (ticks : list Tick) (t : DataReaderThread) :
  passive t (connectToSimulator ticks t).
Proof.
  unfold connectToSimulator. passive_peel.
  eapply passive_trans; [|apply connectLoop_passive].
  repeat passive_peel.
Qed.

(** Without submitted requests the handler's slot is not touched. *)
Ltac silent_peel :=
  lazymatch goal with
  | |- silent ?a ?a =>
      apply silent_refl; [apply passive_refl; reflexivity | reflexivity ..]
  | |- silent ?a (emit ?e ?b) =>
      apply (silent_trans a b); [| apply silent_emit; reflexivity]
  | |- silent ?a (set_connected ?v ?b) =>
      apply (silent_trans a b);
      [| apply silent_refl;
         [apply passive_refl; reflexivity | reflexivity ..]]
  | |- silent ?a (set_reconnecting ?v ?b) =>
      apply (silent_trans a b);
      [| apply silent_refl;
         [apply passive_refl; reflexivity | reflexivity ..]]
  | |- silent ?a (set_terminate ?v ?b) =>
      apply (silent_trans a b);
      [| apply silent_refl;
         [apply passive_refl; reflexivity | reflexivity ..]]
  end.

Lemma connectLoop_silent (ticks : list Tick) (counter : Z)
      (t : DataReaderThread) :
  forallb quietTick ticks = true -> silent t (connectLoop ticks counter t).
Proof.
  revert counter t.
  induction ticks as [|k ticks IH]; intros counter t Hq; cbn;
    destruct (terminate t); try solve [repeat silent_peel].
  cbn in Hq. apply andb_true_iff in Hq as [Hk Hq].
  destruct (Z.rem counter (reconnectRateSec t) =? 0).
  - destruct (connectOk k); [solve [repeat silent_peel]|].
    eapply silent_trans; [|apply IH; assumption].
    eapply silent_trans; [|apply QThread_sleep_silent; assumption].
    repeat silent_peel.
  - eapply silent_trans;
      [apply QThread_sleep_silent | apply IH]; assumption.
Qed.

Lemma connectToSimulator_silent (ticks : list Tick) (t : DataReaderThread) :
  forallb quietTick ticks = true -> silent t (connectToSimulator ticks t).
Proof.
  intros Hq. unfold connectToSimulator. silent_peel.
  eapply silent_trans; [|apply connectLoop_silent; assumption].
  repeat silent_peel.
Qed.

(** ** Steps of a live session *)

Lemma sorted_app_bound (b : Z) (l r : list Z) :
  StronglySorted Z.lt l -> StronglySorted Z.lt r ->
  Forall (fun x => x < b) l -> Forall (fun y => b <= y) r ->
  StronglySorted Z.lt (l ++ r).
Proof.
  intros Hl Hr Hlb Hrb. induction Hl as [|x l Hl IH Hx]; cbn; [exact Hr|].
  inversion Hlb as [|? ? Hxb Hlb']; subst.
  constructor; [now apply IH|].
  apply Forall_app; split; [exact Hx|].
  eapply Forall_impl; [|exact Hrb]. cbn. intros; lia.
Qed.

Lemma telemetry_range (lo hi : Z) (ds : list SimConnectData) :
  Forall (fun d => packetId d = 0 \/ lo <= packetId d < hi) ds ->
  Forall (fun x => lo <= x < hi) (map packetId (telemetry ds)).
Proof.
  induction 1 as [|d ds Hd _ IH]; cbn; [constructor|].
  destruct (0 <? packetId d) eqn:E; [|exact IH].
  cbn. constructor; [|exact IH].
  apply Z.ltb_lt in E. lia.
Qed.

Section LiveSteps.

Context {fmt : ReplayFormat}.

Lemma liveSteps_trans (a b c : DataReaderThread) :
  liveSteps a b -> liveSteps b c -> liveSteps a c.
Proof.
  intros [L1 S1 E1 R1 N1 I1 O1 K1 W1 D1] [L2 S2 E2 R2 N2 I2 O2 K2 W2 D2].
  assert (Hs : since a c = since a b ++ since b c) by now apply since_trans.
  assert (Hrec : recording b = recording a)
    by (unfold recording; now rewrite S1).
  assert (Hto : forall p, recordsTo b p = recordsTo a p)
    by (intros p; unfold recordsTo; now rewrite S1).
  constructor.
  - exact L2.
  - congruence.
  - eapply extends_trans; eassumption.
  - now rewrite Hs, replayReads_app, R1, R2.
  - lia.
  - rewrite Hs, delivered_app. apply Forall_app; split;
      [eapply Forall_impl; [|exact I1] | eapply Forall_impl; [|exact I2]];
      cbn; intros; lia.
  - rewrite Hs, delivered_app, telemetry_app, map_app.
    apply (sorted_app_bound (nextPacketId b)); try assumption.
    + eapply Forall_impl; [|apply (telemetry_range _ _ _ I1)].
      cbn; intros; lia.
    + eapply Forall_impl; [|apply (telemetry_range _ _ _ I2)].
      cbn; intros; lia.
  - rewrite Hs, delivered_app. apply Forall_app; split; assumption.
  - rewrite Hs, written_app, delivered_app, telemetry_app, W1, W2, Hrec.
    destruct (recording a); reflexivity.
  - intros p. rewrite D2, D1, Hto, Hs, written_app, flat_map_app.
    rewrite <- app_assoc. destruct (recordsTo a p); reflexivity.
Qed.

Lemma passive_liveSteps (t t' : DataReaderThread) :
  loadReplayFile t = None -> passive t t' -> liveSteps t t'.
Proof.
  intros Hl [N L S D _ _ _ E W R Dl].
  assert (Hid : Forall (fun d => packetId d = 0) (delivered (since t t'))).
  { eapply Forall_impl; [|exact Dl]. cbn. intros d ->. reflexivity. }
  constructor.
  - congruence.
  - exact S.
  - exact E.
  - exact R.
  - lia.
  - eapply Forall_impl; [|exact Hid]. cbn. intros; now left.
  - rewrite (telemetry_id0 _ Hid). constructor.
  - eapply Forall_impl; [|exact Dl]. cbn. intros d ->. reflexivity.
  - rewrite W, (telemetry_id0 _ Hid). now destruct (recording t).
  - intros p. rewrite D, W. cbn. destruct (recordsTo t p);
      now rewrite app_nil_r.
Qed.

End LiveSteps.

(** ** [fetchData] *)

Lemma fetchData_telemetry (c : Cycle) (data : SimConnectData)
      (t : DataReaderThread) :
  isValid (weatherRequest (handler t)) = false ->
  fetchData c data t
  = (fetchOk c,
     setPacketTimestamp (now c)
       (setPacketId (nextPacketId t) (applyFill (fetchFill c) data)),
     t |> emit (handler_fetchData (fetchOk c))
       |> set_nextPacketId (nextPacketId t + 1)
       |> emit (handler_addWeatherRequest WeatherRequest_default)
       |> set_handler (mkHandler WeatherRequest_default)).
Proof. intros H. unfold fetchData. rewrite H. reflexivity. Qed.

Lemma fetchData_weather (c : Cycle) (data : SimConnectData)
      (t : DataReaderThread) :
  isValid (weatherRequest (handler t)) = true ->
  fetchData c data t
  = (true,
     setPacketTimestamp (now c)
       (setPacketId 0 (applyFill (weatherFill c) data)),
     (if (length (fillMetars (weatherFill c)) =? 0)%nat
      then t |> emit (handler_fetchWeatherData (weatherRequest (handler t)))
             |> emit (qWarning WarnNoWeather)
      else t |> emit (handler_fetchWeatherData (weatherRequest (handler t))))
       |> emit (handler_addWeatherRequest WeatherRequest_default)
       |> set_handler (mkHandler WeatherRequest_default)).
Proof.
  intros H. unfold fetchData. rewrite H. cbn.
  destruct (length (fillMetars (weatherFill c)) =? 0)%nat; reflexivity.
Qed.

Section LiveBody.

Context {fmt : ReplayFormat}.

(** Proves [liveSteps t t'] for a [t'] written as updates of [t]. *)
Ltac live_explicit Hl :=
  lazymatch goal with
  | |- liveSteps ?t ?t' =>
      let Hs := fresh "Hs" in
      eassert (Hs : since t t' = _)
        by (apply since_app; cbn; rewrite <- ?app_assoc; reflexivity);
      constructor; rewrite ?Hs;
      [ exact Hl
      | reflexivity
      | eapply extends_app; cbn; rewrite <- ?app_assoc; reflexivity
      | reflexivity
      | cbn; lia
      | cbn; repeat constructor; cbn; lia
      | cbn; repeat (destruct (0 <? _)); repeat constructor
      | cbn; repeat constructor
      | ..]
  end.

Lemma liveBody_liveSteps (c : Cycle) (t : DataReaderThread) :
  loadReplayFile t = None -> liveSteps t (liveBody c t).
Proof.
  intros Hl. unfold liveBody.
  destruct (isValid (weatherRequest (handler t))) eqn:Ev.
  - (* a weather request is pending *)
    rewrite fetchData_weather by assumption. cbv beta iota zeta.
    assert (Hno : forall f u, (if isOpen f && (0 <? 0) then writeRecord f
              (setPacketTimestamp (now c)
                 (setPacketId 0 (applyFill (weatherFill c)
                                           SimConnectData_default))) u
                                     else u) = u)
      by (intros f u; now rewrite andb_false_r).
    destruct (length (fillMetars (weatherFill c)) =? 0)%nat;
      cbn [saveReplayFile emit set_handler packetId setPacketTimestamp
             setPacketId];
      (destruct (saveReplayFile t) as [f|] eqn:Es; [rewrite Hno|]);
      live_explicit Hl;
      try (unfold recording; cbn; rewrite Es);
      try (unfold recordsTo; cbn; rewrite Es);
      try (destruct (isOpen f)); try reflexivity;
      intros p; cbn; try destruct (String.eqb p (fileName f));
      now rewrite app_nil_r.
  - rewrite fetchData_telemetry by assumption. cbv beta iota zeta.
    destruct (fetchOk c).
    + (* telemetry fetched *)
      cbn [saveReplayFile emit set_handler set_nextPacketId packetId
             setPacketTimestamp setPacketId].
      destruct (saveReplayFile t) as [f|] eqn:Es.
      * destruct (isOpen f) eqn:Eo; cbn [andb];
          [destruct (0 <? nextPacketId t) eqn:Ep|];
          unfold writeRecord, appendBytes;
          live_explicit Hl;
          try (unfold recording; cbn; rewrite Es, Eo, ?Ep; reflexivity);
          intros p; unfold recordsTo; cbn; rewrite Es;
          try (destruct (String.eqb_spec p (fileName f)); subst);
          now rewrite ?app_nil_r.
      * live_explicit Hl;
          [unfold recording; cbn; now rewrite Es|].
        intros p; unfold recordsTo; cbn; rewrite Es. now rewrite app_nil_r.
    + (* the fetch failed *)
      assert (Hstep : forall u,
                 passive (t |> emit (handler_fetchData false)
                            |> set_nextPacketId (nextPacketId t + 1)
                            |> emit (handler_addWeatherRequest
                                       WeatherRequest_default)
                            |> set_handler (mkHandler WeatherRequest_default))
                         u ->
                 liveSteps t u).
      { intros u Hu. eapply liveSteps_trans;
          [|apply passive_liveSteps; [|exact Hu]]; [|exact Hl].
        live_explicit Hl;
          [cbn; now destruct (recording t)|].
        intros p. cbn. destruct (recordsTo t p); now rewrite app_nil_r. }
      apply Hstep.
      destruct (isSTATEOK (handlerState c)); cbn [negb];
        [passive_peel|].
      destruct (simRunning c); cbn [negb]; [repeat passive_peel|].
      eapply passive_trans; [|apply connectToSimulator_passive].
      repeat passive_peel.
Qed.

End LiveBody.

(** ** The main loop of a live session *)

Section LiveLoopFacts.

Context {fmt : ReplayFormat}.

Lemma liveLoop_liveSteps (cycles : list Cycle) (t : DataReaderThread) :
  loadReplayFile t = None -> liveSteps t (liveLoop cycles t).
Proof.
  revert t. induction cycles as [|c cycles IH]; intros t Hl; cbn;
    destruct (terminate t);
    try (apply passive_liveSteps; [exact Hl | solve [repeat passive_peel]]).
  assert (H1 : liveSteps t (liveBody c t)) by now apply liveBody_liveSteps.
  assert (H2 : liveSteps (liveBody c t)
                 (meanwhile (waitSubmits c) (cancelInWait c) (liveBody c t))).
  { apply passive_liveSteps; [apply H1 | apply meanwhile_passive]. }
  eapply liveSteps_trans; [exact H1|].
  eapply liveSteps_trans; [exact H2|].
  apply IH. apply H2.
Qed.

Lemma mainLoop_live (cycles : list Cycle) (t : DataReaderThread) :
  loadReplayFile t = None -> mainLoop cycles t = liveLoop cycles t.
Proof.
  revert t. induction cycles as [|c cycles IH]; intros t Hl; cbn;
    [reflexivity|].
  destruct (terminate t); [reflexivity|].
  unfold loopBody at 1. rewrite Hl. apply IH.
  rewrite (passive_load _ _ (meanwhile_passive _ _ _)).
  apply (live_load _ _ (liveBody_liveSteps c t Hl)).
Qed.

Lemma closeReplay_trace (t : DataReaderThread) :
  trace (closeReplay t) = trace t.
Proof.
  unfold closeReplay.
  destruct (saveReplayFile t); cbn; destruct (loadReplayFile t); reflexivity.
Qed.

Lemma steady_same (t t' : DataReaderThread) :
  trace t' = trace t -> steady t t'.
Proof.
  intros H. constructor; rewrite ?since_same by assumption;
    try reflexivity. now apply extends_same.
Qed.

Lemma steady_app (t t' : DataReaderThread) (evs : list Event) :
  trace t' = trace t ++ evs ->
  delivered evs = [] -> written evs = [] -> replayReads evs = [] ->
  steady t t'.
Proof.
  intros H Hd Hw Hr. constructor; rewrite ?(since_app _ _ _ H);
    try assumption. eapply extends_app; eassumption.
Qed.

Lemma teardown_steady (t : DataReaderThread) : steady t (teardown t).
Proof.
  apply (steady_app _ _ [disconnectedFromSimulator]); try reflexivity.
  unfold teardown. cbn. now rewrite closeReplay_trace.
Qed.

(** Packets handed over between a steady prologue and a steady epilogue. *)
Lemma steady_around (t a b c : DataReaderThread) :
  steady t a -> extends a b -> steady b c ->
  extends t c
  /\ delivered (since t c) = delivered (since a b)
  /\ written (since t c) = written (since a b)
  /\ replayReads (since t c) = replayReads (since a b).
Proof.
  intros [E1 D1 W1 R1] E2 [E3 D3 W3 R3].
  assert (Eb : extends t b) by (eapply extends_trans; eassumption).
  assert (Hs : since t c = (since t a ++ since a b) ++ since b c).
  { rewrite (since_trans t b c), (since_trans t a b) by assumption.
    reflexivity. }
  split; [eapply extends_trans; eassumption|].
  rewrite Hs, !delivered_app, !written_app, !replayReads_app.
  rewrite D1, D3, W1, W3, R1, R3. cbn. now rewrite !app_nil_r.
Qed.

End LiveLoopFacts.

(** ** Weather requests *)

Lemma setWeatherRequest_stored (q : WeatherRequest) (t : DataReaderThread) :
  saveReplayFile t = None ->
  setWeatherRequest q t
  = t |> emit (handler_addWeatherRequest q) |> set_handler (mkHandler q).
Proof. intros H. unfold setWeatherRequest. now rewrite H. Qed.

Lemma setWeatherRequest_recording (q : WeatherRequest) (f : QFile)
      (t : DataReaderThread) :
  saveReplayFile t = Some f ->
  setWeatherRequest q t = emit (postSimConnectData SimConnectData_default) t.
Proof. intros H. unfold setWeatherRequest. now rewrite H. Qed.

(** While no record file is open the latest request wins: after two
    submissions the next [fetchData] asks the handler for weather once,
    for the second request, and leaves the slot empty, so that the
    [fetchData] after it fetches telemetry. *)
Lemma weather_latest_wins (qa qb : WeatherRequest) (c c' : Cycle)
      (data data' : SimConnectData) (t : DataReaderThread) :
  saveReplayFile t = None -> isValid qb = true ->
  let t2 := setWeatherRequest qb (setWeatherRequest qa t) in
  let t3 := snd (fetchData c data t2) in
  let t4 := snd (fetchData c' data' t3) in
  weatherRequest (handler t2) = qb
  /\ handlerCalls (since t2 t3)
     = [handler_fetchWeatherData qb;
        handler_addWeatherRequest WeatherRequest_default]
  /\ weatherRequest (handler t3) = WeatherRequest_default
  /\ handlerCalls (since t3 t4)
     = [handler_fetchData (fetchOk c');
        handler_addWeatherRequest WeatherRequest_default].
Proof.
  intros Hs Hv t2 t3 t4.
  assert (E2 : t2 = t |> emit (handler_addWeatherRequest qa)
                      |> set_handler (mkHandler qa)
                      |> emit (handler_addWeatherRequest qb)
                      |> set_handler (mkHandler qb)).
  { unfold t2. rewrite (setWeatherRequest_stored qa t Hs).
    now rewrite setWeatherRequest_stored. }
  assert (Hv2 : isValid (weatherRequest (handler t2)) = true)
    by (rewrite E2; exact Hv).
  assert (Hq2 : weatherRequest (handler t2) = qb) by (now rewrite E2).
  assert (E3 : t3 = snd (fetchData c data t2)) by reflexivity.
  rewrite (fetchData_weather c data t2 Hv2), Hq2 in E3. cbn [snd] in E3.
  assert (Hv3 : isValid (weatherRequest (handler t3)) = false)
    by (now rewrite E3).
  assert (E4 : t4 = snd (fetchData c' data' t3)) by reflexivity.
  rewrite (fetchData_telemetry c' data' t3 Hv3) in E4. cbn [snd] in E4.
  split; [exact Hq2|]. split; [|split].
  - rewrite E3. destruct (length (fillMetars (weatherFill c)) =? 0)%nat.
    + erewrite since_app; [|cbn; rewrite <- ?app_assoc; reflexivity].
      reflexivity.
    + erewrite since_app; [|cbn; rewrite <- ?app_assoc; reflexivity].
      reflexivity.
  - now rewrite E3.
  - rewrite E4.
    erewrite since_app; [|cbn; rewrite <- ?app_assoc; reflexivity].
    reflexivity.
Qed.

(** C1 (the code departs from the claim).  In a playback session
    [setWeatherRequest] must not reach the handler and must hand one empty
    reply (id 0, status OK, no metars) to the host.  The guard of
    [setWeatherRequest] tests [saveReplayFile], which is null during
    playback: on a session playing [Samples.recorded] the request is
    stored in the handler with [addWeatherRequest] and no packet is
    handed over. *)
Theorem C1_playing_submit_reaches_handler :
  let t := Samples.playing in
  let t' := setWeatherRequest Samples.q1 t in
  loadReplayFile t = Some (mkQFile Samples.replayFile 12 true)
  /\ saveReplayFile t = None
  /\ delivered (since t t') = []
  /\ handlerCalls (since t t') = [handler_addWeatherRequest Samples.q1]
  /\ weatherRequest (handler t') = Samples.q1.
Proof. vm_compute. repeat split. Qed.

(** C9 (the code departs from the claim).  Two weather requests submitted
    before the loop services either must lead to exactly one weather fetch
    of the handler, for the second request.  While a record file is open
    [setWeatherRequest] answers each submission with an empty reply and
    stores nothing: after Q1 and Q2 the next iteration of the main loop
    fetches telemetry and the handler is never asked for weather.
    ([weather_latest_wins] is the claim for sessions without record file.) *)
Theorem C9_recording_submits_are_not_fetched :
  let t := Samples.recordingNow in
  let t2 := setWeatherRequest Samples.q2 (setWeatherRequest Samples.q1 t) in
  let t3 := @loopBody RefFormat.format (Samples.telemetryOk [x0a]) t2 in
  recording t = true
  /\ loadReplayFile t = None
  /\ delivered (since t t2)
     = [SimConnectData_default; SimConnectData_default]
  /\ handlerCalls (since t t2) = []
  /\ handlerCalls (since t2 t3)
     = [handler_fetchData true;
        handler_addWeatherRequest WeatherRequest_default].
Proof. vm_compute. repeat split. Qed.

(** ** The reconnect wait *)

Lemma submits_flags (qs : list WeatherRequest) (t : DataReaderThread) :
  let t' := fold_left (fun s r => setWeatherRequest r s) qs t in
  terminate t' = terminate t /\ connected t' = connected t
  /\ reconnecting t' = reconnecting t /\ sleeps (since t t') = O.
Proof.
  revert t. induction qs as [|q qs IH]; intros t; cbn.
  - repeat split. now rewrite since_same.
  - destruct (IH (setWeatherRequest q t)) as (T & C & R & S).
    rewrite T, C, R.
    rewrite (since_trans t (setWeatherRequest q t));
      [|apply setWeatherRequest_passive | apply submits_passive].
    rewrite sleeps_app, S.
    unfold setWeatherRequest. destruct (saveReplayFile t); cbn;
      (erewrite since_app; [|cbn; reflexivity]); repeat split.
Qed.

Lemma QThread_sleep_flags (k : Tick) (t : DataReaderThread) :
  let t' := QThread_sleep k t in
  terminate t' = terminate t || cancelInSleep k
  /\ connected t' = connected t
  /\ reconnecting t' = reconnecting t
  /\ sleeps (since t t') = 1%nat.
Proof.
  unfold QThread_sleep, meanwhile.
  destruct (submits_flags (tickSubmits k) (emit sleep_1s t)) as (T & C & R & S).
  assert (Hs : sleeps (since t (fold_left (fun s r => setWeatherRequest r s)
                                          (tickSubmits k) (emit sleep_1s t)))
               = 1%nat).
  { rewrite (since_trans t (emit sleep_1s t));
      [|apply (extends_app _ _ [sleep_1s]); reflexivity
       |apply submits_passive].
    rewrite sleeps_app, S. now rewrite (since_app t _ [sleep_1s]). }
  destruct (cancelInSleep k); cbn.
  - rewrite C, R, orb_true_r. repeat split.
    erewrite <- Hs. f_equal.
  - rewrite T, C, R, orb_false_r. repeat split. exact Hs.
Qed.

Lemma connectLoop_terminated (ticks : list Tick) (counter : Z)
      (t : DataReaderThread) :
  terminate t = true -> connectLoop ticks counter t = t.
Proof. intros H. destruct ticks; cbn; now rewrite H. Qed.

Lemma connectLoop_cancel (pre post : list Tick) (k : Tick) (counter : Z)
      (t : DataReaderThread) :
  terminate t = false ->
  forallb waitingTick pre = true ->
  connectOk k = false -> cancelInSleep k = true ->
  let t' := connectLoop (pre ++ k :: post) counter t in
  terminate t' = true
  /\ connected t' = connected t
  /\ reconnecting t' = reconnecting t
  /\ sleeps (since t t') = S (length pre)
  /\ t' = connectLoop (pre ++ [k]) counter t.
Proof.
  intros Ht Hpre Hk Hc. revert counter t Ht.
  induction pre as [|w pre IH]; intros counter t Ht.
  - cbn [app connectLoop length]. rewrite Ht, Hk.
    assert (Hstep : forall u n,
               terminate u = false -> connected u = connected t ->
               reconnecting u = reconnecting t -> extends t u ->
               sleeps (since t u) = O ->
               let t' := connectLoop post n (QThread_sleep k u) in
               terminate t' = true /\ connected t' = connected t
               /\ reconnecting t' = reconnecting t
               /\ sleeps (since t t') = 1%nat
               /\ t' = connectLoop [] n (QThread_sleep k u)).
    { intros u n Tu Cu Ru Eu Su.
      destruct (QThread_sleep_flags k u) as (T & C & R & S).
      rewrite Tu, Hc in T. cbn in T.
      cbn zeta. rewrite !connectLoop_terminated by exact T.
      rewrite C, R, Cu, Ru. repeat split; try assumption.
      rewrite (since_trans t u);
        [|exact Eu | apply QThread_sleep_passive].
      now rewrite sleeps_app, Su, S. }
    destruct (Z.rem counter (reconnectRateSec t) =? 0).
    + apply Hstep; try reflexivity; try assumption.
      * apply (extends_app _ _ [handler_connect false]); reflexivity.
      * now rewrite (since_app t _ [handler_connect false]).
    + apply Hstep; try reflexivity; try assumption.
      * now apply extends_same.
      * now rewrite since_same.
  - cbn [app connectLoop length forallb] in *.
    apply andb_true_iff in Hpre as [Hw Hpre].
    unfold waitingTick in Hw. apply andb_true_iff in Hw as [Hw1 Hw2].
    apply negb_true_iff in Hw1, Hw2.
    rewrite Ht, Hw1.
    assert (Hstep : forall u n,
               terminate u = false -> connected u = connected t ->
               reconnecting u = reconnecting t -> extends t u ->
               sleeps (since t u) = O ->
               let t' := connectLoop (pre ++ k :: post) n (QThread_sleep w u) in
               terminate t' = true /\ connected t' = connected t
               /\ reconnecting t' = reconnecting t
               /\ sleeps (since t t') = S (S (length pre))
               /\ t' = connectLoop (pre ++ [k]) n (QThread_sleep w u)).
    { intros u n Tu Cu Ru Eu Su.
      destruct (QThread_sleep_flags w u) as (T & C & R & S).
      rewrite Tu, Hw2 in T. cbn in T.
      destruct (IH Hpre n (QThread_sleep w u) T) as (T' & C' & R' & S' & E').
      cbn zeta. rewrite T', C', R', C, R, Cu, Ru.
      repeat split; try assumption.
      rewrite (since_trans t (QThread_sleep w u)).
      - rewrite (since_trans t u);
          [|exact Eu | apply QThread_sleep_passive].
        rewrite !sleeps_app, Su, S, S'. reflexivity.
      - eapply extends_trans; [exact Eu | apply QThread_sleep_passive].
      - apply connectLoop_passive. }
    destruct (Z.rem counter (reconnectRateSec t) =? 0).
    + apply Hstep; try reflexivity; try assumption.
      * apply (extends_app _ _ [handler_connect false]); reflexivity.
      * now rewrite (since_app t _ [handler_connect false]).
    + apply Hstep; try reflexivity; try assumption.
      * now apply extends_same.
      * now rewrite since_same.
Qed.

(** C10.  Time in the reconnect wait is counted in ticks, one
    [QThread::sleep(1)] each.  With a reconnect rate other than 0 (the
    remainder of line 55 is undefined for 0), if the thread is asked to
    stop during the sleep of a tick, after any number of ticks in which
    the simulator could not be reached, [connectToSimulator] returns at
    the end of that very sleep: the sleep is the last one
    ([length pre + 1] seconds slept in all), nothing of the script after
    it is consumed (no further [connect], no further sleep), and the
    object is left not connected and not reconnecting.  The flag is read
    once per tick, so the request is seen at most one tick after it is
    made. *)
Theorem C10_cancel_within_one_tick (pre post : list Tick) (k : Tick)
        (t : DataReaderThread) :
  reconnectRateSec t <> 0 ->
  terminate t = false ->
  forallb waitingTick pre = true ->
  connectOk k = false -> cancelInSleep k = true ->
  let t' := connectToSimulator (pre ++ k :: post) t in
  terminate t' = true
  /\ connected t' = connected t
  /\ reconnecting t' = false
  /\ sleeps (since t t') = S (length pre)
  /\ t' = connectToSimulator (pre ++ [k]) t.
Proof.
  intros _ Ht Hpre Hk Hc. unfold connectToSimulator.
  set (t1 := t |> emit (postLogMessage MsgNotConnected false)
               |> set_reconnecting true).
  destruct (connectLoop_cancel pre post k 0 t1 Ht Hpre Hk Hc)
    as (T & C & R & S & E).
  cbn zeta in *. cbn [terminate connected reconnecting set_reconnecting].
  rewrite T, C, <- E. repeat split.
  rewrite <- S.
  assert (E1 : extends t t1)
    by (apply (extends_app _ _ [postLogMessage MsgNotConnected false]);
        reflexivity).
  assert (E2 : extends t1 (connectLoop (pre ++ k :: post) 0 t1))
    by apply connectLoop_passive.
  assert (Hs : since t (set_reconnecting false
                          (connectLoop (pre ++ k :: post) 0 t1))
               = since t (connectLoop (pre ++ k :: post) 0 t1))
    by reflexivity.
  rewrite Hs, (since_trans t t1) by assumption.
  rewrite sleeps_app.
  now rewrite (since_app t t1 [postLogMessage MsgNotConnected false]).
Qed.

Lemma C10_cancel_within_one_tick_witness :
  let t' := connectToSimulator
              ([Samples.tickDown; Samples.tickDown]
                 ++ Samples.tickCancel :: [Samples.tickUp])
              Samples.fresh in
  terminate t' = true
  /\ connected t' = connected Samples.fresh
  /\ reconnecting t' = false
  /\ sleeps (since Samples.fresh t') = 3%nat
  /\ t' = connectToSimulator
            ([Samples.tickDown; Samples.tickDown] ++ [Samples.tickCancel])
            Samples.fresh.
Proof.
  apply (C10_cancel_within_one_tick
           [Samples.tickDown; Samples.tickDown] [Samples.tickUp]
           Samples.tickCancel Samples.fresh);
    first [reflexivity | vm_compute; discriminate].
Defined.

(** ** A failed telemetry fetch *)

Section FetchFailure.

Context {fmt : ReplayFormat}.

Lemma liveBody_fetch_failed (c : Cycle) (t : DataReaderThread) :
  isValid (weatherRequest (handler t)) = false -> fetchOk c = false ->
  liveBody c t
  = let t1 := t |> emit (handler_fetchData false)
                |> set_nextPacketId (nextPacketId t + 1)
                |> emit (handler_addWeatherRequest WeatherRequest_default)
                |> set_handler (mkHandler WeatherRequest_default) in
    if isSTATEOK (handlerState c) then t1
    else
      let t2 := t1 |> set_connected false
                   |> emit disconnectedFromSimulator
                   |> emit (qWarning WarnFetchError) in
      if simRunning c then t2 else connectToSimulator (reconnectTicks c) t2.
Proof.
  intros Hv Hf. unfold liveBody.
  rewrite (fetchData_telemetry c _ t Hv), Hf. cbv beta iota zeta.
  destruct (isSTATEOK (handlerState c)), (simRunning c); reflexivity.
Qed.

(** C3 (amended).  In a live cycle whose telemetry fetch fails, what
    decides is the state the handler reports, not whether the simulator
    process is alive.  With state OK the loop goes on without any
    notification and with the connected flag and the connection state as
    they were.  With another state, and the simulator process still
    running, [connected] is cleared and [disconnectedFromSimulator] is
    emitted; no reconnect is attempted. *)
Theorem C3_fetch_failure (c : Cycle) (t : DataReaderThread) :
  loadReplayFile t = None ->
  isValid (weatherRequest (handler t)) = false ->
  fetchOk c = false ->
  let t' := loopBody c t in
  (handlerState c = STATEOK ->
   connected t' = connected t
   /\ reconnecting t' = reconnecting t
   /\ terminate t' = terminate t
   /\ since t t' = [handler_fetchData false;
                    handler_addWeatherRequest WeatherRequest_default])
  /\ (handlerState c <> STATEOK -> simRunning c = true ->
      connected t' = false
      /\ reconnecting t' = reconnecting t
      /\ since t t' = [handler_fetchData false;
                       handler_addWeatherRequest WeatherRequest_default;
                       disconnectedFromSimulator;
                       qWarning WarnFetchError]).
Proof.
  intros Hl Hv Hf. unfold loopBody. rewrite Hl.
  rewrite (liveBody_fetch_failed c t Hv Hf). cbv zeta. split.
  - intros Hs. rewrite Hs. cbn [isSTATEOK]. repeat split.
    apply since_app. cbn. now rewrite <- app_assoc.
  - intros Hs Hr. rewrite Hr.
    destruct (handlerState c); [now elim Hs|]. cbn [isSTATEOK].
    repeat split. apply since_app. cbn. now rewrite <- !app_assoc.
Qed.

End FetchFailure.

Lemma C3_fetch_failure_witness :
  let t := Samples.online in
  let t' := @loopBody RefFormat.format Samples.telemetryMiss t in
  (handlerState Samples.telemetryMiss = STATEOK ->
   connected t' = connected t
   /\ reconnecting t' = reconnecting t
   /\ terminate t' = terminate t
   /\ since t t' = [handler_fetchData false;
                    handler_addWeatherRequest WeatherRequest_default])
  /\ (handlerState Samples.telemetryMiss <> STATEOK ->
      simRunning Samples.telemetryMiss = true ->
      connected t' = false
      /\ reconnecting t' = reconnecting t
      /\ since t t' = [handler_fetchData false;
                       handler_addWeatherRequest WeatherRequest_default;
                       disconnectedFromSimulator;
                       qWarning WarnFetchError]).
Proof.
  apply (@C3_fetch_failure RefFormat.format Samples.telemetryMiss
                           Samples.online); reflexivity.
Defined.

(** The claim of C3 as written fails: the fetch fails, the simulator
    process is alive, and still the connected flag is cleared and a
    disconnect is notified. *)
Lemma C3_counterexample :
  let t := Samples.online in
  let c := Samples.telemetryError in
  let t' := @loopBody RefFormat.format c t in
  loadReplayFile t = None
  /\ fetchOk c = false
  /\ simRunning c = true
  /\ connected t = true
  /\ connected t' = false
  /\ signals (since t t') = [disconnectedFromSimulator].
Proof. vm_compute. repeat split. Qed.

(** ** Opening a playback file *)

Lemma get_u32_rest (bs : list byte) :
  (4 <= length bs)%nat -> snd (get_u32 bs) = skipn 4 bs.
Proof.
  destruct bs as [|a [|b [|c [|d r]]]]; cbn; intros H;
    try reflexivity; lia.
Qed.

Section Playback.

Context {fmt : ReplayFormat}.

(** The outcomes of [setupReplay] when a playback path is configured. *)
Lemma setupReplay_playback (t : DataReaderThread) :
  String.eqb (loadReplayFilepath t) EmptyString = false ->
  let path := loadReplayFilepath t in
  let bytes := contents (disk t) path in
  setupReplay t
  = if (12 <? length bytes)%nat then
      if canRead (disk t) path then
        let t1 := t |> set_replayUpdateRateMs
                         (fst (get_u32 (skipn 8 bytes)))
                    |> set_loadReplayFile (Some (mkQFile path 12 true)) in
        if headerMagic bytes =? REPLAY_FILE_MAGIC_NUMBER then
          if headerVersion bytes =? REPLAY_FILE_VERSION then
            t1 |> emit (postLogMessage (MsgReplaying path) false)
               |> emit connectedToSimulator
          else
            t1 |> emit (postLogMessage (MsgWrongVersion path) true)
               |> closeReplay
        else
          t1 |> emit (postLogMessage (MsgWrongMagic path) true)
             |> closeReplay
      else
        t |> emit (postLogMessage (MsgCannotOpen path) true)
          |> set_loadReplayFile None
    else
      t |> set_loadReplayFile (Some (mkQFile path 0 false))
        |> emit (postLogMessage (MsgTooSmall path) true)
        |> closeReplay.
Proof.
  intros Hp. cbv zeta. unfold setupReplay. rewrite Hp. cbn [negb].
  cbn [disk set_loadReplayFile]. unfold REPLAY_FILE_DATA_START_OFFSET.
  destruct (12 <? length (contents (disk t) (loadReplayFilepath t)))%nat
    eqn:El; [|reflexivity].
  apply Nat.ltb_lt in El.
  destruct (canRead (disk t) (loadReplayFilepath t)); [|reflexivity].
  cbn [negb]. unfold headerMagic, headerVersion.
  set (bytes := contents (disk t) (loadReplayFilepath t)) in *.
  assert (H1 : snd (get_u32 bytes) = skipn 4 bytes)
    by (apply get_u32_rest; lia).
  assert (H2 : snd (get_u32 (skipn 4 bytes)) = skipn 8 bytes).
  { rewrite get_u32_rest by (rewrite length_skipn; lia).
    now rewrite skipn_skipn. }
  destruct (get_u32 bytes) as [magic r1]. cbn [fst snd] in *. subst r1.
  destruct (get_u32 (skipn 4 bytes)) as [version r2]. cbn [fst snd] in *.
  subst r2.
  destruct (get_u32 (skipn 8 bytes)) as [rate r3]. cbn [fst].
  destruct (magic =? REPLAY_FILE_MAGIC_NUMBER); [|reflexivity].
  destruct (version =? REPLAY_FILE_VERSION); reflexivity.
Qed.

End Playback.

Section Run.

Context {fmt : ReplayFormat}.

Lemma setupReplay_steady (t : DataReaderThread) : steady t (setupReplay t).
Proof.
  destruct (String.eqb (loadReplayFilepath t) EmptyString) eqn:Ep.
  - unfold setupReplay. rewrite Ep. cbn [negb].
    destruct (String.eqb (saveReplayFilepath t) EmptyString); cbn [negb];
      [now apply steady_same|].
    destruct (canWrite (disk t) (saveReplayFilepath t)); cbn [negb];
      eapply steady_app; try reflexivity; reflexivity.
  - rewrite (setupReplay_playback t Ep). cbv zeta.
    repeat match goal with
           | |- context [if ?b then _ else _] => destruct b
           end;
      eapply steady_app; try reflexivity;
      cbn; rewrite ?closeReplay_trace; cbn; rewrite <- ?app_assoc;
      reflexivity.
Qed.

(** Without playback file [run] is the connection loop, the live loop and
    the teardown. *)
Lemma run_without_playback (ticks : list Tick) (cycles : list Cycle)
      (t : DataReaderThread) :
  loadReplayFile (setupReplay t) = None ->
  run ticks cycles t
  = teardown (liveLoop cycles (connectToSimulator ticks (setupReplay t))).
Proof.
  intros H. unfold run. rewrite H. rewrite mainLoop_live; [reflexivity|].
  now rewrite (passive_load _ _ (connectToSimulator_passive _ _)).
Qed.

Lemma live_run_steps (ticks : list Tick) (cycles : list Cycle)
      (s : DataReaderThread) :
  loadReplayFile s = None ->
  liveSteps s (liveLoop cycles (connectToSimulator ticks s)).
Proof.
  intros H.
  assert (H1 : liveSteps s (connectToSimulator ticks s))
    by (apply passive_liveSteps;
        [exact H | apply connectToSimulator_passive]).
  eapply liveSteps_trans; [exact H1|].
  apply liveLoop_liveSteps. apply H1.
Qed.

(** What a run without playback file hands over, writes and reads is what
    its connection loop and live loop do. *)
Lemma run_without_playback_trace (ticks : list Tick) (cycles : list Cycle)
      (t : DataReaderThread) :
  loadReplayFile (setupReplay t) = None ->
  let s := setupReplay t in
  let b := liveLoop cycles (connectToSimulator ticks s) in
  liveSteps s b
  /\ extends t (run ticks cycles t)
  /\ delivered (since t (run ticks cycles t)) = delivered (since s b)
  /\ written (since t (run ticks cycles t)) = written (since s b)
  /\ replayReads (since t (run ticks cycles t)) = [].
Proof.
  intros H s b.
  assert (L : liveSteps s b) by now apply live_run_steps.
  rewrite (run_without_playback ticks cycles t H). fold s. fold b.
  destruct (steady_around t s b (teardown b)) as (E & D & W & R).
  - apply setupReplay_steady.
  - apply L.
  - apply teardown_steady.
  - split; [exact L|]. split; [exact E|]. split; [exact D|].
    split; [exact W|]. rewrite R. apply L.
Qed.

(** C8.  A playback file is accepted by [setupReplay] (an open
    [loadReplayFile] positioned at the data section) iff it is longer
    than the 12 header bytes, can be opened for reading, and its magic
    number and its version are the expected constants.  Every other file
    leaves [loadReplayFile] null and is reported with exactly one log
    message, flagged as an error, which names the check that failed, in
    the order of the checks: too small; else cannot be opened (whatever
    its header); else wrong magic number; else wrong version.  No record
    is ever read from such a file in the run. *)
Theorem C8_playback_open (t : DataReaderThread) :
  String.eqb (loadReplayFilepath t) EmptyString = false ->
  let path := loadReplayFilepath t in
  let bytes := contents (disk t) path in
  let valid := (12 < length bytes)%nat
               /\ canRead (disk t) path = true
               /\ headerMagic bytes = REPLAY_FILE_MAGIC_NUMBER
               /\ headerVersion bytes = REPLAY_FILE_VERSION in
  let t' := setupReplay t in
  (loadReplayFile t' = Some (mkQFile path 12 true) <-> valid)
  /\ (~ valid ->
      loadReplayFile t' = None
      /\ (exists m,
             since t t' = [postLogMessage m true]
             /\ ((length bytes <= 12)%nat /\ m = MsgTooSmall path
                 \/ (12 < length bytes)%nat
                    /\ canRead (disk t) path = false
                    /\ m = MsgCannotOpen path
                 \/ (12 < length bytes)%nat
                    /\ canRead (disk t) path = true
                    /\ headerMagic bytes <> REPLAY_FILE_MAGIC_NUMBER
                    /\ m = MsgWrongMagic path
                 \/ (12 < length bytes)%nat
                    /\ canRead (disk t) path = true
                    /\ headerMagic bytes = REPLAY_FILE_MAGIC_NUMBER
                    /\ headerVersion bytes <> REPLAY_FILE_VERSION
                    /\ m = MsgWrongVersion path))
      /\ forall ticks cycles,
          replayReads (since t (run ticks cycles t)) = []).
Proof.
  intros Hp path bytes valid t'.
  assert (Hcases :
            valid /\ loadReplayFile t' = Some (mkQFile path 12 true)
            \/ ~ valid /\ loadReplayFile t' = None
               /\ exists m,
                   since t t' = [postLogMessage m true]
                   /\ ((length bytes <= 12)%nat /\ m = MsgTooSmall path
                       \/ (12 < length bytes)%nat
                          /\ canRead (disk t) path = false
                          /\ m = MsgCannotOpen path
                       \/ (12 < length bytes)%nat
                          /\ canRead (disk t) path = true
                          /\ headerMagic bytes <> REPLAY_FILE_MAGIC_NUMBER
                          /\ m = MsgWrongMagic path
                       \/ (12 < length bytes)%nat
                          /\ canRead (disk t) path = true
                          /\ headerMagic bytes = REPLAY_FILE_MAGIC_NUMBER
                          /\ headerVersion bytes <> REPLAY_FILE_VERSION
                          /\ m = MsgWrongVersion path)).
  { unfold t'. rewrite (setupReplay_playback t Hp). cbv zeta.
    fold path. fold bytes.
    destruct (12 <? length bytes)%nat eqn:El.
    - apply Nat.ltb_lt in El.
      destruct (canRead (disk t) path) eqn:Er.
      + destruct (headerMagic bytes =? REPLAY_FILE_MAGIC_NUMBER) eqn:Em.
        * apply Z.eqb_eq in Em.
          destruct (headerVersion bytes =? REPLAY_FILE_VERSION) eqn:Ev.
          -- apply Z.eqb_eq in Ev. left. unfold valid. repeat split;
               assumption.
          -- apply Z.eqb_neq in Ev. right. unfold valid.
             split; [tauto|]. split.
             ++ unfold closeReplay. cbn.
                destruct (saveReplayFile t); reflexivity.
             ++ exists (MsgWrongVersion path). split; [|tauto].
                apply since_app. now rewrite closeReplay_trace.
        * apply Z.eqb_neq in Em. right. unfold valid.
          split; [tauto|]. split.
          -- unfold closeReplay. cbn.
             destruct (saveReplayFile t); reflexivity.
          -- exists (MsgWrongMagic path). split; [|tauto].
             apply since_app. now rewrite closeReplay_trace.
      + right. unfold valid.
        split; [intros (_ & H & _); discriminate|]. split; [reflexivity|].
        exists (MsgCannotOpen path). split; [|tauto].
        now apply since_app.
    - apply Nat.ltb_ge in El. right. unfold valid.
      split; [lia|]. split.
      + unfold closeReplay. cbn. destruct (saveReplayFile t); reflexivity.
      + exists (MsgTooSmall path). split; [|tauto].
        apply since_app. now rewrite closeReplay_trace. }
  split.
  - destruct Hcases as [[Hv Hl] | (Hv & Hl & _)].
    + tauto.
    + split; [rewrite Hl; discriminate | tauto].
  - intros Hn. destruct Hcases as [[Hv _] | (_ & Hl & Hm)]; [tauto|].
    split; [exact Hl|]. split; [exact Hm|].
    intros ticks cycles.
    apply (run_without_playback_trace ticks cycles t Hl).
Qed.

End Run.

Lemma C8_playback_open_witness :
  let t := Samples.player Samples.replayFile
             (overwrite Samples.emptyDisk Samples.replayFile
                        Samples.flippedMagic) in
  let path := loadReplayFilepath t in
  let bytes := contents (disk t) path in
  let valid := (12 < length bytes)%nat
               /\ canRead (disk t) path = true
               /\ headerMagic bytes
                  = @REPLAY_FILE_MAGIC_NUMBER RefFormat.format
               /\ headerVersion bytes
                  = @REPLAY_FILE_VERSION RefFormat.format in
  let t' := @setupReplay RefFormat.format t in
  (loadReplayFile t' = Some (mkQFile path 12 true) <-> valid)
  /\ (~ valid ->
      loadReplayFile t' = None
      /\ (exists m,
             since t t' = [postLogMessage m true]
             /\ ((length bytes <= 12)%nat /\ m = MsgTooSmall path
                 \/ (12 < length bytes)%nat
                    /\ canRead (disk t) path = false
                    /\ m = MsgCannotOpen path
                 \/ (12 < length bytes)%nat
                    /\ canRead (disk t) path = true
                    /\ headerMagic bytes
                       <> @REPLAY_FILE_MAGIC_NUMBER RefFormat.format
                    /\ m = MsgWrongMagic path
                 \/ (12 < length bytes)%nat
                    /\ canRead (disk t) path = true
                    /\ headerMagic bytes
                       = @REPLAY_FILE_MAGIC_NUMBER RefFormat.format
                    /\ headerVersion bytes
                       <> @REPLAY_FILE_VERSION RefFormat.format
                    /\ m = MsgWrongVersion path))
      /\ forall ticks cycles,
          replayReads (since t (@run RefFormat.format ticks cycles t)) = []).
Proof.
  apply (@C8_playback_open RefFormat.format
           (Samples.player Samples.replayFile
              (overwrite Samples.emptyDisk Samples.replayFile
                         Samples.flippedMagic))); reflexivity.
Defined.

(** The claim of C8 as written fails: a file longer than the header with
    the expected magic number and version, which [QFile::open] refuses
    (lines 234-239), is not opened for playback; the message is the bare
    "Cannot open", and the run reads no record. *)
Lemma C8_counterexample :
  let t := Samples.player Samples.replayFile Samples.lockedFile in
  let path := loadReplayFilepath t in
  let bytes := contents (disk t) path in
  let t' := @setupReplay RefFormat.format t in
  (12 < length bytes)%nat
  /\ headerMagic bytes = @REPLAY_FILE_MAGIC_NUMBER RefFormat.format
  /\ headerVersion bytes = @REPLAY_FILE_VERSION RefFormat.format
  /\ loadReplayFile t' = None
  /\ since t t' = [postLogMessage (MsgCannotOpen path) true]
  /\ replayReads
       (since t (@run RefFormat.format [Samples.tickUp]
                      [Samples.telemetryOk [x0a]] t)) = [].
Proof. vm_compute. repeat split; lia. Qed.

(** The three rejections and the acceptance on the sample files. *)
Lemma setupReplay_samples :
  let open := fun bytes =>
    loadReplayFile
      (@setupReplay RefFormat.format
         (Samples.player Samples.replayFile
            (overwrite Samples.emptyDisk Samples.replayFile bytes))) in
  open Samples.goodBytes = Some (mkQFile Samples.replayFile 12 true)
  /\ open Samples.flippedMagic = None
  /\ open Samples.otherVersion = None
  /\ open Samples.headerOnly = None.
Proof. vm_compute. repeat split. Qed.

(** ** Replay errors *)

Section ReplayError.

Context {fmt : ReplayFormat}.



End ReplayError.



(** ** What is appended to the record file *)

Section Written.

Context {fmt : ReplayFormat}.

Lemma replayBody_trace (f : QFile) (t : DataReaderThread) :
  let data := fst (SimConnectData_read
                     (skipn (pos f) (contents (disk t) (fileName f)))) in
  trace (replayBody f t)
  = trace t
    ++ [replay_read data;
        match status data with
        | OK => postSimConnectData data
        | ERROR =>
            postLogMessage
              (MsgErrorReading (loadReplayFilepath t) (statusText data)) true
        end].
Proof.
  cbv zeta. unfold replayBody.
  destruct (SimConnectData_read
              (skipn (pos f) (contents (disk t) (fileName f))))
    as [data n].
  cbn [fst]. destruct (status data).
  - cbn.
    destruct (length (contents (disk t) (fileName f)) <=? pos f + n)%nat;
      cbn; now rewrite <- app_assoc.
  - rewrite closeReplay_trace. cbn. now rewrite <- app_assoc.
Qed.

Lemma telemetry_positive (ds : list SimConnectData) :
  positiveIds (telemetry ds).
Proof.
  unfold positiveIds, telemetry. apply Forall_forall. intros d Hd.
  apply filter_In in Hd as [_ Hd]. now apply Z.ltb_lt.
Qed.

Lemma loopBody_written (c : Cycle) (t : DataReaderThread) :
  extends t (loopBody c t)
  /\ positiveIds (written (since t (loopBody c t))).
Proof.
  unfold loopBody. destruct (loadReplayFile t) as [f|] eqn:El.
  - pose proof (replayBody_trace f t) as H. cbv zeta in H.
    split; [eapply extends_app; exact H|].
    rewrite (since_app _ _ _ H). cbn.
    destruct (status _); constructor.
  - destruct (liveBody_liveSteps c t El) as [_ _ E _ _ _ _ _ W _].
    split; [exact E|]. rewrite W.
    destruct (recording t); [apply telemetry_positive | constructor].
Qed.

Lemma mainLoop_written (cycles : list Cycle) (t : DataReaderThread) :
  extends t (mainLoop cycles t)
  /\ positiveIds (written (since t (mainLoop cycles t))).
Proof.
  revert t. induction cycles as [|c cycles IH]; intros t; cbn;
    destruct (terminate t);
    try (split; [now apply extends_same
                | rewrite since_same by reflexivity; constructor]).
  destruct (loopBody_written c t) as [E1 W1].
  pose proof (meanwhile_passive (waitSubmits c) (cancelInWait c)
                                (loopBody c t)) as P.
  destruct (IH (meanwhile (waitSubmits c) (cancelInWait c) (loopBody c t)))
    as [E3 W3].
  assert (E2 : extends t (meanwhile (waitSubmits c) (cancelInWait c)
                                    (loopBody c t)))
    by (eapply extends_trans; [exact E1 | apply P]).
  split; [eapply extends_trans; eassumption|].
  rewrite (since_trans t _ _ E2 E3), (since_trans t _ _ E1 (passive_extends _ _ P)).
  rewrite !written_app, (passive_written _ _ P), app_nil_r.
  apply Forall_app; split; assumption.
Qed.

Lemma since_chain (t s a b e : DataReaderThread) :
  extends t s -> extends s a -> extends a b -> extends b e ->
  extends t e
  /\ since t e = since t s ++ since s a ++ since a b ++ since b e.
Proof.
  intros E1 E2 E3 E4.
  assert (Ea : extends t a) by (eapply extends_trans; eassumption).
  assert (Eb : extends t b) by (eapply extends_trans; eassumption).
  split; [eapply extends_trans; eassumption|].
  rewrite (since_trans t b e Eb E4), (since_trans t a b Ea E3),
    (since_trans t s a E1 E2).
  now rewrite <- !app_assoc.
Qed.

(** The four stages of [run]: setup, connection, main loop, teardown. *)
Lemma run_stages (ticks : list Tick) (cycles : list Cycle)
      (t : DataReaderThread) :
  let s := setupReplay t in
  let a := match loadReplayFile s with
           | Some _ => set_connected true s
           | None => connectToSimulator ticks s
           end in
  let b := mainLoop cycles a in
  run ticks cycles t = teardown b
  /\ steady t s /\ passive s a /\ extends a b /\ steady b (teardown b)
  /\ extends t (run ticks cycles t)
  /\ since t (run ticks cycles t)
     = since t s ++ since s a ++ since a b ++ since b (teardown b).
Proof.
  intros s a b.
  assert (Ss : steady t s) by apply setupReplay_steady.
  assert (Pa : passive s a).
  { unfold a. destruct (loadReplayFile s);
      [repeat passive_peel | apply connectToSimulator_passive]. }
  assert (Eb : extends a b) by apply mainLoop_written.
  assert (Se : steady b (teardown b)) by apply teardown_steady.
  assert (Hr : run ticks cycles t = teardown b).
  { unfold run, teardown, b, a, s.
    destruct (loadReplayFile (setupReplay t)); reflexivity. }
  rewrite Hr. repeat (split; [assumption|]).
  apply since_chain; [apply Ss | apply Pa | exact Eb | apply Se].
Qed.

Lemma run_written (ticks : list Tick) (cycles : list Cycle)
      (t : DataReaderThread) :
  positiveIds (written (since t (run ticks cycles t))).
Proof.
  destruct (run_stages ticks cycles t) as (_ & Ss & Pa & _ & Se & _ & Hs).
  cbv zeta in *. rewrite Hs, !written_app.
  rewrite (steady_written _ _ Ss), (passive_written _ _ Pa),
    (steady_written _ _ Se), app_nil_r.
  cbn [app]. apply mainLoop_written.
Qed.

End Written.

(** ** Packet ids *)

Section PacketIds.

Context {fmt : ReplayFormat}.

(** C6.  When a weather request is pending, [fetchData] reports success
    and returns a packet with id 0, whatever the value of the telemetry
    counter, and leaves the counter as it was; and in every run, from
    every object, each packet appended to the record file has a positive
    id, so that a packet with id 0 is never appended. *)
Theorem C6_weather_reply_id (c : Cycle) (data : SimConnectData)
        (t : DataReaderThread) :
  isValid (weatherRequest (handler t)) = true ->
  let '(fetched, d, t') := fetchData c data t in
  fetched = true
  /\ packetId d = 0
  /\ nextPacketId t' = nextPacketId t
  /\ forall ticks cycles u,
      positiveIds (written (since u (run ticks cycles u))).
Proof.
  intros Hv. rewrite (fetchData_weather c data t Hv).
  repeat split.
  - destruct (length (fillMetars (weatherFill c)) =? 0)%nat; reflexivity.
  - intros ticks cycles u. apply run_written.
Qed.

End PacketIds.

Lemma C6_weather_reply_id_witness :
  let t := setWeatherRequest Samples.q1 Samples.online in
  let '(fetched, d, t') :=
    fetchData (Samples.telemetryOk [x0a]) SimConnectData_default t in
  fetched = true
  /\ packetId d = 0
  /\ nextPacketId t' = nextPacketId t
  /\ forall ticks cycles u,
      positiveIds (written (since u (@run RefFormat.format ticks cycles u))).
Proof.
  apply (@C6_weather_reply_id RefFormat.format (Samples.telemetryOk [x0a])
           SimConnectData_default
           (setWeatherRequest Samples.q1 Samples.online)).
  reflexivity.
Defined.

Section FailedFetch.

Context {fmt : ReplayFormat}.

Lemma liveBody_failed_steps (c : Cycle) (t : DataReaderThread) :
  loadReplayFile t = None ->
  isValid (weatherRequest (handler t)) = false -> fetchOk c = false ->
  let l := liveBody c t in
  nextPacketId l = nextPacketId t + 1
  /\ loadReplayFile l = None
  /\ extends t l
  /\ Forall (fun d => packetId d = 0) (delivered (since t l)).
Proof.
  intros Hl Hv Hf l.
  set (t1 := t |> emit (handler_fetchData false)
               |> set_nextPacketId (nextPacketId t + 1)
               |> emit (handler_addWeatherRequest WeatherRequest_default)
               |> set_handler (mkHandler WeatherRequest_default)).
  assert (E1 : trace t1
               = trace t ++ [handler_fetchData false;
                             handler_addWeatherRequest WeatherRequest_default])
    by (cbn; now rewrite <- app_assoc).
  assert (P : passive t1 l).
  { unfold l. rewrite (liveBody_fetch_failed c t Hv Hf). cbv zeta. fold t1.
    destruct (isSTATEOK (handlerState c)); [passive_peel|].
    destruct (simRunning c); [repeat passive_peel|].
    eapply passive_trans; [|apply connectToSimulator_passive].
    repeat passive_peel. }
  split; [now rewrite (passive_next _ _ P)|].
  split; [now rewrite (passive_load _ _ P)|].
  assert (E : extends t t1) by (eapply extends_app; exact E1).
  split; [eapply extends_trans; [exact E | apply P]|].
  rewrite (since_trans t t1 l E (passive_extends _ _ P)), delivered_app.
  rewrite (since_app _ _ _ E1). cbn [delivered app].
  eapply Forall_impl; [|apply (passive_delivered _ _ P)].
  cbn. intros d ->. reflexivity.
Qed.

(** C5.  A call of [fetchData] with no weather request pending returns
    what the handler's telemetry fetch returned, gives the packet the
    current value of [nextPacketId] and increments the counter by one,
    whether the fetch succeeded or not.  Consequently, when the fetch of
    an iteration of the live loop fails, the id it consumed is the id of
    no packet handed over in that iteration or in any later one, nor of
    any packet handed over in the live steps [t0 .. t] before it. *)
Theorem C5_fetch_consumes_id (c : Cycle) (data : SimConnectData)
        (t : DataReaderThread) :
  isValid (weatherRequest (handler t)) = false ->
  let '(fetched, d, t') := fetchData c data t in
  fetched = fetchOk c
  /\ packetId d = nextPacketId t
  /\ nextPacketId t' = nextPacketId t + 1
  /\ (fetchOk c = false -> loadReplayFile t = None -> 0 < nextPacketId t ->
      (forall cycles,
          ~ In (nextPacketId t)
               (map packetId
                    (delivered (since t (mainLoop (c :: cycles) t)))))
      /\ (forall t0,
             liveSteps t0 t ->
             ~ In (nextPacketId t)
                  (map packetId (delivered (since t0 t))))).
Proof.
  intros Hv. rewrite (fetchData_telemetry c data t Hv).
  split; [reflexivity|]. split; [reflexivity|]. split; [reflexivity|].
  intros Hf Hl Hpos. split.
  2:{ intros t0 H0 Hin. apply in_map_iff in Hin as (d & Hd & Hin).
      pose proof (live_ids _ _ H0) as I. rewrite Forall_forall in I.
      specialize (I d Hin). lia. }
  intros cycles.
  rewrite (mainLoop_live _ _ Hl). cbn [liveLoop].
  destruct (terminate t); [rewrite since_same by reflexivity; intros []|].
  destruct (liveBody_failed_steps c t Hl Hv Hf) as (N & L & E & D).
  cbv zeta in *.
  set (l := liveBody c t) in *.
  set (m := meanwhile (waitSubmits c) (cancelInWait c) l).
  assert (P : passive l m) by apply meanwhile_passive.
  assert (Lm : loadReplayFile m = None) by now rewrite (passive_load _ _ P).
  assert (S : liveSteps l (liveLoop cycles m)).
  { eapply liveSteps_trans; [apply passive_liveSteps; [exact L | exact P]|].
    now apply liveLoop_liveSteps. }
  rewrite (since_trans t l _ E (live_extends _ _ S)), delivered_app, map_app.
  intros Hin. apply in_app_or in Hin as [Hin | Hin];
    apply in_map_iff in Hin as (d & Hd & Hin).
  - rewrite Forall_forall in D. specialize (D d Hin). lia.
  - pose proof (live_ids _ _ S) as I. rewrite Forall_forall in I.
    specialize (I d Hin). lia.
Qed.

End FailedFetch.

Lemma C5_fetch_consumes_id_witness :
  let t := Samples.online in
  let c := Samples.telemetryMiss in
  let '(fetched, d, t') := fetchData c SimConnectData_default t in
  fetched = fetchOk c
  /\ packetId d = nextPacketId t
  /\ nextPacketId t' = nextPacketId t + 1
  /\ (fetchOk c = false -> loadReplayFile t = None -> 0 < nextPacketId t ->
      (forall cycles,
          ~ In (nextPacketId t)
               (map packetId
                    (delivered
                       (since t
                          (@mainLoop RefFormat.format (c :: cycles) t)))))
      /\ (forall t0,
             @liveSteps RefFormat.format t0 t ->
             ~ In (nextPacketId t)
                  (map packetId (delivered (since t0 t))))).
Proof.
  apply (@C5_fetch_consumes_id RefFormat.format Samples.telemetryMiss
           SimConnectData_default Samples.online).
  reflexivity.
Defined.

(** ** Telemetry ids of a run without weather requests *)

Lemma idsFrom_S (n : Z) (k : nat) : idsFrom n (S k) = n :: idsFrom (n + 1) k.
Proof.
  unfold idsFrom. cbn [seq map]. f_equal; [lia|].
  rewrite <- seq_shift, map_map. apply map_ext. intros i. lia.
Qed.

Lemma idsFrom_1 (k : nat) : idsFrom 1 k = map Z.of_nat (seq 1 k).
Proof.
  unfold idsFrom. rewrite <- seq_shift, map_map. apply map_ext.
  intros i. lia.
Qed.

Section Quiet.

Context {fmt : ReplayFormat}.

Lemma liveBody_quiet (c : Cycle) (t : DataReaderThread) :
  loadReplayFile t = None ->
  isValid (weatherRequest (handler t)) = false ->
  forallb quietTick (reconnectTicks c) = true ->
  let l := liveBody c t in
  isValid (weatherRequest (handler l)) = false
  /\ nextPacketId l = nextPacketId t + 1
  /\ map packetId (delivered (since t l))
     = if fetchOk c then [nextPacketId t] else [].
Proof.
  intros Hl Hv Hq l. destruct (fetchOk c) eqn:Hf.
  - unfold l, liveBody. rewrite (fetchData_telemetry c _ t Hv), Hf.
    cbv beta iota zeta.
    cbn [saveReplayFile emit set_handler set_nextPacketId packetId
           setPacketTimestamp setPacketId].
    destruct (saveReplayFile t) as [f|];
      [destruct (isOpen f && (0 <? nextPacketId t))|];
      (split; [reflexivity|]; split; [reflexivity|]);
      (erewrite since_app;
       [|unfold writeRecord, appendBytes; cbn; rewrite <- ?app_assoc;
         reflexivity]); reflexivity.
  - set (t1 := t |> emit (handler_fetchData false)
                 |> set_nextPacketId (nextPacketId t + 1)
                 |> emit (handler_addWeatherRequest WeatherRequest_default)
                 |> set_handler (mkHandler WeatherRequest_default)).
    assert (E1 : trace t1
                 = trace t
                   ++ [handler_fetchData false;
                       handler_addWeatherRequest WeatherRequest_default])
      by (cbn; now rewrite <- app_assoc).
    assert (P : silent t1 l).
    { unfold l. rewrite (liveBody_fetch_failed c t Hv Hf). cbv zeta.
      fold t1.
      destruct (isSTATEOK (handlerState c)); [silent_peel|].
      destruct (simRunning c); [repeat silent_peel|].
      eapply silent_trans; [|apply connectToSimulator_silent; exact Hq].
      repeat silent_peel. }
    destruct P as [P Hh Hd].
    split; [now rewrite Hh|].
    split; [now rewrite (passive_next _ _ P)|].
    assert (E : extends t t1) by (eapply extends_app; exact E1).
    rewrite (since_trans t t1 l E (passive_extends _ _ P)), delivered_app.
    now rewrite Hd, (since_app _ _ _ E1).
Qed.

Lemma liveLoop_quiet (cycles : list Cycle) (t : DataReaderThread) :
  loadReplayFile t = None ->
  isValid (weatherRequest (handler t)) = false ->
  forallb quietCycle cycles = true ->
  let t' := liveLoop cycles t in
  let ids := map packetId (delivered (since t t')) in
  Forall (fun x => nextPacketId t <= x < nextPacketId t') ids
  /\ StronglySorted Z.lt ids
  /\ (forallb fetchOk cycles = true
      -> ids = idsFrom (nextPacketId t) (length ids)).
Proof.
  revert t. induction cycles as [|c cycles IH]; intros t Hl Hv Hq;
    cbn [liveLoop]; cbv zeta.
  - assert (Hs : since t (if terminate t then t else set_terminate true t)
                 = [])
      by (destruct (terminate t); now apply since_same).
    rewrite Hs. repeat constructor.
  - destruct (terminate t);
      [rewrite since_same by reflexivity; repeat constructor|].
    cbn [forallb] in Hq. apply andb_true_iff in Hq as [Hc Hq].
    unfold quietCycle in Hc. apply andb_true_iff in Hc as [Hw Hr].
    destruct (waitSubmits c) as [|q qs] eqn:Ew; [clear Hw|discriminate].
    destruct (liveBody_quiet c t Hl Hv Hr) as (V1 & N1 & D1).
    pose proof (liveBody_liveSteps c t Hl) as L1.
    cbv zeta in *.
    set (l := liveBody c t) in *.
    pose proof (meanwhile_silent (cancelInWait c) l) as [P2 H2 D2].
    set (m := meanwhile [] (cancelInWait c) l) in *.
    assert (Lm : loadReplayFile m = None)
      by (rewrite (passive_load _ _ P2); apply L1).
    assert (Vm : isValid (weatherRequest (handler m)) = false)
      by now rewrite H2.
    destruct (IH m Lm Vm Hq) as (R3 & S3 & A3).
    pose proof (liveLoop_liveSteps cycles m Lm) as L3.
    cbv zeta in *.
    set (t' := liveLoop cycles m) in *.
    assert (Nm : nextPacketId m = nextPacketId t + 1)
      by (rewrite (passive_next _ _ P2); exact N1).
    assert (Em : extends t m)
      by (eapply extends_trans; [apply L1 | apply P2]).
    assert (Hs : map packetId (delivered (since t t'))
                 = (if fetchOk c then [nextPacketId t] else [])
                     ++ map packetId (delivered (since m t'))).
    { rewrite (since_trans t m t' Em (live_extends _ _ L3)).
      rewrite (since_trans t l m (live_extends _ _ L1)
                           (passive_extends _ _ P2)).
      rewrite !delivered_app, D2, app_nil_r, map_app, D1. reflexivity. }
    rewrite Hs. pose proof (live_next _ _ L3) as N3. rewrite Nm in *.
    split; [|split].
    + apply Forall_app; split.
      * destruct (fetchOk c); repeat constructor; lia.
      * eapply Forall_impl; [|exact R3]. cbn. intros; lia.
    + apply (sorted_app_bound (nextPacketId t + 1)).
      * destruct (fetchOk c); repeat constructor.
      * exact S3.
      * destruct (fetchOk c); repeat constructor; lia.
      * eapply Forall_impl; [|exact R3]. cbn. intros; lia.
    + cbn [forallb]. intros Hok. apply andb_true_iff in Hok as [Hc Hok].
      rewrite Hc. cbn [app length]. rewrite idsFrom_S. f_equal.
      now apply A3.
Qed.

Lemma setupReplay_no_playback (t : DataReaderThread) :
  String.eqb (loadReplayFilepath t) EmptyString = true ->
  let s := setupReplay t in
  loadReplayFile s = loadReplayFile t
  /\ nextPacketId s = nextPacketId t
  /\ handler s = handler t.
Proof.
  intros Hp. cbv zeta. unfold setupReplay. rewrite Hp. cbn [negb].
  destruct (String.eqb (saveReplayFilepath t) EmptyString); cbn [negb];
    [repeat split|].
  destruct (canWrite (disk t) (saveReplayFilepath t)); repeat split.
Qed.

End Quiet.

Section TelemetryIds.

Context {fmt : ReplayFormat}.

(** The packets a run without playback file and without weather requests
    hands over are those of its live loop. *)
Lemma quiet_run_delivered (ticks : list Tick) (cycles : list Cycle)
      (t : DataReaderThread) :
  loadReplayFile t = None ->
  String.eqb (loadReplayFilepath t) EmptyString = true ->
  isValid (weatherRequest (handler t)) = false ->
  forallb quietTick ticks = true ->
  exists a,
    loadReplayFile a = None
    /\ isValid (weatherRequest (handler a)) = false
    /\ nextPacketId a = nextPacketId t
    /\ delivered (since t (run ticks cycles t))
       = delivered (since a (liveLoop cycles a)).
Proof.
  intros Hl Hp Hv Hq.
  destruct (setupReplay_no_playback t Hp) as (Ls & Ns & Hs).
  destruct (run_stages ticks cycles t) as (_ & Ss & _ & Eb & Se & _ & Hr).
  cbv zeta in *. rewrite Ls, Hl in *.
  set (s := setupReplay t) in *.
  pose proof (connectToSimulator_silent ticks s Hq) as [Pa Ha Da].
  set (a := connectToSimulator ticks s) in *.
  assert (La : loadReplayFile a = None)
    by (rewrite (passive_load _ _ Pa); congruence).
  exists a. split; [exact La|].
  split; [now rewrite Ha, Hs|].
  split; [rewrite (passive_next _ _ Pa); exact Ns|].
  rewrite Hr, !delivered_app, (steady_delivered _ _ Ss), Da,
    (steady_delivered _ _ Se), app_nil_r.
  cbn [app]. now rewrite (mainLoop_live cycles a La).
Qed.

(** C4 (amended).  In a Live or Recording run without weather requests,
    started on an object whose counter is at 1, the ids of the packets
    handed to the host are strictly increasing and at least 1, so no id
    repeats; they are exactly 1, 2, 3, ... when no telemetry fetch of the
    run fails.  (A failed fetch consumes its id, see C5.) *)
Theorem C4_telemetry_ids (ticks : list Tick) (cycles : list Cycle)
        (t : DataReaderThread) :
  idle t = true ->
  String.eqb (loadReplayFilepath t) EmptyString = true ->
  nextPacketId t = 1 ->
  isValid (weatherRequest (handler t)) = false ->
  forallb quietTick ticks = true ->
  forallb quietCycle cycles = true ->
  let ids := map packetId (delivered (since t (run ticks cycles t))) in
  StronglySorted Z.lt ids
  /\ Forall (fun x => 1 <= x) ids
  /\ (forallb fetchOk cycles = true
      -> ids = map Z.of_nat (seq 1 (length ids))).
Proof.
  intros Hi Hp Hn Hv Hqt Hqc ids.
  assert (Hl : loadReplayFile t = None).
  { unfold idle in Hi. destruct (loadReplayFile t); [|reflexivity].
    now rewrite andb_false_r in Hi. }
  destruct (quiet_run_delivered ticks cycles t Hl Hp Hv Hqt)
    as (a & La & Va & Na & Hd).
  destruct (liveLoop_quiet cycles a La Va Hqc) as (R & S & A).
  cbv zeta in *. unfold ids. rewrite Hd, Na, Hn in *.
  split; [exact S|]. split.
  - eapply Forall_impl; [|exact R]. cbn. intros; lia.
  - intros Hok. rewrite <- idsFrom_1. now apply A.
Qed.

End TelemetryIds.

Lemma C4_telemetry_ids_witness :
  let ids := map packetId
                 (delivered
                    (since Samples.fresh
                       (@run RefFormat.format [Samples.tickUp]
                             [Samples.telemetryOk [x0a];
                              Samples.telemetryOk [x0b]]
                             Samples.fresh))) in
  StronglySorted Z.lt ids
  /\ Forall (fun x => 1 <= x) ids
  /\ (forallb fetchOk [Samples.telemetryOk [x0a]; Samples.telemetryOk [x0b]]
      = true
      -> ids = map Z.of_nat (seq 1 (length ids))).
Proof.
  apply (@C4_telemetry_ids RefFormat.format [Samples.tickUp]
           [Samples.telemetryOk [x0a]; Samples.telemetryOk [x0b]]
           Samples.fresh); reflexivity.
Defined.

(** The claim of C4 as written fails: a live run without weather requests
    whose first telemetry fetch fails (handler in state OK) and whose
    second succeeds delivers the single id 2, not 1. *)
Lemma C4_counterexample :
  let t' := @run RefFormat.format [Samples.tickUp]
                 [Samples.telemetryMiss; Samples.telemetryOk [x0a]]
                 Samples.fresh in
  forallb quietCycle [Samples.telemetryMiss; Samples.telemetryOk [x0a]]
  = true
  /\ nextPacketId Samples.fresh = 1
  /\ map packetId (delivered (since Samples.fresh t')) = [2].
Proof. vm_compute. repeat split. Qed.

(** ** Recording *)

Section Recording.

Context {fmt : ReplayFormat}.

Lemma replayHeader_length (rate : Z) : length (replayHeader rate) = 12%nat.
Proof. reflexivity. Qed.

Lemma teardown_disk (t : DataReaderThread) : disk (teardown t) = disk t.
Proof.
  unfold teardown, closeReplay. cbn.
  destruct (saveReplayFile t); cbn; destruct (loadReplayFile t); reflexivity.
Qed.

Lemma telemetry_status (ds : list SimConnectData) :
  Forall (fun d => status d = OK) ds ->
  Forall (fun d => status d = OK) (telemetry ds).
Proof.
  intros H. apply Forall_forall. intros d Hd.
  apply filter_In in Hd as [Hd _]. rewrite Forall_forall in H. now apply H.
Qed.

(** The file a recording run leaves behind: the header, then the records
    of the telemetry packets the run handed to the host, in order; all of
    them have status OK. *)
Lemma recording_file (ticks : list Tick) (cycles : list Cycle)
      (t : DataReaderThread) :
  idle t = true ->
  String.eqb (loadReplayFilepath t) EmptyString = true ->
  String.eqb (saveReplayFilepath t) EmptyString = false ->
  canWrite (disk t) (saveReplayFilepath t) = true ->
  let t' := run ticks cycles t in
  let ps := telemetry (delivered (since t t')) in
  contents (disk t') (saveReplayFilepath t)
  = replayHeader (updateRate t) ++ flat_map SimConnectData_write ps
  /\ Forall (fun d => status d = OK) ps.
Proof.
  intros Hi Hp Hs Hw.
  assert (Hl : loadReplayFile t = None).
  { unfold idle in Hi. destruct (loadReplayFile t); [|reflexivity].
    now rewrite andb_false_r in Hi. }
  set (path := saveReplayFilepath t).
  set (s := setupReplay t).
  assert (Es : s = t |> set_saveReplayFile (Some (mkQFile path 0 true))
                     |> set_disk (overwrite (disk t) path [])
                     |> emit (postLogMessage (MsgSaving path) false)
                     |> appendBytes path (replayHeader (updateRate t))).
  { unfold s, setupReplay. rewrite Hp. cbn [negb].
    rewrite Hs. cbn [negb]. now rewrite Hw. }
  assert (Ls : loadReplayFile s = None) by (rewrite Es; exact Hl).
  assert (Rs : recording s = true) by (now rewrite Es).
  assert (Ts : recordsTo s path = true)
    by (rewrite Es; unfold recordsTo; cbn; apply String.eqb_refl).
  assert (Cs : contents (disk s) path = replayHeader (updateRate t)).
  { rewrite Es. unfold appendBytes. cbn. now rewrite String.eqb_refl. }
  destruct (run_without_playback_trace ticks cycles t Ls)
    as (L & _ & D & _ & _).
  cbv zeta in *. fold s in L, D.
  set (b := liveLoop cycles (connectToSimulator ticks s)) in *.
  rewrite D, (run_without_playback ticks cycles t Ls). fold s. fold b.
  rewrite teardown_disk. split.
  - rewrite (live_disk _ _ L path), Ts, Cs, (live_written _ _ L), Rs.
    reflexivity.
  - apply telemetry_status. apply L.
Qed.

End Recording.

(** ** Playback *)

Section PlaybackLoop.

Context {fmt : ReplayFormat} {fmtOk : ReplayFormatOk fmt}.

Lemma write_nonempty (d : SimConnectData) : SimConnectData_write d <> [].
Proof.
  intros He.
  set (d' := setPacketId (packetId d + 1) d).
  pose proof (read_write d (SimConnectData_write d' ++ [])) as H1.
  pose proof (read_write d' []) as H2.
  rewrite He in H1. cbn [app] in H1. rewrite H1 in H2.
  injection H2 as H2 _.
  assert (H3 : packetId d = packetId d') by now rewrite H2.
  unfold d' in H3. cbn in H3. lia.
Qed.

Lemma flat_map_write_nil (ds : list SimConnectData) :
  length (flat_map SimConnectData_write ds) = O -> ds = [].
Proof.
  destruct ds as [|d ds]; [reflexivity|]. cbn. rewrite length_app.
  pose proof (write_nonempty d) as H.
  destruct (SimConnectData_write d); [congruence|]. cbn. lia.
Qed.

Lemma submits_stored (qs : list WeatherRequest) (t : DataReaderThread) :
  saveReplayFile t = None ->
  delivered (since t (fold_left (fun s r => setWeatherRequest r s) qs t)) = [].
Proof.
  revert t. induction qs as [|q qs IH]; intros t Hs; cbn.
  - now rewrite since_same.
  - rewrite (since_trans t (setWeatherRequest q t));
      [|apply setWeatherRequest_passive | apply submits_passive].
    rewrite delivered_app, IH.
    + rewrite (setWeatherRequest_stored q t Hs).
      now rewrite (since_app t _ [handler_addWeatherRequest q]).
    + now rewrite (passive_save _ _ (setWeatherRequest_passive q t)).
Qed.

Lemma meanwhile_playing (qs : list WeatherRequest) (t : DataReaderThread) :
  saveReplayFile t = None ->
  let t' := meanwhile qs false t in
  terminate t' = terminate t
  /\ passive t t'
  /\ delivered (since t t') = [].
Proof.
  intros Hs. cbv zeta. unfold meanwhile.
  split; [apply submits_flags|].
  split; [apply submits_passive|]. now apply submits_stored.
Qed.

Lemma replayBody_ok (f : QFile) (t : DataReaderThread)
      (d : SimConnectData) (n : nat) :
  SimConnectData_read (skipn (pos f) (contents (disk t) (fileName f)))
  = (d, n) ->
  status d = OK ->
  let t' := replayBody f t in
  terminate t' = terminate t
  /\ saveReplayFile t' = saveReplayFile t
  /\ disk t' = disk t
  /\ loadReplayFile t'
     = Some (mkQFile (fileName f)
               (if (length (contents (disk t) (fileName f)) <=? pos f + n)%nat
                then REPLAY_FILE_DATA_START_OFFSET else (pos f + n)%nat)
               (isOpen f))
  /\ trace t' = trace t ++ [replay_read d; postSimConnectData d].
Proof.
  intros Hr Hs. cbv zeta. unfold replayBody. rewrite Hr, Hs. cbn.
  destruct (length (contents (disk t) (fileName f)) <=? pos f + n)%nat;
    cbn; rewrite <- app_assoc; repeat split.
Qed.

Lemma looped_shift (ps : list SimConnectData) (i : nat) :
  looped ps (length ps + i) = looped ps i.
Proof.
  unfold looped. f_equal.
  rewrite Nat.add_comm.
  rewrite <- (Nat.mul_1_l (length ps)) at 1.
  apply Nat.Div0.mod_add.
Qed.

Lemma looped_middle (done todo : list SimConnectData) (p : SimConnectData) :
  looped (done ++ p :: todo) (length done) = p.
Proof.
  unfold looped. rewrite Nat.mod_small.
  - apply nth_middle.
  - rewrite length_app. cbn. lia.
Qed.

(** The playback loop: with the read position after the records [done]
    and before the record of [p], the iterations hand over [p], then the
    packets after it, and start again at the first packet after the
    last. *)
Lemma playback_loop (ps : list SimConnectData) (hdr : list byte)
      (path : string) :
  length hdr = 12%nat ->
  Forall (fun d => status d = OK) ps ->
  forall (cycles : list Cycle) (done todo : list SimConnectData)
         (p : SimConnectData) (t : DataReaderThread),
    ps = done ++ p :: todo ->
    terminate t = false ->
    saveReplayFile t = None ->
    loadReplayFile t
    = Some (mkQFile path
                    (12 + length (flat_map SimConnectData_write done)) true) ->
    contents (disk t) path = hdr ++ flat_map SimConnectData_write ps ->
    forallb (fun c => negb (cancelInWait c)) cycles = true ->
    delivered (since t (mainLoop cycles t))
    = map (fun i => looped ps (length done + i)) (seq 0 (length cycles)).
Proof.
  intros Hh Hok. induction cycles as [|c cycles IH];
    intros done todo p t Hps Ht Hs Hl Hc Hn; cbn [mainLoop]; rewrite Ht.
  - now rewrite since_same.
  - cbn [forallb] in Hn. apply andb_true_iff in Hn as [Hn1 Hn].
    apply negb_true_iff in Hn1. rewrite Hn1.
    unfold loopBody. rewrite Hl.
    set (f := mkQFile path
                (12 + length (flat_map SimConnectData_write done)) true).
    (* the record under the read position is the one of [p] *)
    assert (Hskip : skipn (pos f) (contents (disk t) (fileName f))
                    = SimConnectData_write p
                      ++ flat_map SimConnectData_write todo).
    { cbn [pos fileName f]. rewrite Hc, Hps, flat_map_app. cbn [flat_map].
      rewrite app_assoc, <- Hh, <- length_app. apply skipn_length_app. }
    assert (Hread : SimConnectData_read
                      (skipn (pos f) (contents (disk t) (fileName f)))
                    = (p, length (SimConnectData_write p)))
      by (rewrite Hskip; apply read_write).
    assert (Hp : status p = OK).
    { rewrite Forall_forall in Hok. apply Hok. rewrite Hps.
      apply in_or_app. right. now left. }
    destruct (replayBody_ok f t p _ Hread Hp) as (T1 & S1 & D1 & L1 & E1).
    cbv zeta in *.
    set (r := replayBody f t) in *.
    destruct (meanwhile_playing (waitSubmits c) r) as (T2 & P2 & D2);
      [now rewrite S1|].
    cbv zeta in *.
    set (m := meanwhile (waitSubmits c) false r) in *.
    assert (Em : extends t m)
      by (eapply extends_trans; [eapply extends_app; exact E1 | apply P2]).
    assert (Hfirst : delivered (since t m) = [p]).
    { rewrite (since_trans t r m (extends_app _ _ _ E1)
                           (passive_extends _ _ P2)).
      now rewrite delivered_app, D2, (since_app _ _ _ E1). }
    rewrite (since_trans t m _ Em (proj1 (mainLoop_written cycles m))).
    rewrite delivered_app, Hfirst.
    cbn [length seq map app]. rewrite Nat.add_0_r.
    rewrite Hps at 1. rewrite looped_middle. f_equal.
    rewrite <- seq_shift, map_map.
    (* where the read position is now *)
    assert (Hlen : length (contents (disk t) (fileName f))
                   = (pos f + length (SimConnectData_write p)
                      + length (flat_map SimConnectData_write todo))%nat).
    { cbn [pos fileName f]. rewrite Hc, Hps, flat_map_app. cbn [flat_map].
      rewrite !length_app. lia. }
    assert (Tm : terminate m = false) by congruence.
    assert (Sm : saveReplayFile m = None)
      by (rewrite (passive_save _ _ P2); congruence).
    assert (Cm : contents (disk m) path
                 = hdr ++ flat_map SimConnectData_write ps)
      by (rewrite (passive_disk _ _ P2), D1; exact Hc).
    assert (Lm : loadReplayFile m = loadReplayFile r)
      by apply (passive_load _ _ P2).
    rewrite L1 in Lm.
    destruct todo as [|p' todo'].
    + (* the last record: back to the start of the data *)
      replace (length (contents (disk t) (fileName f))
               <=? pos f + length (SimConnectData_write p))%nat
        with true in Lm
        by (symmetry; apply Nat.leb_le; rewrite Hlen; cbn; lia).
      destruct ps as [|p0 ps0];
        [destruct done; discriminate|].
      rewrite (IH [] ps0 p0 m eq_refl Tm Sm Lm Cm Hn).
      apply map_ext. intros i. cbn [length Nat.add].
      rewrite <- (looped_shift (p0 :: ps0) i). f_equal.
      rewrite Hps, length_app. cbn. lia.
    + (* more records follow *)
      replace (length (contents (disk t) (fileName f))
               <=? pos f + length (SimConnectData_write p))%nat
        with false in Lm.
      2:{ symmetry. apply Nat.leb_gt. rewrite Hlen. cbn [flat_map].
          rewrite length_app.
          pose proof (write_nonempty p') as Hne.
          destruct (SimConnectData_write p'); [congruence|]. cbn. lia. }
      assert (Hps' : ps = (done ++ [p]) ++ p' :: todo')
        by (now rewrite <- app_assoc).
      assert (Lm' : loadReplayFile m
                    = Some (mkQFile path
                              (12 + length (flat_map SimConnectData_write
                                                     (done ++ [p]))) true)).
      { rewrite Lm. cbn [pos fileName isOpen f]. do 2 f_equal.
        rewrite flat_map_app, length_app. cbn. rewrite app_nil_r. lia. }
      rewrite (IH (done ++ [p]) todo' p' m Hps' Tm Sm Lm' Cm Hn).
      apply map_ext. intros i. f_equal. rewrite length_app. cbn. lia.
Qed.

End PlaybackLoop.

Lemma looped_once (ps : list SimConnectData) :
  ps <> [] ->
  map (looped ps) (seq 0 (S (length ps))) = ps ++ firstn 1 ps.
Proof.
  intros Hne. rewrite seq_S, map_app. cbn [map Nat.add]. f_equal.
  - apply (nth_ext _ _ (looped ps 0) SimConnectData_default).
    + now rewrite length_map, length_seq.
    + intros i Hi. rewrite length_map, length_seq in Hi.
      rewrite map_nth, seq_nth by assumption. cbn [Nat.add].
      unfold looped. now rewrite Nat.mod_small.
  - unfold looped. rewrite Nat.Div0.mod_same.
    destruct ps; [congruence|reflexivity].
Qed.

Section RoundTrip.

Context {fmt : ReplayFormat}.

Lemma idle_inv (t : DataReaderThread) :
  idle t = true ->
  terminate t = false /\ loadReplayFile t = None /\ saveReplayFile t = None.
Proof.
  unfold idle. destruct (terminate t), (loadReplayFile t), (saveReplayFile t);
    cbn; intros H; try discriminate; repeat split.
Qed.

(** C7.  A recording run writes a file from which a playback run hands
    over exactly the telemetry packets the recording run handed over, in
    order and field for field (id, timestamp, status, metars, payload),
    starting again at the first packet after the last: the [i]-th
    iteration of the playback loop delivers packet [i mod n] of the [n]
    recorded ones.  In particular [n + 1] iterations deliver P1..Pn and
    then P1 again.  The record format is a parameter: the statement holds
    for every format whose reader understands its writer. *)
Theorem C7_record_then_replay
        (fmtOk : ReplayFormatOk fmt)
        (ticks ticks' : list Tick) (cycles cycles' : list Cycle)
        (t0 t2 : DataReaderThread) :
  let path := saveReplayFilepath t0 in
  let t1 := run ticks cycles t0 in
  let ps := telemetry (delivered (since t0 t1)) in
  (* the recording run delivers at least one telemetry packet *)
  idle t0 = true ->
  String.eqb (loadReplayFilepath t0) EmptyString = true ->
  String.eqb path EmptyString = false ->
  canWrite (disk t0) path = true ->
  ps <> [] ->
  (* the playback run opens the file the recording run left *)
  idle t2 = true ->
  loadReplayFilepath t2 = path ->
  canRead (disk t2) path = true ->
  contents (disk t2) path = contents (disk t1) path ->
  forallb (fun c => negb (cancelInWait c)) cycles' = true ->
  let replayed := delivered (since t2 (run ticks' cycles' t2)) in
  replayed = map (looped ps) (seq 0 (length cycles'))
  /\ (length cycles' = S (length ps) -> replayed = ps ++ firstn 1 ps).
Proof.
  intros path t1 ps Hi0 Hp0 Hs0 Hw0 Hne Hi2 Hp2 Hr2 Hc2 Hn replayed.
  destruct (recording_file ticks cycles t0 Hi0 Hp0 Hs0 Hw0) as [Hfile Hok].
  cbv zeta in Hfile, Hok. fold t1 in Hfile, Hok. fold ps in Hfile, Hok.
  fold path in Hfile.
  destruct (idle_inv t2 Hi2) as (T2 & L2 & S2).
  assert (Hbytes : contents (disk t2) (loadReplayFilepath t2)
                   = replayHeader (updateRate t0)
                     ++ flat_map SimConnectData_write ps)
    by (rewrite Hp2, Hc2; exact Hfile).
  (* the file is accepted *)
  assert (Hs : setupReplay t2
               = t2 |> set_replayUpdateRateMs
                         (fst (get_u32
                                 (skipn 8 (contents (disk t2)
                                             (loadReplayFilepath t2)))))
                    |> set_loadReplayFile (Some (mkQFile path 12 true))
                    |> emit (postLogMessage (MsgReplaying path) false)
                    |> emit connectedToSimulator).
  { rewrite setupReplay_playback by (rewrite Hp2; exact Hs0).
    cbv zeta. rewrite Hbytes, <- Hp2.
    replace (12 <? length (replayHeader (updateRate t0)
                            ++ flat_map SimConnectData_write ps))%nat
      with true.
    2:{ symmetry. apply Nat.ltb_lt. rewrite length_app, replayHeader_length.
        pose proof (flat_map_write_nil ps) as Hz.
        destruct (length (flat_map SimConnectData_write ps));
          [now elim Hne; apply Hz | lia]. }
    rewrite Hp2, Hr2.
    unfold headerMagic, headerVersion, replayHeader.
    rewrite <- !app_assoc.
    rewrite (get_put_u32 _ _ magic_range). cbn [fst].
    cbn [put_u32 app skipn].
    change (byte_of_Z (REPLAY_FILE_VERSION / 16777216)
              :: byte_of_Z (REPLAY_FILE_VERSION / 65536)
              :: byte_of_Z (REPLAY_FILE_VERSION / 256)
              :: byte_of_Z REPLAY_FILE_VERSION :: ?r)
      with (put_u32 REPLAY_FILE_VERSION ++ r).
    rewrite (get_put_u32 _ _ version_range). cbn [fst].
    now rewrite !Z.eqb_refl. }
  destruct (run_stages ticks' cycles' t2) as (_ & Ss & _ & _ & Se & _ & Hrun).
  cbv zeta in Hrun, Ss, Se. rewrite Hs in Hrun, Ss, Se.
  cbn [loadReplayFile emit set_loadReplayFile] in Hrun, Se.
  match type of Ss with steady _ ?x => set (s := x) in * end.
  set (a := set_connected true s) in *.
  assert (Hloop : delivered (since a (mainLoop cycles' a))
                  = map (fun i => looped ps (0 + i)) (seq 0 (length cycles'))).
  { destruct ps as [|p todo] eqn:Eps; [congruence|]. rewrite <- Eps in *.
    apply (playback_loop ps (replayHeader (updateRate t0)) path
             (replayHeader_length _) Hok cycles' [] todo p a).
    - now rewrite Eps.
    - exact T2.
    - exact S2.
    - reflexivity.
    - cbn [a s disk set_connected emit set_loadReplayFile
             set_replayUpdateRateMs].
      rewrite <- Hp2. exact Hbytes.
    - exact Hn. }
  assert (Hrep : replayed = map (looped ps) (seq 0 (length cycles'))).
  { unfold replayed. rewrite Hrun, !delivered_app.
    rewrite (steady_delivered _ _ Ss), (steady_delivered _ _ Se), app_nil_r.
    rewrite (since_same s a) by reflexivity. cbn [delivered app].
    exact Hloop. }
  split; [exact Hrep|].
  intros Hlen. rewrite Hrep, Hlen. now apply looped_once.
Qed.

End RoundTrip.

Lemma C7_record_then_replay_witness :
  let t0 := Samples.recorder Samples.replayFile in
  let t1 := @run RefFormat.format [Samples.tickUp]
                 [Samples.telemetryOk [x0a]; Samples.telemetryOk [x0b]] t0 in
  let ps := telemetry (delivered (since t0 t1)) in
  let t2 := Samples.player Samples.replayFile Samples.recorded in
  let cycles' := [Samples.telemetryMiss; Samples.telemetryMiss;
                  Samples.telemetryMiss] in
  let replayed :=
    delivered (since t2 (@run RefFormat.format [] cycles' t2)) in
  replayed = map (looped ps) (seq 0 (length cycles'))
  /\ (length cycles' = S (length ps) -> replayed = ps ++ firstn 1 ps).
Proof.
  refine (@C7_record_then_replay RefFormat.format RefFormatFacts.format_ok
            [Samples.tickUp] []
            [Samples.telemetryOk [x0a]; Samples.telemetryOk [x0b]]
            [Samples.telemetryMiss; Samples.telemetryMiss;
             Samples.telemetryMiss]
            (Samples.recorder Samples.replayFile)
            (Samples.player Samples.replayFile Samples.recorded)
            _ _ _ _ _ _ _ _ _ _);
    cbv zeta; vm_compute; try reflexivity; discriminate.
Defined.

(** * Further properties of the thread *)

(** ** The cadence of the reconnect wait *)

Lemma connects_app (l r : list Event) :
  connects (l ++ r) = connects l ++ connects r.
Proof. apply filter_app. Qed.

Lemma fetches_app (l r : list Event) :
  fetches (l ++ r) = fetches l ++ fetches r.
Proof. apply filter_app. Qed.

Lemma submits_calls (qs : list WeatherRequest) (t : DataReaderThread) :
  let t' := fold_left (fun s r => setWeatherRequest r s) qs t in
  connects (since t t') = [] /\ fetches (since t t') = [].
Proof.
  revert t. induction qs as [|q qs IH]; intros t; cbn.
  - now rewrite since_same.
  - destruct (IH (setWeatherRequest q t)) as [C F].
    rewrite (since_trans t (setWeatherRequest q t));
      [|apply setWeatherRequest_passive | apply submits_passive].
    rewrite connects_app, fetches_app, C, F, !app_nil_r.
    unfold setWeatherRequest. destruct (saveReplayFile t); cbn;
      (erewrite since_app; [|cbn; reflexivity]); split; reflexivity.
Qed.

Lemma QThread_sleep_calls (k : Tick) (t : DataReaderThread) :
  connects (since t (QThread_sleep k t)) = []
  /\ fetches (since t (QThread_sleep k t)) = [].
Proof.
  unfold QThread_sleep, meanwhile.
  destruct (submits_calls (tickSubmits k) (emit sleep_1s t)) as [C F].
  assert (Hs : since t (fold_left (fun s r => setWeatherRequest r s)
                                  (tickSubmits k) (emit sleep_1s t))
               = [sleep_1s]
                   ++ since (emit sleep_1s t)
                        (fold_left (fun s r => setWeatherRequest r s)
                                   (tickSubmits k) (emit sleep_1s t))).
  { rewrite (since_trans t (emit sleep_1s t));
      [|apply (extends_app _ _ [sleep_1s]); reflexivity
       |apply submits_passive].
    now rewrite (since_app t _ [sleep_1s]). }
  assert (Hc : forall u, since t (if cancelInSleep k
                                  then set_terminate true u else u)
                         = since t u)
    by (intros u; now destruct (cancelInSleep k)).
  rewrite Hc, Hs, connects_app, fetches_app, C, F. split; reflexivity.
Qed.

Lemma counterAt_poll (rate counter : Z) (i : nat) :
  0 < rate -> counterAt rate counter i ->
  (Z.rem counter rate =? 0) = pollsAt rate i.
Proof.
  intros Hr [Hc Hm]. unfold pollsAt.
  rewrite Z.rem_mod_nonneg by lia. now rewrite Hm.
Qed.

Lemma counterAt_next (rate counter : Z) (i : nat) :
  0 < rate -> counterAt rate counter i ->
  counterAt rate
            (if Z.rem counter rate =? 0 then 0 + 1 else counter + 1) (S i).
Proof.
  intros Hr [Hc Hm].
  assert (Hs : Z.of_nat (S i) mod rate = (counter mod rate + 1) mod rate).
  { rewrite Nat2Z.inj_succ. unfold Z.succ.
    rewrite <- Z.add_mod_idemp_l by lia. now rewrite <- Hm. }
  rewrite Z.rem_mod_nonneg by lia.
  destruct (counter mod rate =? 0) eqn:E.
  - apply Z.eqb_eq in E. split; [lia|]. rewrite Hs, E. reflexivity.
  - apply Z.eqb_neq in E. split.
    + assert (counter <> rate) by (intros ->; now rewrite Z.mod_same in E by lia).
      lia.
    + rewrite Hs. now rewrite Z.add_mod_idemp_l by lia.
Qed.

(** The loop of [connectToSimulator] over ticks in which the simulator
    cannot be reached and nobody asks to stop: it sleeps through all of
    them and asks the handler at the ticks that are due. *)
Lemma connectLoop_waiting (pre : list Tick) (counter : Z) (i : nat)
      (t : DataReaderThread) :
  0 < reconnectRateSec t -> terminate t = false ->
  forallb waitingTick pre = true ->
  counterAt (reconnectRateSec t) counter i ->
  exists u counter',
    (forall rest,
        connectLoop (pre ++ rest) counter t = connectLoop rest counter' u)
    /\ counterAt (reconnectRateSec t) counter' (i + length pre)
    /\ terminate u = false
    /\ connected u = connected t
    /\ reconnecting u = reconnecting t
    /\ passive t u
    /\ sleeps (since t u) = length pre
    /\ connects (since t u)
       = map (fun _ => handler_connect false)
             (filter (pollsAt (reconnectRateSec t)) (seq i (length pre))).
Proof.
  revert counter i t.
  induction pre as [|w pre IH]; intros counter i t Hr Ht Hw Hc.
  - exists t, counter. cbn [app length seq filter map].
    rewrite Nat.add_0_r, since_same by reflexivity.
    split; [reflexivity|].
    repeat (split; [first [reflexivity | assumption]|]).
    split; [passive_peel|]. split; reflexivity.
  - cbn [forallb] in Hw. apply andb_true_iff in Hw as [Hw1 Hw].
    unfold waitingTick in Hw1. apply andb_true_iff in Hw1 as [Hk Hx].
    apply negb_true_iff in Hk, Hx.
    pose proof (counterAt_next _ _ _ Hr Hc) as Hn.
    rewrite (counterAt_poll _ _ _ Hr Hc) in Hn.
    set (rate := reconnectRateSec t) in *.
    set (t1 := if pollsAt rate i then emit (handler_connect false) t else t).
    set (c1 := if pollsAt rate i then 0 + 1 else counter + 1) in *.
    assert (Hloop : forall rest,
               connectLoop ((w :: pre) ++ rest) counter t
               = connectLoop (pre ++ rest) c1 (QThread_sleep w t1)).
    { intros rest. cbn [app connectLoop]. rewrite Ht, Hk.
      fold rate. rewrite (counterAt_poll rate _ _ Hr Hc).
      unfold t1, c1. now destruct (pollsAt rate i). }
    assert (P1 : passive t t1)
      by (unfold t1; destruct (pollsAt rate i); repeat passive_peel).
    assert (S1 : since t t1
                 = if pollsAt rate i then [handler_connect false] else []).
    { unfold t1. destruct (pollsAt rate i).
      - now apply since_app.
      - now apply since_same. }
    assert (F1 : terminate t1 = false /\ connected t1 = connected t
                 /\ reconnecting t1 = reconnecting t)
      by (unfold t1; destruct (pollsAt rate i); repeat split; assumption).
    destruct F1 as (T1 & C1 & R1).
    destruct (QThread_sleep_flags w t1) as (T2 & C2 & R2 & S2).
    destruct (QThread_sleep_calls w t1) as [K2 _].
    pose proof (QThread_sleep_passive w t1) as P2.
    set (t2 := QThread_sleep w t1) in *.
    rewrite T1, Hx in T2. cbn in T2.
    assert (Hr2 : reconnectRateSec t2 = rate)
      by (rewrite (passive_rate _ _ P2); apply (passive_rate _ _ P1)).
    destruct (IH c1 (S i) t2) as (u & c' & E & A & Tu & Cu & Ru & Pu & Su & Ku);
      try assumption; try (rewrite Hr2; assumption).
    rewrite Hr2 in *.
    assert (P12 : passive t t2) by (eapply passive_trans; eassumption).
    exists u, c'.
    split; [intros rest; rewrite Hloop; apply E|].
    split; [cbn [length]; now rewrite Nat.add_succ_r|].
    split; [exact Tu|]. split; [congruence|]. split; [congruence|].
    split; [eapply passive_trans; eassumption|].
    rewrite (since_trans t t2 u (passive_extends _ _ P12)
                         (passive_extends _ _ Pu)).
    rewrite (since_trans t t1 t2 (passive_extends _ _ P1)
                         (passive_extends _ _ P2)).
    rewrite !sleeps_app, !connects_app, Su, Ku, S2, K2, S1, app_nil_r.
    cbn [length seq filter]. destruct (pollsAt rate i); split; reflexivity.
Qed.

Lemma counterAt_start (rate : Z) : 0 < rate -> counterAt rate 0 0.
Proof. intros H. split; [lia | reflexivity]. Qed.

Lemma connectToSimulator_since (ticks : list Tick) (t : DataReaderThread) :
  let t0 := t |> emit (postLogMessage MsgNotConnected false)
              |> set_reconnecting true in
  since t (connectToSimulator ticks t)
  = [postLogMessage MsgNotConnected false]
      ++ since t0 (connectLoop ticks 0 t0).
Proof.
  intros t0. unfold connectToSimulator. fold t0.
  assert (E0 : trace t0 = trace t ++ [postLogMessage MsgNotConnected false])
    by reflexivity.
  assert (Hs : since t (set_reconnecting false (connectLoop ticks 0 t0))
               = since t (connectLoop ticks 0 t0)) by reflexivity.
  rewrite Hs, (since_trans t t0 _ (extends_app _ _ _ E0)
                           (passive_extends _ _ (connectLoop_passive _ _ _))).
  now rewrite (since_app _ _ _ E0).
Qed.

(** X1.  While the simulator cannot be reached, [connectToSimulator]
    sleeps one second per tick and calls [handler->connect()] exactly at
    the ticks whose index is a multiple of [reconnectRateSec], the first
    call coming before the first sleep. *)
Theorem connect_every_rate_ticks (ticks : list Tick) (t : DataReaderThread) :
  0 < reconnectRateSec t -> terminate t = false ->
  forallb waitingTick ticks = true ->
  let t' := connectToSimulator ticks t in
  connects (since t t')
  = map (fun _ => handler_connect false)
        (filter (pollsAt (reconnectRateSec t)) (seq 0 (length ticks)))
  /\ sleeps (since t t') = length ticks
  /\ connected t' = connected t
  /\ reconnecting t' = false.
Proof.
  intros Hr Ht Hw. cbv zeta. rewrite connectToSimulator_since. cbv zeta.
  unfold connectToSimulator.
  set (t0 := t |> emit (postLogMessage MsgNotConnected false)
               |> set_reconnecting true).
  destruct (connectLoop_waiting ticks 0 0 t0 Hr Ht Hw
                                (counterAt_start _ Hr))
    as (u & c' & E & _ & Tu & Cu & _ & Pu & Su & Ku).
  specialize (E []). rewrite app_nil_r in E. rewrite E.
  cbn [connectLoop]. rewrite Tu.
  assert (Hs : since t0 (set_terminate true u) = since t0 u) by reflexivity.
  rewrite Hs, connects_app, sleeps_app, Ku, Su.
  repeat split. exact Cu.
Qed.

Lemma connect_every_rate_ticks_witness :
  let t := Samples.fresh in
  let ticks := repeat Samples.tickDown 25 in
  let t' := connectToSimulator ticks t in
  connects (since t t')
  = map (fun _ => handler_connect false)
        (filter (pollsAt (reconnectRateSec t)) (seq 0 (length ticks)))
  /\ sleeps (since t t') = length ticks
  /\ connected t' = connected t
  /\ reconnecting t' = false.
Proof.
  apply (connect_every_rate_ticks (repeat Samples.tickDown 25) Samples.fresh);
    reflexivity.
Defined.

(** X2.  When the simulator becomes reachable at a tick at which
    [connect] is due, after ticks in which it was not, the wait ends
    there: [connectToSimulator] has slept once per earlier tick, the last
    call of [connect] is the successful one, [connectedToSimulator] and
    the log message follow it, the object is connected and no longer
    reconnecting, and nothing of the later script is consumed. *)
Theorem connect_succeeds_at_due_tick (pre post : list Tick) (k : Tick)
        (t : DataReaderThread) :
  0 < reconnectRateSec t -> terminate t = false ->
  forallb waitingTick pre = true ->
  pollsAt (reconnectRateSec t) (length pre) = true ->
  connectOk k = true ->
  let t' := connectToSimulator (pre ++ k :: post) t in
  connected t' = true
  /\ terminate t' = false
  /\ reconnecting t' = false
  /\ sleeps (since t t') = length pre
  /\ connects (since t t')
     = map (fun _ => handler_connect false)
           (filter (pollsAt (reconnectRateSec t)) (seq 0 (length pre)))
       ++ [handler_connect true]
  /\ (exists evs,
         since t t'
         = evs ++ [handler_connect true; connectedToSimulator;
                   postLogMessage MsgConnected false])
  /\ t' = connectToSimulator (pre ++ [k]) t.
Proof.
  intros Hr Ht Hw Hp Hk. cbv zeta. rewrite connectToSimulator_since.
  cbv zeta. unfold connectToSimulator.
  set (t0 := t |> emit (postLogMessage MsgNotConnected false)
               |> set_reconnecting true).
  destruct (connectLoop_waiting pre 0 0 t0 Hr Ht Hw (counterAt_start _ Hr))
    as (u & c' & E & A & Tu & Cu & _ & Pu & Su & Ku).
  assert (Hrate : reconnectRateSec u = reconnectRateSec t)
    by apply (passive_rate _ _ Pu).
  set (v := u |> emit (handler_connect true) |> set_connected true
              |> emit connectedToSimulator
              |> emit (postLogMessage MsgConnected false)).
  assert (Hstep : forall rest, connectLoop (pre ++ k :: rest) 0 t0 = v).
  { intros rest. rewrite E. cbn [connectLoop]. rewrite Tu, Hrate.
    rewrite (counterAt_poll _ _ _ Hr A). cbn [Nat.add].
    now rewrite Hp, Hk. }
  rewrite !Hstep.
  assert (Ev : trace v = trace u ++ [handler_connect true;
                                     connectedToSimulator;
                                     postLogMessage MsgConnected false])
    by (cbn; now rewrite <- !app_assoc).
  assert (Hs : since t0 v = since t0 u ++ [handler_connect true;
                                           connectedToSimulator;
                                           postLogMessage MsgConnected false]).
  { rewrite (since_trans t0 u v (passive_extends _ _ Pu)
                         (extends_app _ _ _ Ev)).
    now rewrite (since_app _ _ _ Ev). }
  rewrite Hs.
  split; [reflexivity|]. split; [exact Tu|]. split; [reflexivity|].
  split; [now rewrite !sleeps_app, Su|].
  split; [now rewrite !connects_app, Ku|].
  split; [|reflexivity].
  exists ([postLogMessage MsgNotConnected false] ++ since t0 u).
  now rewrite <- app_assoc.
Qed.

Lemma connect_succeeds_at_due_tick_witness :
  let t := Samples.fresh in
  let pre := repeat Samples.tickDown 20 in
  let t' := connectToSimulator (pre ++ Samples.tickUp :: [Samples.tickDown]) t in
  connected t' = true
  /\ terminate t' = false
  /\ reconnecting t' = false
  /\ sleeps (since t t') = length pre
  /\ connects (since t t')
     = map (fun _ => handler_connect false)
           (filter (pollsAt (reconnectRateSec t)) (seq 0 (length pre)))
       ++ [handler_connect true]
  /\ (exists evs,
         since t t'
         = evs ++ [handler_connect true; connectedToSimulator;
                   postLogMessage MsgConnected false])
  /\ t' = connectToSimulator (pre ++ [Samples.tickUp]) t.
Proof.
  apply (connect_succeeds_at_due_tick (repeat Samples.tickDown 20)
           [Samples.tickDown] Samples.tickUp Samples.fresh); reflexivity.
Defined.

(** X3.  A tick at which [connect] is not due is slept through without
    asking the handler: whether the simulator could be reached in it makes
    no difference to the run of [connectToSimulator]. *)
Theorem connect_not_asked_between_polls (pre post : list Tick) (k k' : Tick)
        (t : DataReaderThread) :
  0 < reconnectRateSec t -> terminate t = false ->
  forallb waitingTick pre = true ->
  pollsAt (reconnectRateSec t) (length pre) = false ->
  tickSubmits k' = tickSubmits k -> cancelInSleep k' = cancelInSleep k ->
  connectToSimulator (pre ++ k :: post) t
  = connectToSimulator (pre ++ k' :: post) t.
Proof.
  intros Hr Ht Hw Hp Hs Hc. unfold connectToSimulator.
  set (t0 := t |> emit (postLogMessage MsgNotConnected false)
               |> set_reconnecting true).
  destruct (connectLoop_waiting pre 0 0 t0 Hr Ht Hw (counterAt_start _ Hr))
    as (u & c' & E & A & Tu & _ & _ & Pu & _ & _).
  assert (Hrate : reconnectRateSec u = reconnectRateSec t)
    by apply (passive_rate _ _ Pu).
  rewrite !E. cbn [connectLoop]. rewrite Tu, Hrate.
  rewrite (counterAt_poll _ _ _ Hr A). cbn [Nat.add].
  rewrite Hp. unfold QThread_sleep. now rewrite Hs, Hc.
Qed.

Lemma connect_not_asked_between_polls_witness :
  connectToSimulator
    (repeat Samples.tickDown 3 ++ Samples.tickDown :: [Samples.tickCancel])
    Samples.fresh
  = connectToSimulator
      (repeat Samples.tickDown 3 ++ Samples.tickUp :: [Samples.tickCancel])
      Samples.fresh.
Proof.
  apply (connect_not_asked_between_polls (repeat Samples.tickDown 3)
           [Samples.tickCancel] Samples.tickDown Samples.tickUp
           Samples.fresh); reflexivity.
Defined.

Lemma connectLoop_exit (ticks : list Tick) (counter : Z)
      (t : DataReaderThread) :
  connected t = false ->
  let t' := connectLoop ticks counter t in
  (terminate t' = true \/ connected t' = true)
  /\ (connected t' = true <-> In (handler_connect true) (connects (since t t'))).
Proof.
  revert counter t. induction ticks as [|k ticks IH]; intros counter t Hc;
    cbn [connectLoop]; destruct (terminate t) eqn:Ht; cbv zeta.
  - rewrite since_same by reflexivity. rewrite Hc. cbn. intuition congruence.
  - rewrite since_same by reflexivity. cbn. rewrite Hc.
    intuition congruence.
  - rewrite since_same by reflexivity. rewrite Hc. cbn. intuition congruence.
  - assert (Hrec : forall u n,
               connected u = false -> extends t u ->
               connects (since t u) = [] \/
               connects (since t u) = [handler_connect false] ->
               let t' := connectLoop ticks n (QThread_sleep k u) in
               (terminate t' = true \/ connected t' = true)
               /\ (connected t' = true
                   <-> In (handler_connect true) (connects (since t t')))).
    { intros u n Cu Eu Ku.
      destruct (QThread_sleep_flags k u) as (_ & C2 & _ & _).
      destruct (QThread_sleep_calls k u) as [K2 _].
      pose proof (QThread_sleep_passive k u) as P2.
      set (t2 := QThread_sleep k u) in *.
      destruct (IH n t2) as [H1 H2]; [congruence|]. cbv zeta in *.
      split; [exact H1|]. rewrite H2.
      assert (E2 : extends t t2)
        by (eapply extends_trans; [exact Eu | apply P2]).
      rewrite (since_trans t t2 _ E2
                 (passive_extends _ _ (connectLoop_passive _ _ _))).
      rewrite (since_trans t u t2 Eu (passive_extends _ _ P2)).
      rewrite !connects_app, K2, app_nil_r.
      destruct Ku as [-> | ->]; cbn; intuition congruence. }
    destruct (Z.rem counter (reconnectRateSec t) =? 0).
    + destruct (connectOk k).
      * split; [now right|]. split; [intros _|reflexivity].
        erewrite since_app; [|cbn; rewrite <- !app_assoc; reflexivity].
        cbn. now left.
      * apply Hrec; [exact Hc | | right].
        -- apply (extends_app _ _ [handler_connect false]); reflexivity.
        -- now rewrite (since_app t _ [handler_connect false]).
    + apply Hrec; [exact Hc | now apply extends_same | left].
      now rewrite since_same.
Qed.

(** X4.  [connectToSimulator] returns only when the object is connected
    or has been asked to stop, and it never leaves [reconnecting] set.
    Entered on an object that is not connected, it reports the object
    connected exactly when a call of [handler->connect()] succeeded. *)
Theorem connectToSimulator_result (ticks : list Tick) (t : DataReaderThread) :
  connected t = false ->
  let t' := connectToSimulator ticks t in
  reconnecting t' = false
  /\ (terminate t' = true \/ connected t' = true)
  /\ (connected t' = true <-> In (handler_connect true) (since t t')).
Proof.
  intros Hc. cbv zeta. rewrite connectToSimulator_since. cbv zeta.
  unfold connectToSimulator.
  set (t0 := t |> emit (postLogMessage MsgNotConnected false)
               |> set_reconnecting true).
  destruct (connectLoop_exit ticks 0 t0 Hc) as [H1 H2]. cbv zeta in *.
  split; [reflexivity|]. split; [exact H1|].
  cbn [connected set_reconnecting]. rewrite H2.
  unfold connects. rewrite filter_In. cbn [app In].
  intuition congruence.
Qed.

Lemma connectToSimulator_result_witness :
  let t := Samples.fresh in
  let t' := connectToSimulator [Samples.tickDown; Samples.tickCancel] t in
  reconnecting t' = false
  /\ (terminate t' = true \/ connected t' = true)
  /\ (connected t' = true <-> In (handler_connect true) (since t t')).
Proof.
  apply (connectToSimulator_result [Samples.tickDown; Samples.tickCancel]
                                   Samples.fresh).
  reflexivity.
Defined.

(** ** What a run leaves behind *)

Lemma config_setWeatherRequest (q : WeatherRequest) (t : DataReaderThread) :
  config (setWeatherRequest q t) = config t.
Proof. unfold setWeatherRequest. now destruct (saveReplayFile t). Qed.

Lemma config_meanwhile (qs : list WeatherRequest) (cancel : bool)
      (t : DataReaderThread) :
  config (meanwhile qs cancel t) = config t.
Proof.
  unfold meanwhile.
  assert (H : config (fold_left (fun s r => setWeatherRequest r s) qs t)
              = config t).
  { revert t. induction qs as [|q qs IH]; intros t; cbn; [reflexivity|].
    now rewrite IH, config_setWeatherRequest. }
  destruct cancel; exact H.
Qed.

Lemma config_QThread_sleep (k : Tick) (t : DataReaderThread) :
  config (QThread_sleep k t) = config t.
Proof. unfold QThread_sleep. now rewrite config_meanwhile. Qed.

Lemma config_connectLoop (ticks : list Tick) (counter : Z)
      (t : DataReaderThread) :
  config (connectLoop ticks counter t) = config t.
Proof.
  revert counter t. induction ticks as [|k ticks IH]; intros counter t;
    cbn [connectLoop]; destruct (terminate t); try reflexivity.
  destruct (Z.rem counter (reconnectRateSec t) =? 0);
    [destruct (connectOk k); [reflexivity|]|];
    now rewrite IH, config_QThread_sleep.
Qed.

Lemma config_connectToSimulator (ticks : list Tick) (t : DataReaderThread) :
  config (connectToSimulator ticks t) = config t.
Proof.
  unfold connectToSimulator.
  change (config (connectLoop ticks 0
                    (t |> emit (postLogMessage MsgNotConnected false)
                       |> set_reconnecting true)) = config t).
  now rewrite config_connectLoop.
Qed.

Lemma config_closeReplay (t : DataReaderThread) :
  config (closeReplay t) = config t.
Proof.
  unfold closeReplay.
  destruct (saveReplayFile t); cbn; destruct (loadReplayFile t); reflexivity.
Qed.

Lemma closeReplay_files (t : DataReaderThread) :
  loadReplayFile (closeReplay t) = None
  /\ saveReplayFile (closeReplay t) = None
  /\ disk (closeReplay t) = disk t
  /\ nextPacketId (closeReplay t) = nextPacketId t
  /\ terminate (closeReplay t) = terminate t.
Proof.
  unfold closeReplay.
  destruct (saveReplayFile t) eqn:Es; cbn;
    destruct (loadReplayFile t) eqn:El; cbn; repeat split; assumption.
Qed.

Section Frames.

Context {fmt : ReplayFormat}.

Lemma replayBody_frame (f : QFile) (t : DataReaderThread) :
  let t' := replayBody f t in
  nextPacketId t' = nextPacketId t
  /\ disk t' = disk t
  /\ (saveReplayFile t' = saveReplayFile t \/ saveReplayFile t' = None)
  /\ config t' = config t.
Proof.
  cbv zeta. unfold replayBody.
  destruct (SimConnectData_read
              (skipn (pos f) (contents (disk t) (fileName f)))) as [d n].
  destruct (status d).
  - cbn.
    destruct (length (contents (disk t) (fileName f)) <=? pos f + n)%nat;
      repeat split; now left.
  - match goal with |- context [closeReplay ?u] =>
        destruct (closeReplay_files u) as (_ & S & D & N & _);
        rewrite S, D, N, (config_closeReplay u)
    end.
    repeat split. now right.
Qed.

Lemma config_liveBody (c : Cycle) (t : DataReaderThread) :
  config (liveBody c t) = config t.
Proof.
  unfold liveBody.
  destruct (isValid (weatherRequest (handler t))) eqn:Ev.
  - rewrite (fetchData_weather c _ t Ev). cbv beta iota zeta.
    destruct (length (fillMetars (weatherFill c)) =? 0)%nat; cbn;
      destruct (saveReplayFile t) as [f|]; try reflexivity;
      destruct (isOpen f); reflexivity.
  - rewrite (fetchData_telemetry c _ t Ev). cbv beta iota zeta.
    destruct (fetchOk c).
    + cbn. destruct (saveReplayFile t) as [f|]; [|reflexivity].
      destruct (isOpen f && (0 <? nextPacketId t)); reflexivity.
    + destruct (isSTATEOK (handlerState c)); [reflexivity|].
      destruct (simRunning c); [reflexivity|]. cbn [negb].
      now rewrite config_connectToSimulator.
Qed.

Lemma recordsTo_after (t t' : DataReaderThread) (p : string) :
  saveReplayFile t' = saveReplayFile t \/ saveReplayFile t' = None ->
  recordsTo t p = false -> recordsTo t' p = false.
Proof. unfold recordsTo. intros [-> | ->]; [trivial | reflexivity]. Qed.

Lemma loopBody_frame (c : Cycle) (t : DataReaderThread) :
  let t' := loopBody c t in
  nextPacketId t <= nextPacketId t'
  /\ config t' = config t
  /\ (saveReplayFile t' = saveReplayFile t \/ saveReplayFile t' = None)
  /\ forall p, recordsTo t p = false ->
               contents (disk t') p = contents (disk t) p.
Proof.
  cbv zeta. unfold loopBody. destruct (loadReplayFile t) as [f|] eqn:El.
  - destruct (replayBody_frame f t) as (N & D & S & C). cbv zeta in *.
    rewrite N, D. repeat split; try assumption. lia.
  - pose proof (liveBody_liveSteps c t El) as L.
    split; [apply L|]. split; [apply config_liveBody|].
    split; [left; apply L|].
    intros p Hp. rewrite (live_disk _ _ L p), Hp. apply app_nil_r.
Qed.

Lemma mainLoop_frame (cycles : list Cycle) (t : DataReaderThread) :
  let t' := mainLoop cycles t in
  nextPacketId t <= nextPacketId t'
  /\ config t' = config t
  /\ forall p, recordsTo t p = false ->
               contents (disk t') p = contents (disk t) p.
Proof.
  revert t. induction cycles as [|c cycles IH]; intros t; cbn [mainLoop];
    destruct (terminate t); cbv zeta;
    try (split; [cbn; lia|]; split; [reflexivity | intros; reflexivity]).
  destruct (loopBody_frame c t) as (N1 & C1 & S1 & D1). cbv zeta in *.
  pose proof (meanwhile_passive (waitSubmits c) (cancelInWait c)
                                (loopBody c t)) as P.
  set (m := meanwhile (waitSubmits c) (cancelInWait c) (loopBody c t)) in *.
  destruct (IH m) as (N2 & C2 & D2). cbv zeta in *.
  assert (Cm : config m = config t)
    by (unfold m; now rewrite config_meanwhile).
  split; [rewrite (passive_next _ _ P) in N2; lia|].
  split; [congruence|].
  intros p Hp. rewrite D2.
  - rewrite (passive_disk _ _ P). now apply D1.
  - apply (recordsTo_after (loopBody c t)).
    + left. apply (passive_save _ _ P).
    + now apply (recordsTo_after t).
Qed.

Lemma setupReplay_frame (t : DataReaderThread) :
  let s := setupReplay t in
  nextPacketId s = nextPacketId t
  /\ config s = config t
  /\ handler s = handler t
  /\ terminate s = terminate t.
Proof.
  cbv zeta.
  destruct (String.eqb (loadReplayFilepath t) EmptyString) eqn:Ep.
  - unfold setupReplay. rewrite Ep. cbn [negb].
    destruct (String.eqb (saveReplayFilepath t) EmptyString); cbn [negb];
      [repeat split|].
    destruct (canWrite (disk t) (saveReplayFilepath t)); repeat split.
  - rewrite (setupReplay_playback t Ep). cbv zeta.
    repeat match goal with
           | |- context [if ?b then _ else _] => destruct b
           end;
      try (repeat split; fail);
      match goal with |- context [closeReplay ?u] =>
          destruct (closeReplay_files u) as (_ & _ & _ & N & T);
          rewrite N, T, (config_closeReplay u)
      end;
      (split; [reflexivity|]; split; [reflexivity|]);
      unfold closeReplay; cbn; destruct (saveReplayFile t); repeat split.
Qed.

(** X5.  Whatever the mode and whatever happened in it, [run] on an
    object with a reconnect rate other than 0 (the remainder of line 55
    is undefined for 0) leaves the object ready for a restart: not
    terminating, not connected, not reconnecting, both replay files
    closed and forgotten, the configuration as it was; the packet id
    counter is not reset but where the run left it; and the last
    notification of the run is [disconnectedFromSimulator]. *)
Theorem run_ready_for_restart (ticks : list Tick) (cycles : list Cycle)
        (t : DataReaderThread) :
  reconnectRateSec t <> 0 ->
  let t' := run ticks cycles t in
  idle t' = true
  /\ connected t' = false
  /\ reconnecting t' = false
  /\ config t' = config t
  /\ nextPacketId t <= nextPacketId t'
  /\ exists evs, trace t' = trace t ++ evs ++ [disconnectedFromSimulator].
Proof.
  intros _.
  destruct (run_stages ticks cycles t) as (Hr & Ss & Pa & Eb & Se & _ & Hs).
  cbv zeta in *. rewrite Hr.
  set (s := setupReplay t) in *.
  set (a := match loadReplayFile s with
            | Some _ => set_connected true s
            | None => connectToSimulator ticks s
            end) in *.
  set (b := mainLoop cycles a) in *.
  destruct (closeReplay_files b) as (L & S & _ & N & _).
  destruct (setupReplay_frame t) as (Ns & Cs & _ & _). cbv zeta in *.
  fold s in Ns, Cs.
  destruct (mainLoop_frame cycles a) as (Nb & Cb & _). cbv zeta in *.
  fold b in Nb, Cb.
  assert (Ca : config a = config s)
    by (unfold a; destruct (loadReplayFile s);
        [reflexivity | apply config_connectToSimulator]).
  split; [unfold idle, teardown; cbn; now rewrite L, S|].
  split; [reflexivity|]. split; [reflexivity|].
  split; [change (config (closeReplay b) = config t);
          rewrite config_closeReplay; congruence|].
  split; [change (nextPacketId t <= nextPacketId (closeReplay b));
          rewrite N, <- Ns, <- (passive_next _ _ Pa); exact Nb|].
  exists (since t s ++ since s a ++ since a b).
  assert (Eall : extends t (teardown b)).
  { eapply extends_trans; [|apply Se].
    eapply extends_trans; [|exact Eb].
    eapply extends_trans; [apply Ss | apply Pa]. }
  unfold extends in Eall. rewrite Eall. f_equal.
  rewrite Hr in Hs. rewrite Hs.
  rewrite (since_app b (teardown b) [disconnectedFromSimulator]).
  - now rewrite <- !app_assoc.
  - unfold teardown. cbn. now rewrite closeReplay_trace.
Qed.

End Frames.

Lemma run_ready_for_restart_witness :
  let t := Samples.recorder Samples.replayFile in
  let t' := @run RefFormat.format [Samples.tickDown; Samples.tickUp]
                 [Samples.telemetryOk [x0a]; Samples.connectionLost;
                  Samples.telemetryOk [x0b]] t in
  idle t' = true
  /\ connected t' = false
  /\ reconnecting t' = false
  /\ config t' = config t
  /\ nextPacketId t <= nextPacketId t'
  /\ exists evs, trace t' = trace t ++ evs ++ [disconnectedFromSimulator].
Proof.
  apply (@run_ready_for_restart RefFormat.format
           [Samples.tickDown; Samples.tickUp]
           [Samples.telemetryOk [x0a]; Samples.connectionLost;
            Samples.telemetryOk [x0b]]
           (Samples.recorder Samples.replayFile)).
  vm_compute. discriminate.
Defined.

(** ** The files a run touches *)

Section Files.

Context {fmt : ReplayFormat}.

Lemma setupReplay_disk (t : DataReaderThread) :
  saveReplayFile t = None ->
  let s := setupReplay t in
  (forall p, recordsTo s p = false ->
             contents (disk s) p = contents (disk t) p)
  /\ (saveReplayFile s = None
      \/ String.eqb (loadReplayFilepath t) EmptyString = true
         /\ canWrite (disk t) (saveReplayFilepath t) = true
         /\ saveReplayFile s = Some (mkQFile (saveReplayFilepath t) 0 true)).
Proof.
  intros Hs. cbv zeta.
  destruct (String.eqb (loadReplayFilepath t) EmptyString) eqn:Ep.
  - unfold setupReplay. rewrite Ep. cbn [negb].
    destruct (String.eqb (saveReplayFilepath t) EmptyString); cbn [negb];
      [split; [reflexivity | now left]|].
    destruct (canWrite (disk t) (saveReplayFilepath t)); cbn [negb].
    + split; [|right; repeat split].
      unfold recordsTo, appendBytes. cbn. intros p Hp. now rewrite Hp.
    + split; [reflexivity | now left].
  - rewrite (setupReplay_playback t Ep). cbv zeta.
    repeat match goal with
           | |- context [if ?b then _ else _] => destruct b
           end;
      try match goal with |- context [closeReplay ?u] =>
              destruct (closeReplay_files u) as (_ & S & D & _ & _);
              rewrite S, D
          end;
      (split; [reflexivity | left; first [reflexivity | exact Hs]]).
Qed.

Lemma run_disk (ticks : list Tick) (cycles : list Cycle)
      (t : DataReaderThread) (p : string) :
  saveReplayFile t = None ->
  recordsTo (setupReplay t) p = false ->
  contents (disk (run ticks cycles t)) p = contents (disk t) p.
Proof.
  intros Hs Hp.
  destruct (run_stages ticks cycles t) as (Hr & _ & Pa & _). cbv zeta in *.
  rewrite Hr, teardown_disk.
  destruct (mainLoop_frame cycles
              (match loadReplayFile (setupReplay t) with
               | Some _ => set_connected true (setupReplay t)
               | None => connectToSimulator ticks (setupReplay t)
               end)) as (_ & _ & D).
  cbv zeta in D. rewrite D.
  - rewrite (passive_disk _ _ Pa).
    now apply (setupReplay_disk t Hs).
  - apply (recordsTo_after (setupReplay t)); [|exact Hp].
    left. apply (passive_save _ _ Pa).
Qed.

(** X6.  The only file [run] ever writes is the record file.  Every other
    file keeps its contents; and no file at all is written when a playback
    path is configured (also when a record path is configured as well,
    and also when the playback file is rejected: there is no fallback to
    recording), when no record path is configured, or when the record
    file cannot be opened for writing. *)
Theorem run_writes_only_record_file (ticks : list Tick) (cycles : list Cycle)
        (t : DataReaderThread) :
  idle t = true ->
  let t' := run ticks cycles t in
  (forall p, String.eqb p (saveReplayFilepath t) = false ->
             contents (disk t') p = contents (disk t) p)
  /\ (String.eqb (loadReplayFilepath t) EmptyString = false
      \/ String.eqb (saveReplayFilepath t) EmptyString = true
      \/ canWrite (disk t) (saveReplayFilepath t) = false ->
      forall p, contents (disk t') p = contents (disk t) p).
Proof.
  intros Hi. cbv zeta.
  assert (Hs : saveReplayFile t = None).
  { unfold idle in Hi. destruct (saveReplayFile t); [|reflexivity].
    now rewrite andb_false_r in Hi. }
  destruct (setupReplay_disk t Hs) as [_ Hcase]. cbv zeta in Hcase.
  split.
  - intros p Hp. apply run_disk; [exact Hs|].
    unfold recordsTo.
    destruct Hcase as [-> | (_ & _ & ->)]; [reflexivity | exact Hp].
  - intros Hno p. apply run_disk; [exact Hs|].
    unfold recordsTo. destruct Hcase as [-> | (Hl & Hw & Hsome)];
      [reflexivity|].
    destruct Hno as [Hno | [Hno | Hno]]; [congruence | | congruence].
    (* no record path: the else branch of setupReplay was not taken *)
    exfalso. revert Hsome. unfold setupReplay. rewrite Hl, Hno. cbn [negb].
    rewrite Hs. discriminate.
Qed.

End Files.

Lemma run_writes_only_record_file_witness :
  let t := Samples.recorder Samples.replayFile in
  let t' := @run RefFormat.format [Samples.tickUp]
                 [Samples.telemetryOk [x0a]] t in
  (forall p, String.eqb p (saveReplayFilepath t) = false ->
             contents (disk t') p = contents (disk t) p)
  /\ (String.eqb (loadReplayFilepath t) EmptyString = false
      \/ String.eqb (saveReplayFilepath t) EmptyString = true
      \/ canWrite (disk t) (saveReplayFilepath t) = false ->
      forall p, contents (disk t') p = contents (disk t) p).
Proof.
  apply (@run_writes_only_record_file RefFormat.format [Samples.tickUp]
           [Samples.telemetryOk [x0a]] (Samples.recorder Samples.replayFile)).
  reflexivity.
Defined.

(** ** Recording sessions *)

Section RecordingSessions.

Context {fmt : ReplayFormat}.

(** X7.  When the record file cannot be opened for writing, [setupReplay]
    reports "Cannot open" as an error and the run goes on as a live
    session: connection loop, live loop, teardown; nothing is appended to
    any record file. *)
Theorem record_open_failure_goes_live
        (ticks : list Tick) (cycles : list Cycle) (t : DataReaderThread) :
  idle t = true ->
  String.eqb (loadReplayFilepath t) EmptyString = true ->
  String.eqb (saveReplayFilepath t) EmptyString = false ->
  canWrite (disk t) (saveReplayFilepath t) = false ->
  let s := emit (postLogMessage (MsgCannotOpen (saveReplayFilepath t)) true)
                t in
  setupReplay t = s
  /\ run ticks cycles t
     = teardown (liveLoop cycles (connectToSimulator ticks s))
  /\ written (since t (run ticks cycles t)) = [].
Proof.
  intros Hi Hp Hs Hw.
  destruct (idle_inv t Hi) as (_ & Hl & Hsave).
  assert (Es : setupReplay t
               = emit (postLogMessage (MsgCannotOpen (saveReplayFilepath t))
                                      true) t).
  { unfold setupReplay. rewrite Hp. cbn [negb]. rewrite Hs. cbn [negb].
    rewrite Hw. cbn [negb]. unfold set_saveReplayFile, emit. cbn.
    now rewrite Hsave. }
  assert (Ls : loadReplayFile (setupReplay t) = None)
    by (rewrite Es; exact Hl).
  cbv zeta. split; [exact Es|].
  split; [rewrite <- Es; now apply run_without_playback|].
  destruct (run_without_playback_trace ticks cycles t Ls)
    as (L & _ & _ & W & _).
  cbv zeta in *. rewrite W, (live_written _ _ L).
  unfold recording. rewrite Es. cbn. now rewrite Hsave.
Qed.

(** X8.  After a recording run the record file holds the 12 header bytes
    (magic number, version, update rate modulo 2^32, big-endian) followed
    by the records of the telemetry packets the run handed to the host,
    in the order of delivery, and nothing else: weather replies and
    failed fetches leave no record, and what the file held before is
    gone. *)
Theorem recording_run_file (ticks : list Tick) (cycles : list Cycle)
        (t : DataReaderThread) :
  idle t = true ->
  String.eqb (loadReplayFilepath t) EmptyString = true ->
  String.eqb (saveReplayFilepath t) EmptyString = false ->
  canWrite (disk t) (saveReplayFilepath t) = true ->
  let t' := run ticks cycles t in
  contents (disk t') (saveReplayFilepath t)
  = put_u32 REPLAY_FILE_MAGIC_NUMBER ++ put_u32 REPLAY_FILE_VERSION
    ++ put_u32 (updateRate t mod 4294967296)
    ++ flat_map SimConnectData_write
         (telemetry (delivered (since t t')))
  /\ written (since t t') = telemetry (delivered (since t t')).
Proof.
  intros Hi Hp Hs Hw. cbv zeta.
  destruct (recording_file ticks cycles t Hi Hp Hs Hw) as [Hf _].
  cbv zeta in Hf. rewrite Hf. unfold replayHeader.
  split; [now rewrite <- !app_assoc|].
  destruct (idle_inv t Hi) as (_ & Hl & _).
  assert (Es : setupReplay t
               = t |> set_saveReplayFile
                        (Some (mkQFile (saveReplayFilepath t) 0 true))
                   |> set_disk (overwrite (disk t) (saveReplayFilepath t) [])
                   |> emit (postLogMessage (MsgSaving (saveReplayFilepath t))
                                           false)
                   |> appendBytes (saveReplayFilepath t)
                                  (replayHeader (updateRate t))).
  { unfold setupReplay. rewrite Hp. cbn [negb]. rewrite Hs. cbn [negb].
    now rewrite Hw. }
  assert (Ls : loadReplayFile (setupReplay t) = None)
    by (rewrite Es; exact Hl).
  destruct (run_without_playback_trace ticks cycles t Ls)
    as (L & _ & D & W & _).
  cbv zeta in *. rewrite W, D, (live_written _ _ L).
  now rewrite Es.
Qed.

(** X9.  A recording run that hands over no telemetry packet leaves a
    file of exactly the 12 header bytes, and such a file is refused for
    playback as too small. *)
Theorem empty_recording_is_rejected
        (ticks : list Tick) (cycles : list Cycle) (t u : DataReaderThread) :
  idle t = true ->
  String.eqb (loadReplayFilepath t) EmptyString = true ->
  String.eqb (saveReplayFilepath t) EmptyString = false ->
  canWrite (disk t) (saveReplayFilepath t) = true ->
  telemetry (delivered (since t (run ticks cycles t))) = [] ->
  loadReplayFilepath u = saveReplayFilepath t ->
  contents (disk u) (saveReplayFilepath t)
  = contents (disk (run ticks cycles t)) (saveReplayFilepath t) ->
  length (contents (disk (run ticks cycles t)) (saveReplayFilepath t))
  = 12%nat
  /\ loadReplayFile (setupReplay u) = None
  /\ since u (setupReplay u)
     = [postLogMessage (MsgTooSmall (saveReplayFilepath t)) true].
Proof.
  intros Hi Hp Hs Hw He Hu Hc.
  destruct (recording_file ticks cycles t Hi Hp Hs Hw) as [Hf _].
  cbv zeta in Hf. rewrite He in Hf. cbn [flat_map] in Hf.
  rewrite app_nil_r in Hf.
  split; [rewrite Hf; apply replayHeader_length|].
  rewrite setupReplay_playback by (rewrite Hu; exact Hs). cbv zeta.
  rewrite Hu, Hc, Hf, replayHeader_length. cbn [Nat.ltb Nat.leb].
  split.
  - unfold closeReplay. cbn. destruct (saveReplayFile u); reflexivity.
  - apply since_app. now rewrite closeReplay_trace.
Qed.

End RecordingSessions.

Lemma record_open_failure_goes_live_witness :
  let t := mkThread false false false 1 500 10 500 EmptyString
             Samples.replayFile None None
             (mkHandler WeatherRequest_default)
             (mkFileSystem (fun _ => []) (fun _ => true) (fun _ => false))
             [] in
  let ticks := [Samples.tickUp] in
  let cycles := [Samples.telemetryOk [x0a]] in
  let s := emit (postLogMessage (MsgCannotOpen (saveReplayFilepath t)) true)
                t in
  @setupReplay RefFormat.format t = s
  /\ @run RefFormat.format ticks cycles t
     = teardown (@liveLoop RefFormat.format cycles
                           (connectToSimulator ticks s))
  /\ written (since t (@run RefFormat.format ticks cycles t)) = [].
Proof.
  apply (@record_open_failure_goes_live RefFormat.format [Samples.tickUp]
           [Samples.telemetryOk [x0a]]); reflexivity.
Defined.

Lemma recording_run_file_witness :
  let t := Samples.recorder Samples.replayFile in
  let t' := @run RefFormat.format [Samples.tickUp]
                 [Samples.telemetryOk [x0a]; Samples.telemetryMiss;
                  Samples.telemetryOk [x0b]] t in
  contents (disk t') (saveReplayFilepath t)
  = put_u32 (@REPLAY_FILE_MAGIC_NUMBER RefFormat.format)
    ++ put_u32 (@REPLAY_FILE_VERSION RefFormat.format)
    ++ put_u32 (updateRate t mod 4294967296)
    ++ flat_map (@SimConnectData_write RefFormat.format)
         (telemetry (delivered (since t t')))
  /\ written (since t t') = telemetry (delivered (since t t')).
Proof.
  apply (@recording_run_file RefFormat.format [Samples.tickUp]
           [Samples.telemetryOk [x0a]; Samples.telemetryMiss;
            Samples.telemetryOk [x0b]]
           (Samples.recorder Samples.replayFile)); reflexivity.
Defined.

Lemma empty_recording_is_rejected_witness :
  let t := Samples.recorder Samples.replayFile in
  let t1 := @run RefFormat.format [Samples.tickUp] [Samples.telemetryMiss] t in
  let u := Samples.player Samples.replayFile (disk t1) in
  length (contents (disk t1) (saveReplayFilepath t)) = 12%nat
  /\ loadReplayFile (@setupReplay RefFormat.format u) = None
  /\ since u (@setupReplay RefFormat.format u)
     = [postLogMessage (MsgTooSmall (saveReplayFilepath t)) true].
Proof.
  refine (@empty_recording_is_rejected RefFormat.format [Samples.tickUp]
            [Samples.telemetryMiss] (Samples.recorder Samples.replayFile)
            (Samples.player Samples.replayFile
               (disk (@run RefFormat.format [Samples.tickUp]
                           [Samples.telemetryMiss]
                           (Samples.recorder Samples.replayFile))))
            _ _ _ _ _ _ _); vm_compute; reflexivity.
Defined.

(** ** Playback sessions *)

Section PlaybackSessions.

Context {fmt : ReplayFormat} {fmtOk : ReplayFormatOk fmt}.

Lemma setupReplay_recorded (rate : Z) (ps : list SimConnectData)
      (u : DataReaderThread) :
  String.eqb (loadReplayFilepath u) EmptyString = false ->
  canRead (disk u) (loadReplayFilepath u) = true ->
  contents (disk u) (loadReplayFilepath u)
  = replayHeader rate ++ flat_map SimConnectData_write ps ->
  ps <> [] ->
  setupReplay u
  = u |> set_replayUpdateRateMs (rate mod 4294967296)
      |> set_loadReplayFile (Some (mkQFile (loadReplayFilepath u) 12 true))
      |> emit (postLogMessage (MsgReplaying (loadReplayFilepath u)) false)
      |> emit connectedToSimulator.
Proof.
  intros Hp Hr Hb Hne.
  rewrite (setupReplay_playback u Hp). cbv zeta. rewrite Hr, Hb.
  replace (12 <? length (replayHeader rate
                          ++ flat_map SimConnectData_write ps))%nat
    with true.
  2:{ symmetry. apply Nat.ltb_lt. rewrite length_app, replayHeader_length.
      pose proof (flat_map_write_nil ps) as Hz.
      destruct (length (flat_map SimConnectData_write ps));
        [now elim Hne; apply Hz | lia]. }
  unfold headerMagic, headerVersion, replayHeader.
  rewrite <- !app_assoc.
  rewrite (get_put_u32 _ _ magic_range). cbn [fst].
  cbn [put_u32 app skipn].
  change (byte_of_Z (REPLAY_FILE_VERSION / 16777216)
            :: byte_of_Z (REPLAY_FILE_VERSION / 65536)
            :: byte_of_Z (REPLAY_FILE_VERSION / 256)
            :: byte_of_Z REPLAY_FILE_VERSION :: ?r)
    with (put_u32 REPLAY_FILE_VERSION ++ r).
  rewrite (get_put_u32 _ _ version_range). cbn [fst].
  change (byte_of_Z (rate mod 4294967296 / 16777216)
            :: byte_of_Z (rate mod 4294967296 / 65536)
            :: byte_of_Z (rate mod 4294967296 / 256)
            :: byte_of_Z (rate mod 4294967296) :: ?r)
    with (put_u32 (rate mod 4294967296) ++ r).
  rewrite get_put_u32 by (apply Z.mod_pos_bound; lia). cbn [fst].
  now rewrite !Z.eqb_refl.
Qed.

(** X10.  Opening for playback a file made of a header written for update
    rate [rate] and at least one record succeeds: the file is open at the
    start of the data section, the update rate of the recording (modulo
    2^32) is taken over into [replayUpdateRateMs], "Replaying from" is
    logged and [connectedToSimulator] is emitted; the file is not
    changed. *)
Theorem playback_takes_over_recorded_rate
        (rate : Z) (ps : list SimConnectData) (u : DataReaderThread) :
  String.eqb (loadReplayFilepath u) EmptyString = false ->
  canRead (disk u) (loadReplayFilepath u) = true ->
  contents (disk u) (loadReplayFilepath u)
  = replayHeader rate ++ flat_map SimConnectData_write ps ->
  ps <> [] ->
  let s := setupReplay u in
  loadReplayFile s = Some (mkQFile (loadReplayFilepath u) 12 true)
  /\ replayUpdateRateMs s = rate mod 4294967296
  /\ since u s
     = [postLogMessage (MsgReplaying (loadReplayFilepath u)) false;
        connectedToSimulator]
  /\ disk s = disk u.
Proof.
  intros Hp Hr Hb Hne. cbv zeta.
  rewrite (setupReplay_recorded rate ps u Hp Hr Hb Hne).
  repeat split. apply since_app. cbn. now rewrite <- app_assoc.
Qed.

(** One iteration of the playback loop. *)
Lemma playback_step (ps : list SimConnectData) (hdr : list byte)
      (path : string) (c : Cycle) (done todo : list SimConnectData)
      (p : SimConnectData) (t : DataReaderThread) :
  length hdr = 12%nat ->
  Forall (fun d => status d = OK) ps ->
  ps = done ++ p :: todo ->
  terminate t = false ->
  saveReplayFile t = None ->
  loadReplayFile t
  = Some (mkQFile path
                  (12 + length (flat_map SimConnectData_write done)) true) ->
  contents (disk t) path = hdr ++ flat_map SimConnectData_write ps ->
  cancelInWait c = false ->
  let m := meanwhile (waitSubmits c) (cancelInWait c) (loopBody c t) in
  exists done' todo' p',
    ps = done' ++ p' :: todo'
    /\ (forall i, looped ps (length done' + i)
                  = looped ps (S (length done + i)))
    /\ terminate m = false
    /\ saveReplayFile m = None
    /\ loadReplayFile m
       = Some (mkQFile path
                 (12 + length (flat_map SimConnectData_write done')) true)
    /\ contents (disk m) path = hdr ++ flat_map SimConnectData_write ps
    /\ nextPacketId m = nextPacketId t
    /\ extends t m
    /\ replayReads (since t m) = [p]
    /\ delivered (since t m) = [p]
    /\ written (since t m) = []
    /\ connects (since t m) = []
    /\ fetches (since t m) = [].
Proof.
  intros Hh Hok Hps Ht Hs Hl Hc Hn. cbv zeta. rewrite Hn.
  unfold loopBody. rewrite Hl.
  set (f := mkQFile path
              (12 + length (flat_map SimConnectData_write done)) true).
  assert (Hskip : skipn (pos f) (contents (disk t) (fileName f))
                  = SimConnectData_write p
                    ++ flat_map SimConnectData_write todo).
  { cbn [pos fileName f]. rewrite Hc, Hps, flat_map_app. cbn [flat_map].
    rewrite app_assoc, <- Hh, <- length_app. apply skipn_length_app. }
  assert (Hread : SimConnectData_read
                    (skipn (pos f) (contents (disk t) (fileName f)))
                  = (p, length (SimConnectData_write p)))
    by (rewrite Hskip; apply read_write).
  assert (Hp : status p = OK).
  { rewrite Forall_forall in Hok. apply Hok. rewrite Hps.
    apply in_or_app. right. now left. }
  destruct (replayBody_ok f t p _ Hread Hp) as (T1 & S1 & D1 & L1 & E1).
  destruct (replayBody_frame f t) as (N1 & _).
  cbv zeta in *.
  set (r := replayBody f t) in *.
  destruct (meanwhile_playing (waitSubmits c) r) as (T2 & P2 & D2);
    [now rewrite S1|].
  destruct (submits_calls (waitSubmits c) r) as [K2 F2].
  cbv zeta in *.
  change (fold_left (fun s q => setWeatherRequest q s) (waitSubmits c) r)
    with (meanwhile (waitSubmits c) false r) in K2, F2.
  set (m := meanwhile (waitSubmits c) false r) in *.
  assert (Er : extends t r) by (eapply extends_app; exact E1).
  assert (Hsince : since t m
                   = [replay_read p; postSimConnectData p] ++ since r m).
  { rewrite (since_trans t r m Er (passive_extends _ _ P2)).
    now rewrite (since_app _ _ _ E1). }
  assert (Hlen : length (contents (disk t) (fileName f))
                 = (pos f + length (SimConnectData_write p)
                    + length (flat_map SimConnectData_write todo))%nat).
  { cbn [pos fileName f]. rewrite Hc, Hps, flat_map_app. cbn [flat_map].
    rewrite !length_app. lia. }
  assert (Lm : loadReplayFile m = loadReplayFile r)
    by apply (passive_load _ _ P2).
  rewrite L1 in Lm.
  assert (Hfacts :
            terminate m = false /\ saveReplayFile m = None
            /\ contents (disk m) path
               = hdr ++ flat_map SimConnectData_write ps
            /\ nextPacketId m = nextPacketId t
            /\ extends t m
            /\ replayReads (since t m) = [p]
            /\ delivered (since t m) = [p]
            /\ written (since t m) = []
            /\ connects (since t m) = []
            /\ fetches (since t m) = []).
  { split; [congruence|].
    split; [rewrite (passive_save _ _ P2); congruence|].
    split; [rewrite (passive_disk _ _ P2), D1; exact Hc|].
    split; [rewrite (passive_next _ _ P2); exact N1|].
    split; [eapply extends_trans; [exact Er | apply P2]|].
    rewrite Hsince, replayReads_app, delivered_app, written_app,
      connects_app, fetches_app.
    rewrite (passive_reads _ _ P2), (passive_written _ _ P2), D2, K2, F2.
    repeat split. }
  destruct todo as [|p' todo'].
  - replace (length (contents (disk t) (fileName f))
             <=? pos f + length (SimConnectData_write p))%nat
      with true in Lm
      by (symmetry; apply Nat.leb_le; rewrite Hlen; cbn; lia).
    destruct ps as [|p0 ps0] eqn:Eps; [destruct done; discriminate|].
    exists [], ps0, p0. split; [reflexivity|].
    split.
    { intros i. cbn [length Nat.add].
      rewrite <- (looped_shift (p0 :: ps0) i). f_equal.
      rewrite Hps, length_app. cbn. lia. }
    split; [apply Hfacts|]. split; [apply Hfacts|].
    split; [exact Lm|]. apply Hfacts.
  - replace (length (contents (disk t) (fileName f))
             <=? pos f + length (SimConnectData_write p))%nat
      with false in Lm.
    2:{ symmetry. apply Nat.leb_gt. rewrite Hlen. cbn [flat_map].
        rewrite length_app.
        pose proof (write_nonempty p') as Hne.
        destruct (SimConnectData_write p'); [congruence|]. cbn. lia. }
    exists (done ++ [p]), todo', p'.
    split; [now rewrite <- app_assoc|].
    split; [intros i; f_equal; rewrite length_app; cbn; lia|].
    split; [apply Hfacts|]. split; [apply Hfacts|].
    split; [|apply Hfacts].
    rewrite Lm. cbn [pos fileName isOpen f]. do 2 f_equal.
    rewrite flat_map_app, length_app. cbn. rewrite app_nil_r. lia.
Qed.

Lemma playback_loop_calls (ps : list SimConnectData) (hdr : list byte)
      (path : string) :
  length hdr = 12%nat ->
  Forall (fun d => status d = OK) ps ->
  forall (cycles : list Cycle) (done todo : list SimConnectData)
         (p : SimConnectData) (t : DataReaderThread),
    ps = done ++ p :: todo ->
    terminate t = false ->
    saveReplayFile t = None ->
    loadReplayFile t
    = Some (mkQFile path
                    (12 + length (flat_map SimConnectData_write done)) true) ->
    contents (disk t) path = hdr ++ flat_map SimConnectData_write ps ->
    forallb (fun c => negb (cancelInWait c)) cycles = true ->
    let t' := mainLoop cycles t in
    nextPacketId t' = nextPacketId t
    /\ replayReads (since t t')
       = map (fun i => looped ps (length done + i)) (seq 0 (length cycles))
    /\ written (since t t') = []
    /\ connects (since t t') = []
    /\ fetches (since t t') = [].
Proof.
  intros Hh Hok. induction cycles as [|c cycles IH];
    intros done todo p t Hps Ht Hs Hl Hc Hn; cbn [mainLoop]; rewrite Ht;
    cbv zeta.
  - rewrite since_same by reflexivity. repeat split.
  - cbn [forallb] in Hn. apply andb_true_iff in Hn as [Hn1 Hn].
    apply negb_true_iff in Hn1.
    destruct (playback_step ps hdr path c done todo p t Hh Hok Hps Ht Hs Hl
                            Hc Hn1)
      as (done' & todo' & p' & Hps' & Hidx & Tm & Sm & Lm & Cm & Nm & Em
          & Rm & _ & Wm & Km & Fm).
    cbv zeta in *.
    set (m := meanwhile (waitSubmits c) (cancelInWait c) (loopBody c t)) in *.
    destruct (IH done' todo' p' m Hps' Tm Sm Lm Cm Hn)
      as (N' & R' & W' & K' & F').
    cbv zeta in *.
    rewrite (since_trans t m _ Em (proj1 (mainLoop_written cycles m))).
    rewrite replayReads_app, written_app, connects_app, fetches_app.
    rewrite Rm, Wm, Km, Fm, R', W', K', F'.
    split; [congruence|]. split; [|repeat split].
    cbn [length seq map app]. rewrite Nat.add_0_r.
    rewrite Hps at 1. rewrite looped_middle. f_equal.
    rewrite <- seq_shift, map_map. apply map_ext. intros i.
    rewrite Hidx. f_equal. lia.
Qed.

(** X11.  A playback run over such a file never calls [connect] and never
    fetches from the handler, whatever weather requests are submitted
    meanwhile; it appends nothing to a record file, leaves the packet id
    counter alone, and its [i]-th iteration reads record [i mod n] of the
    [n] records of the file. *)
Theorem playback_run_bypasses_handler
        (rate : Z) (ps : list SimConnectData)
        (ticks : list Tick) (cycles : list Cycle) (u : DataReaderThread) :
  idle u = true ->
  String.eqb (loadReplayFilepath u) EmptyString = false ->
  canRead (disk u) (loadReplayFilepath u) = true ->
  contents (disk u) (loadReplayFilepath u)
  = replayHeader rate ++ flat_map SimConnectData_write ps ->
  ps <> [] ->
  Forall (fun d => status d = OK) ps ->
  forallb (fun c => negb (cancelInWait c)) cycles = true ->
  let u' := run ticks cycles u in
  connects (since u u') = []
  /\ fetches (since u u') = []
  /\ written (since u u') = []
  /\ replayReads (since u u') = map (looped ps) (seq 0 (length cycles))
  /\ nextPacketId u' = nextPacketId u.
Proof.
  intros Hi Hp Hr Hb Hne Hok Hn.
  destruct (idle_inv u Hi) as (Tu & Lu & Su).
  pose proof (setupReplay_recorded rate ps u Hp Hr Hb Hne) as Es.
  destruct (run_stages ticks cycles u) as (Hrun & Ss & _ & _ & Se & _ & Hs).
  cbv zeta in *. rewrite Es in Hrun, Ss, Se, Hs.
  cbn [loadReplayFile emit set_loadReplayFile] in Hrun, Se, Hs.
  match type of Ss with steady _ ?x => set (s := x) in * end.
  set (a := set_connected true s) in *.
  destruct ps as [|p todo] eqn:Eps; [congruence|]. rewrite <- Eps in *.
  destruct (playback_loop_calls ps (replayHeader rate) (loadReplayFilepath u)
              (replayHeader_length _) Hok cycles [] todo p a)
    as (N & R & W & K & F);
    [now rewrite Eps | exact Tu | exact Su | reflexivity | exact Hb
     | exact Hn |].
  cbv zeta in *.
  assert (Hsa : since s a = []) by (now apply since_same).
  assert (Hss : since u s
                = [postLogMessage (MsgReplaying (loadReplayFilepath u)) false;
                   connectedToSimulator])
    by (apply since_app; cbn; now rewrite <- app_assoc).
  assert (Hse : since (mainLoop cycles a) (teardown (mainLoop cycles a))
                = [disconnectedFromSimulator])
    by (apply since_app; unfold teardown; cbn;
        now rewrite closeReplay_trace).
  rewrite Hs, Hss, Hsa, Hse.
  rewrite !connects_app, !fetches_app, !written_app, !replayReads_app.
  rewrite K, F, W, R. cbn [app connects fetches written replayReads filter
                             isConnect isFetch].
  rewrite !app_nil_r. repeat split.
  rewrite Hrun.
  destruct (closeReplay_files (mainLoop cycles a)) as (_ & _ & _ & Nc & _).
  change (nextPacketId (closeReplay (mainLoop cycles a)) = nextPacketId u).
  rewrite Nc, N. reflexivity.
Qed.

End PlaybackSessions.

Lemma playback_takes_over_recorded_rate_witness :
  let u := Samples.player Samples.replayFile Samples.recorded in
  let s := @setupReplay RefFormat.format u in
  loadReplayFile s = Some (mkQFile (loadReplayFilepath u) 12 true)
  /\ replayUpdateRateMs s = 500 mod 4294967296
  /\ since u s
     = [postLogMessage (MsgReplaying (loadReplayFilepath u)) false;
        connectedToSimulator]
  /\ disk s = disk u.
Proof.
  refine (@playback_takes_over_recorded_rate RefFormat.format
            RefFormatFacts.format_ok 500 Samples.recordedPackets
            (Samples.player Samples.replayFile Samples.recorded) _ _ _ _);
    vm_compute; try reflexivity; discriminate.
Defined.

Lemma playback_run_bypasses_handler_witness :
  let u := Samples.player Samples.replayFile Samples.recorded in
  let cycles := [Samples.telemetryOk []; Samples.telemetryOk [];
                 Samples.telemetryOk []] in
  let u' := @run RefFormat.format [Samples.tickUp] cycles u in
  connects (since u u') = []
  /\ fetches (since u u') = []
  /\ written (since u u') = []
  /\ replayReads (since u u')
     = map (looped Samples.recordedPackets) (seq 0 (length cycles))
  /\ nextPacketId u' = nextPacketId u.
Proof.
  refine (@playback_run_bypasses_handler RefFormat.format
            RefFormatFacts.format_ok 500 Samples.recordedPackets
            [Samples.tickUp]
            [Samples.telemetryOk []; Samples.telemetryOk [];
             Samples.telemetryOk []]
            (Samples.player Samples.replayFile Samples.recorded)
            _ _ _ _ _ _ _);
    try (vm_compute; reflexivity); try (vm_compute; discriminate).
  repeat constructor.
Defined.

(** ** Packet ids over several runs *)

Section Restart.

Context {fmt : ReplayFormat}.

Lemma live_run_ids (ticks : list Tick) (cycles : list Cycle)
      (t : DataReaderThread) :
  loadReplayFile t = None ->
  String.eqb (loadReplayFilepath t) EmptyString = true ->
  let t' := run ticks cycles t in
  nextPacketId t <= nextPacketId t'
  /\ loadReplayFile t' = None
  /\ loadReplayFilepath t' = loadReplayFilepath t
  /\ Forall (fun x => nextPacketId t <= x < nextPacketId t')
            (map packetId (telemetry (delivered (since t t'))))
  /\ StronglySorted Z.lt
       (map packetId (telemetry (delivered (since t t')))).
Proof.
  intros Hl Hp. cbv zeta.
  destruct (setupReplay_no_playback t Hp) as (Ls & Ns & _).
  cbv zeta in *. rewrite Hl in Ls.
  destruct (run_without_playback_trace ticks cycles t Ls)
    as (L & _ & D & _ & _).
  cbv zeta in *. rewrite D.
  rewrite (run_without_playback ticks cycles t Ls).
  set (s := setupReplay t) in *.
  set (b := liveLoop cycles (connectToSimulator ticks s)) in *.
  destruct (closeReplay_files b) as (Lc & _ & _ & Nc & _).
  assert (Nt : nextPacketId (teardown b) = nextPacketId b)
    by (unfold teardown; cbn; exact Nc).
  assert (Cfg : config (teardown b) = config t).
  { change (config (closeReplay b) = config t).
    rewrite config_closeReplay. unfold b.
    rewrite <- (mainLoop_live cycles _
                  (eq_trans (passive_load _ _
                               (connectToSimulator_passive ticks s)) Ls)).
    destruct (mainLoop_frame cycles (connectToSimulator ticks s))
      as (_ & C & _).
    cbv zeta in C. rewrite C, config_connectToSimulator.
    apply setupReplay_frame. }
  rewrite Nt, <- Ns.
  split; [apply L|]. split; [exact Lc|].
  split; [now injection Cfg|].
  split; [apply telemetry_range; apply L | apply L].
Qed.

(** X12.  The packet id counter is not reset between runs: when the same
    object runs a second live or recording session, the telemetry ids of
    the second run continue above those of the first, so that the ids of
    both runs together are still strictly increasing and the second run
    does not begin at 1 again. *)
Theorem ids_continue_across_restart
        (ticks ticks' : list Tick) (cycles cycles' : list Cycle)
        (t : DataReaderThread) :
  idle t = true ->
  String.eqb (loadReplayFilepath t) EmptyString = true ->
  let t1 := run ticks cycles t in
  let t2 := run ticks' cycles' t1 in
  let ids1 := map packetId (telemetry (delivered (since t t1))) in
  let ids2 := map packetId (telemetry (delivered (since t1 t2))) in
  StronglySorted Z.lt (ids1 ++ ids2)
  /\ Forall (fun x => x < nextPacketId t1) ids1
  /\ Forall (fun x => nextPacketId t1 <= x) ids2.
Proof.
  intros Hi Hp. cbv zeta.
  destruct (idle_inv t Hi) as (_ & Hl & _).
  destruct (live_run_ids ticks cycles t Hl Hp) as (N1 & L1 & P1 & R1 & S1).
  cbv zeta in *.
  set (t1 := run ticks cycles t) in *.
  assert (Hp1 : String.eqb (loadReplayFilepath t1) EmptyString = true)
    by (now rewrite P1).
  destruct (live_run_ids ticks' cycles' t1 L1 Hp1) as (N2 & _ & _ & R2 & S2).
  cbv zeta in *.
  assert (H1 : Forall (fun x => x < nextPacketId t1)
                      (map packetId (telemetry (delivered (since t t1)))))
    by (eapply Forall_impl; [|exact R1]; cbn; intros; lia).
  assert (H2 : Forall (fun x => nextPacketId t1 <= x)
                      (map packetId
                           (telemetry
                              (delivered
                                 (since t1 (run ticks' cycles' t1))))))
    by (eapply Forall_impl; [|exact R2]; cbn; intros; lia).
  split; [|split; assumption].
  now apply (sorted_app_bound (nextPacketId t1)).
Qed.

End Restart.

Lemma ids_continue_across_restart_witness :
  let t := Samples.fresh in
  let t1 := @run RefFormat.format [Samples.tickUp]
                 [Samples.telemetryOk [x0a]; Samples.telemetryOk [x0b]] t in
  let t2 := @run RefFormat.format [Samples.tickUp]
                 [Samples.telemetryOk [x0a]] t1 in
  let ids1 := map packetId (telemetry (delivered (since t t1))) in
  let ids2 := map packetId (telemetry (delivered (since t1 t2))) in
  StronglySorted Z.lt (ids1 ++ ids2)
  /\ Forall (fun x => x < nextPacketId t1) ids1
  /\ Forall (fun x => nextPacketId t1 <= x) ids2.
Proof.
  apply (@ids_continue_across_restart RefFormat.format [Samples.tickUp]
           [Samples.tickUp]
           [Samples.telemetryOk [x0a]; Samples.telemetryOk [x0b]]
           [Samples.telemetryOk [x0a]] Samples.fresh); reflexivity.
Defined.

(** ** An iteration that serves a weather request *)

Section WeatherCycle.

Context {fmt : ReplayFormat}.

(** X13.  An iteration of the main loop that finds a weather request in
    the handler's slot serves only that request: the handler is asked for
    weather and not for telemetry, exactly one packet is handed over (id 0,
    the current time, whatever the handler stored, even nothing), the slot
    is emptied, and, since the fetch counts as successful, the state of
    the handler is not looked at: the connection flag stays and no
    reconnect starts, whatever the simulator does.  Nothing is appended to
    the record file and the telemetry counter stays. *)
Theorem weather_cycle (c : Cycle) (t : DataReaderThread) :
  loadReplayFile t = None ->
  isValid (weatherRequest (handler t)) = true ->
  let t' := loopBody c t in
  let reply := mkSimConnectData 0 (now c) OK EmptyString
                                (fillMetars (weatherFill c))
                                (fillPayload (weatherFill c)) in
  signals (since t t') = [postSimConnectData reply]
  /\ fetches (since t t')
     = [handler_fetchWeatherData (weatherRequest (handler t))]
  /\ connects (since t t') = []
  /\ written (since t t') = []
  /\ disk t' = disk t
  /\ connected t' = connected t
  /\ nextPacketId t' = nextPacketId t
  /\ weatherRequest (handler t') = WeatherRequest_default
  /\ (In (qWarning WarnNoWeather) (since t t')
      <-> fillMetars (weatherFill c) = []).
Proof.
  intros Hl Hv. cbv zeta. unfold loopBody. rewrite Hl. unfold liveBody.
  rewrite (fetchData_weather c _ t Hv). cbv beta iota zeta.
  set (q := weatherRequest (handler t)).
  set (reply := mkSimConnectData 0 (now c) OK EmptyString
                                 (fillMetars (weatherFill c))
                                 (fillPayload (weatherFill c))).
  change (setPacketTimestamp (now c)
            (setPacketId 0 (applyFill (weatherFill c) SimConnectData_default)))
    with reply.
  set (t1 := (if (length (fillMetars (weatherFill c)) =? 0)%nat
              then t |> emit (handler_fetchWeatherData q)
                     |> emit (qWarning WarnNoWeather)
              else t |> emit (handler_fetchWeatherData q))
             |> emit (handler_addWeatherRequest WeatherRequest_default)
             |> set_handler (mkHandler WeatherRequest_default)
             |> emit (postSimConnectData reply)).
  assert (E : match saveReplayFile t1 with
              | Some f => if isOpen f && (0 <? packetId reply)
                          then writeRecord f reply t1 else t1
              | None => t1
              end = t1).
  { destruct (saveReplayFile t1) as [f|]; [|reflexivity].
    cbn. now rewrite andb_false_r. }
  change (emit (postSimConnectData reply) _) with t1.
  rewrite E.
  assert (T : trace t1
              = trace t
                ++ (handler_fetchWeatherData q
                    :: (if (length (fillMetars (weatherFill c)) =? 0)%nat
                        then [qWarning WarnNoWeather] else [])
                    ++ [handler_addWeatherRequest WeatherRequest_default;
                        postSimConnectData reply])).
  { unfold t1. destruct (length (fillMetars (weatherFill c)) =? 0)%nat;
      cbn; now rewrite <- !app_assoc. }
  rewrite (since_app _ _ _ T).
  assert (F : disk t1 = disk t /\ connected t1 = connected t
              /\ nextPacketId t1 = nextPacketId t
              /\ weatherRequest (handler t1) = WeatherRequest_default)
    by (unfold t1; destruct (length (fillMetars (weatherFill c)) =? 0)%nat;
        repeat split).
  destruct F as (F1 & F2 & F3 & F4).
  destruct (fillMetars (weatherFill c)) as [|m ms] eqn:M; cbn.
  - do 8 (split; [first [reflexivity | assumption]|]).
    split; [intros _; reflexivity | intros _; right; now left].
  - do 8 (split; [first [reflexivity | assumption]|]).
    split; [|discriminate].
    intros [H|[H|[H|[]]]]; discriminate.
Qed.

End WeatherCycle.

Lemma weather_cycle_witness :
  let t := setWeatherRequest Samples.q1 Samples.online in
  let c := Samples.connectionLost in
  let t' := @loopBody RefFormat.format c t in
  let reply := mkSimConnectData 0 (now c) OK EmptyString
                                (fillMetars (weatherFill c))
                                (fillPayload (weatherFill c)) in
  signals (since t t') = [postSimConnectData reply]
  /\ fetches (since t t')
     = [handler_fetchWeatherData (weatherRequest (handler t))]
  /\ connects (since t t') = []
  /\ written (since t t') = []
  /\ disk t' = disk t
  /\ connected t' = connected t
  /\ nextPacketId t' = nextPacketId t
  /\ weatherRequest (handler t') = WeatherRequest_default
  /\ (In (qWarning WarnNoWeather) (since t t')
      <-> fillMetars (weatherFill c) = []).
Proof.
  apply (@weather_cycle RefFormat.format Samples.connectionLost
           (setWeatherRequest Samples.q1 Samples.online)); reflexivity.
Defined.

(** ** Losing the simulator *)

Section LostConnection.

Context {fmt : ReplayFormat}.

(** X14.  When the telemetry fetch fails, the handler is not in state OK
    and the simulator process is gone, the same iteration of the main loop
    waits for the simulator: [disconnectedFromSimulator] is signalled, the
    waiting message follows, the thread sleeps once per tick in which the
    simulator is still away, and when [connect] succeeds at a due tick the
    iteration ends connected again, with [connectedToSimulator] and the
    log message as its last signals.  The failed fetch has used up one
    packet id, and nothing was handed to the record file. *)
Theorem lost_connection_reconnects (c : Cycle) (pre post : list Tick)
        (k : Tick) (t : DataReaderThread) :
  loadReplayFile t = None ->
  isValid (weatherRequest (handler t)) = false ->
  fetchOk c = false ->
  isSTATEOK (handlerState c) = false ->
  simRunning c = false ->
  0 < reconnectRateSec t -> terminate t = false ->
  reconnectTicks c = pre ++ k :: post ->
  forallb waitingTick pre = true ->
  pollsAt (reconnectRateSec t) (length pre) = true ->
  connectOk k = true ->
  let t' := loopBody c t in
  connected t' = true
  /\ terminate t' = false
  /\ reconnecting t' = false
  /\ nextPacketId t' = nextPacketId t + 1
  /\ written (since t t') = []
  /\ exists evs,
      since t t'
      = [handler_fetchData false;
         handler_addWeatherRequest WeatherRequest_default;
         disconnectedFromSimulator;
         qWarning WarnFetchError;
         postLogMessage MsgNotConnected false]
          ++ evs
          ++ [handler_connect true; connectedToSimulator;
              postLogMessage MsgConnected false]
      /\ sleeps evs = length pre
      /\ connects evs
         = map (fun _ => handler_connect false)
               (filter (pollsAt (reconnectRateSec t)) (seq 0 (length pre)))
      /\ Forall (fun d => d = SimConnectData_default) (delivered evs).
Proof.
  intros Hl Hv Hf Hs Hsim Hr Ht Hticks Hw Hp Hk. cbv zeta.
  unfold loopBody. rewrite Hl, (liveBody_fetch_failed c t Hv Hf).
  cbv zeta. rewrite Hs, Hsim, Hticks.
  set (t2 := t |> emit (handler_fetchData false)
               |> set_nextPacketId (nextPacketId t + 1)
               |> emit (handler_addWeatherRequest WeatherRequest_default)
               |> set_handler (mkHandler WeatherRequest_default)
               |> set_connected false
               |> emit disconnectedFromSimulator
               |> emit (qWarning WarnFetchError)).
  assert (E2 : trace t2
               = trace t
                 ++ [handler_fetchData false;
                     handler_addWeatherRequest WeatherRequest_default;
                     disconnectedFromSimulator;
                     qWarning WarnFetchError])
    by (cbn; now rewrite <- !app_assoc).
  set (t0 := t2 |> emit (postLogMessage MsgNotConnected false)
                |> set_reconnecting true).
  assert (E0 : trace t0 = trace t2 ++ [postLogMessage MsgNotConnected false])
    by reflexivity.
  destruct (connectLoop_waiting pre 0 0 t0 Hr Ht Hw (counterAt_start _ Hr))
    as (u & c' & E & A & Tu & _ & _ & Pu & Su & Ku).
  assert (Hrate : reconnectRateSec u = reconnectRateSec t)
    by apply (passive_rate _ _ Pu).
  set (v := u |> emit (handler_connect true) |> set_connected true
              |> emit connectedToSimulator
              |> emit (postLogMessage MsgConnected false)).
  assert (Hstep : connectToSimulator (pre ++ k :: post) t2
                  = set_reconnecting false v).
  { unfold connectToSimulator. fold t0. rewrite E. cbn [connectLoop].
    rewrite Tu, Hrate, (counterAt_poll _ _ _ Hr A). cbn [Nat.add].
    now rewrite Hp, Hk. }
  rewrite Hstep.
  assert (Ev : trace v = trace u ++ [handler_connect true;
                                     connectedToSimulator;
                                     postLogMessage MsgConnected false])
    by (cbn; now rewrite <- !app_assoc).
  assert (X2 : extends t t2) by (eapply extends_app; exact E2).
  assert (X0 : extends t2 t0) by (eapply extends_app; exact E0).
  assert (Xu : extends t0 u) by apply (passive_extends _ _ Pu).
  assert (Xv : extends u v) by (eapply extends_app; exact Ev).
  assert (Hsince : since t (set_reconnecting false v)
                   = [handler_fetchData false;
                      handler_addWeatherRequest WeatherRequest_default;
                      disconnectedFromSimulator;
                      qWarning WarnFetchError;
                      postLogMessage MsgNotConnected false]
                       ++ since t0 u
                       ++ [handler_connect true; connectedToSimulator;
                           postLogMessage MsgConnected false]).
  { change (since t (set_reconnecting false v)) with (since t v).
    rewrite (since_trans t t2 v X2
               (extends_trans _ _ _ X0 (extends_trans _ _ _ Xu Xv))).
    rewrite (since_trans t2 t0 v X0 (extends_trans _ _ _ Xu Xv)).
    rewrite (since_trans t0 u v Xu Xv).
    rewrite (since_app _ _ _ E2), (since_app _ _ _ E0), (since_app _ _ _ Ev).
    reflexivity. }
  rewrite Hsince.
  split; [reflexivity|]. split; [exact Tu|]. split; [reflexivity|].
  split; [exact (passive_next _ _ Pu)|].
  split.
  - rewrite !written_app, (passive_written _ _ Pu). reflexivity.
  - exists (since t0 u). split; [reflexivity|].
    split; [exact Su|]. split; [exact Ku|].
    exact (passive_delivered _ _ Pu).
Qed.

End LostConnection.

Lemma lost_connection_reconnects_witness :
  let t := Samples.online in
  let c := Samples.connectionLost in
  let t' := @loopBody RefFormat.format c t in
  connected t' = true
  /\ terminate t' = false
  /\ reconnecting t' = false
  /\ nextPacketId t' = nextPacketId t + 1
  /\ written (since t t') = []
  /\ exists evs,
      since t t'
      = [handler_fetchData false;
         handler_addWeatherRequest WeatherRequest_default;
         disconnectedFromSimulator;
         qWarning WarnFetchError;
         postLogMessage MsgNotConnected false]
          ++ evs
          ++ [handler_connect true; connectedToSimulator;
              postLogMessage MsgConnected false]
      /\ sleeps evs = 0%nat
      /\ connects evs
         = map (fun _ => handler_connect false)
               (filter (pollsAt (reconnectRateSec t)) (seq 0 0))
      /\ Forall (fun d => d = SimConnectData_default) (delivered evs).
Proof.
  apply (@lost_connection_reconnects RefFormat.format Samples.connectionLost
           [] [] Samples.tickUp Samples.online); reflexivity.
Defined.
